(** * Art-Net / DMX gateway ([artnet.py]): model and verification

    The development embeds [artnet.py]: the [DMXGateway] class (the
    channel buffer, the Art-Net frame built by [send], the single and
    grouped channel writes and the time-stepped fade), the function
    [scale_rgb_to_brightness], the light entity [ArtnetLight] that drives
    the gateway, and [async_setup_platform].

    - Python integers are [Z]; Python floats are the binary64 numbers,
      represented by their exact rational value in [Q], every float
      operation rounding its exact result to the nearest binary64 number
      (ties to even), as IEEE 754 prescribes.  Infinities and
      [OverflowError] are not represented: the theorems bound the numbers
      they range over (levels are bytes, a fade has fewer than [2^53]
      frames, durations and frame rates are [moderate]) so that every
      float the code computes is finite.
    - The gateway object is mutable: the methods run in a small state and
      exception monad over the object and the list of effects performed
      so far (datagrams handed to the socket and suspensions of the
      coroutine).
    - A fade is modelled in isolation: no other coroutine writes to the
      buffer while it is suspended.
    - The calls to [logging] and the creation of the socket have no part
      in the state and are left out. *)

From Stdlib Require Import ZArith QArith Qround Qabs Qpower Lqa Lia List String Ascii Bool.
From Stdlib Require Import PrimFloat FloatOps SpecFloat Uint63.
From stdpp Require Import base list.
Import ListNotations.
Open Scope Z_scope.

(** ** Python primitives *)

Module Py.

(** Exceptions raised by the operations the gateway uses. *)
Inductive exn : Type :=
| IndexError
| ValueError
| StructError
| ZeroDivisionError.

Inductive result (A : Type) : Type :=
| Ok (a : A)
| Raise (e : exn).
Arguments Ok {A} a.
Arguments Raise {A} e.

Definition len {A : Type} (l : list A) : Z := Z.of_nat (length l).

(** [l[i]] with Python's negative indices: [-1] is the last element. *)
Definition index_of (n : Z) (i : Z) : option nat :=
  if (0 <=? i) && (i <? n) then Some (Z.to_nat i)
  else if (- n <=? i) && (i <? 0) then Some (Z.to_nat (n + i))
  else None.

Definition getitem {A : Type} (l : list A) (i : Z) : result A :=
  match index_of (len l) i with
  | Some k => match l !! k with Some a => Ok a | None => Raise IndexError end
  | None => Raise IndexError
  end.

Definition setitem {A : Type} (l : list A) (i : Z) (a : A) : result (list A) :=
  match index_of (len l) i with
  | Some k => Ok (<[k := a]> l)
  | None => Raise IndexError
  end.

(** [range(a, b)]. *)
Definition range (a b : Z) : list Z :=
  map (fun k => a + Z.of_nat k) (seq 0 (Z.to_nat (b - a))).

(** [ord] on the characters of a string literal. *)
Definition ord (c : ascii) : Z := Z.of_nat (nat_of_ascii c).

(** [bytearray.extend]: every item must be in [range(0, 256)]. *)
Definition is_byte (v : Z) : bool := (0 <=? v) && (v <=? 255).

Definition bytearray_extend (packet items : list Z) : result (list Z) :=
  if forallb is_byte items then Ok (packet ++ items) else Raise ValueError.

(** [struct.pack('>h', n)]: a signed 16-bit integer, most significant
    byte first. *)
Definition pack_h_be (n : Z) : result (list Z) :=
  if (-32768 <=? n) && (n <=? 32767)
  then Ok [Z.land (Z.shiftr n 8) 255; Z.land n 255]
  else Raise StructError.

(** *** Floats *)

Definition pow2 (e : Z) : Q := Qpower 2 e.

(** [floor (log2 |x|)] for [x <> 0]. *)
Definition ilog2 (x : Q) : Z :=
  let k := Z.log2 (Z.abs (Qnum x)) - Z.log2 (Zpos (Qden x)) in
  if Qle_bool (pow2 k) (Qabs x) then k else k - 1.

(** Rounding to the nearest integer, ties to the even one: Python 3's
    [round] on a float, and the rounding of a binary64 significand. *)
Definition round_half_even (x : Q) : Z :=
  let f := Qfloor x in
  match Qcompare (x - inject_Z f) (1 # 2) with
  | Lt => f
  | Gt => f + 1
  | Eq => if Z.even f then f else f + 1
  end.

(** The exponent of the last place of the binary64 number nearest to
    [x]: 53 significant bits, least exponent [-1074] (subnormal numbers
    included). *)
Definition ulp_exp (x : Q) : Z := Z.max (ilog2 x - 52) (-1074).

(** The binary64 number nearest to [x], ties to the even significand.
    The exponent has no upper bound here: beyond [2^1024], where Python
    gives [inf] or raises [OverflowError] (on the conversion of an integer
    and on [int] of an infinite float), the model goes on with a finite
    number, and says nothing about the code. *)
Definition rnd64 (x : Q) : Q :=
  if Qeq_bool x 0 then 0%Q
  else
    let e := ulp_exp x in
    Qred (inject_Z (round_half_even (x / pow2 e)) * pow2 e).

(** [float(i)] for an integer [i]. *)
Definition float_of_int (i : Z) : Q := rnd64 (inject_Z i).

(** [a / b] on two integers (true division): the correctly rounded
    quotient. *)
Definition int_truediv (a b : Z) : result Q :=
  if b =? 0 then Raise ZeroDivisionError
  else Ok (rnd64 (inject_Z a / inject_Z b)).

Definition float_mul (a b : Q) : Q := rnd64 (a * b).
Definition float_add (a b : Q) : Q := rnd64 (a + b).

Definition float_truediv (a b : Q) : result Q :=
  if Qeq_bool b 0 then Raise ZeroDivisionError
  else Ok (rnd64 (a / b)).

(** A Python number: an [int] or a [float]. *)
Inductive number : Type :=
| Int (z : Z)
| Float (q : Q).

Definition to_float (a : number) : Q :=
  match a with
  | Int z => float_of_int z
  | Float q => q
  end.

(** [a * b]: exact on two integers, a float product otherwise. *)
Definition mul (a b : number) : number :=
  match a, b with
  | Int x, Int y => Int (x * y)
  | _, _ => Float (float_mul (to_float a) (to_float b))
  end.

(** [int(a)]: truncation toward zero. *)
Definition int (a : number) : Z :=
  match a with
  | Int z => z
  | Float q => if Qle_bool 0 q then Qfloor q else Qceiling q
  end.

End Py.

Import Py.

(** ** The gateway object and its effects *)

Record DMXGateway : Type := {
  _host : string;
  _port : Z;
  _number_of_channels : Z;
  _default_level : option Z;   (* the attribute is only set for a level in 0..255 *)
  _channels : list Z;
  _base_packet : list Z
}.

(** What a method does to the outside: [socket.sendto(packet, (host, port))]
    and [asyncio.sleep(delay)]. *)
Inductive event : Type :=
| Sendto (packet : list Z) (host : string) (port : Z)
| Sleep (delay : Q).

Record state : Type := {
  self : DMXGateway;
  trace : list event
}.

(** Methods: state-passing computations that return or raise.  The state
    reached when an exception is raised is kept: the object stays mutated. *)
Definition M (A : Type) : Type := state -> result A * state.

Definition ret {A : Type} (a : A) : M A := fun s => (Ok a, s).

Definition bind {A B : Type} (m : M A) (k : A -> M B) : M B :=
  fun s =>
    match m s with
    | (Ok a, s') => k a s'
    | (Raise e, s') => (Raise e, s')
    end.

Declare Scope py_scope.
Delimit Scope py_scope with py.
Notation "x <- m ;; k" := (bind m (fun x => k))
  (at level 100, m at next level, right associativity) : py_scope.
Notation "m ;; k" := (bind m (fun _ => k))
  (at level 100, right associativity) : py_scope.
Open Scope py_scope.

(** An expression that may raise, evaluated in a method. *)
Definition lift {A : Type} (r : result A) : M A := fun s => (r, s).

Definition get_self : M DMXGateway := fun s => (Ok (self s), s).

Definition with_channels (g : DMXGateway) (channels : list Z) : DMXGateway :=
  {| _host := _host g; _port := _port g;
     _number_of_channels := _number_of_channels g;
     _default_level := _default_level g;
     _channels := channels;
     _base_packet := _base_packet g |}.

(** [self._channels[i] = v] *)
Definition store_channel (i v : Z) : M unit :=
  fun s =>
    match setitem (_channels (self s)) i v with
    | Ok channels => (Ok tt, {| self := with_channels (self s) channels; trace := trace s |})
    | Raise e => (Raise e, s)
    end.

(** [self._channels[i]] *)
Definition load_channel (i : Z) : M Z :=
  fun s => (getitem (_channels (self s)) i, s).

Definition emit (e : event) : M unit :=
  fun s => (Ok tt, {| self := self s; trace := trace s ++ [e] |}).

(** [for x in xs: body(x)] *)
Fixpoint for_ {A : Type} (xs : list A) (body : A -> M unit) : M unit :=
  match xs with
  | [] => ret tt
  | x :: rest => body x ;; for_ rest body
  end.

(** ** [DMXGateway.__init__] *)

Definition __init__ (host : string) (port : Z) (default_level : Z)
    (number_of_channels : Z) : result DMXGateway :=
  (* Ensure number of channels is within the universe *)
  let n := if number_of_channels <=? 512 then number_of_channels else 512 in
  (* Number of channels must be even *)
  let n := if negb (number_of_channels mod 2 =? 0) then n + 1 else n in
  (* Check the default value is 0-255 *)
  let dl := if (0 <=? default_level) && (default_level <=? 255)
            then Some default_level else None in
  (* Initialise the DMX channel array with the default values *)
  let channels := repeat default_level (Z.to_nat n) in
  let packet := [] in
  let packet := packet ++ map ord (list_ascii_of_string "Art-Net") in
  let packet := packet ++ [0x00] in           (* Null terminate Art-Net *)
  let packet := packet ++ [0x00; 0x50] in     (* Opcode ArtDMX 0x5000 (Little endian) *)
  let packet := packet ++ [0x00; 0x0e] in     (* Protocol version 14 *)
  let packet := packet ++ [0x00; 0x00] in     (* Sequence, Physical *)
  let packet := packet ++ [0x00; 0x00] in     (* Universe *)
  match pack_h_be n with                      (* number of channels, big endian *)
  | Ok size =>
      Ok {| _host := host; _port := port;
            _number_of_channels := n;
            _default_level := dl;
            _channels := channels;
            _base_packet := packet ++ size |}
  | Raise e => Raise e
  end.

(** ** [DMXGateway.send] *)

Definition send : M unit :=
  g <- get_self ;;
  (* Copy the base packet then add the channel array *)
  let packet := _base_packet g in
  packet <- lift (bytearray_extend packet (_channels g)) ;;
  emit (Sendto packet (_host g) (_port g)).

(** ** [DMXGateway.fade_channels] *)

(** The [value] argument: a single level, or a tuple or list of levels. *)
Inductive levels : Type :=
| Single (value : Z)
| Several (values : list Z).

(** One pass of the inner loop, for the channel at position [x] of the
    list; returns the new [values_changed]. *)
Definition fade_channel (original_values value_arr : list Z)
    (number_of_frames i : Z) (values_changed : bool) (x channel : Z) : M bool :=
  target_value <- lift (getitem value_arr (Z.min x (len value_arr - 1))) ;;
  original <- lift (getitem original_values (channel - 1)) ;;
  increment <- lift (int_truediv (target_value - original) number_of_frames) ;;
  let next_value :=
    round_half_even (float_add (float_of_int original)
                               (float_mul increment (float_of_int i))) in
  current <- load_channel (channel - 1) ;;
  if negb (current =? next_value) then
    store_channel (channel - 1) next_value ;;
    ret true
  else ret values_changed.

(** [for x, channel in enumerate(channels)], from position [x] on. *)
Fixpoint fade_channels_loop (original_values value_arr : list Z)
    (number_of_frames i : Z) (values_changed : bool) (x : Z)
    (channels : list Z) : M bool :=
  match channels with
  | [] => ret values_changed
  | channel :: rest =>
      changed <- fade_channel original_values value_arr number_of_frames i
                   values_changed x channel ;;
      fade_channels_loop original_values value_arr number_of_frames i
        changed (x + 1) rest
  end.

(** The body of the outer loop: frame [i]. *)
Definition fade_frame (original_values value_arr : list Z)
    (number_of_frames : Z) (channels : list Z) (fps : number) (i : Z) : M unit :=
  let values_changed := false in
  values_changed <- fade_channels_loop original_values value_arr
                      number_of_frames i values_changed 0 channels ;;
  (if values_changed then send else ret tt) ;;
  delay <- lift (float_truediv 1 (to_float fps)) ;;
  emit (Sleep delay).

(** [max(int(seconds*fps), 1)].  The product is a finite number in the
    model; where it overflows in Python, [int] raises [OverflowError]. *)
Definition number_of_frames (seconds fps : number) : Z :=
  (* Minimum of one frame for a snap transition *)
  Z.max (int (mul seconds fps)) 1.

Definition value_arr (value : levels) : list Z :=
  match value with
  | Single v => [v]
  | Several vs => vs
  end.

Definition fade_channels (channels : list Z) (value : levels)
    (seconds : number) (fps : number) : M unit :=
  g <- get_self ;;
  let original_values := _channels g in
  let n := number_of_frames seconds fps in
  let value_arr := value_arr value in
  for_ (range 1 (n + 1))
       (fade_frame original_values value_arr n channels fps).

(** ** [DMXGateway.set_channel] *)

Definition set_channel (channel value : Z) (send_immediately : bool) : M bool :=
  g <- get_self ;;
  if (1 <=? channel) && (channel <=? _number_of_channels g)
     && ((0 <=? value) && (value <=? 255))
  then
    store_channel (channel - 1) value ;;
    (if send_immediately then send else ret tt) ;;
    ret true
  else ret false.

(** ** [DMXGateway.get_channel_level] *)

Definition get_channel_level (channel : Z) : M Z :=
  load_channel (channel - 1).

(** ** [DMXGateway.set_channel_rgb] *)

(** The body of the loop, for index [i] of [values]. *)
Definition set_channel_rgb_item (channel : Z) (values : list Z) (i : Z) : M unit :=
  g <- get_self ;;
  value <- lift (getitem values i) ;;
  if (channel + i <=? _number_of_channels g)
     && ((0 <=? value) && (value <=? 255))
  then store_channel (channel - 1 + i) value
  else ret tt.

Definition set_channel_rgb (channel : Z) (values : list Z)
    (send_immediately : bool) : M bool :=
  for_ (range 0 (len values)) (set_channel_rgb_item channel values) ;;
  (if send_immediately then send else ret tt) ;;
  ret true.

(** Running a method on a gateway, from an empty trace. *)
Definition run {A : Type} (m : M A) (g : DMXGateway) : result A * state :=
  m {| self := g; trace := [] |}.

(** ** Definitions used by the statements *)

(** The level [fade_channels] computes at frame [i] of [n] for a channel
    that started at [original] and goes to [target]: the float the loop
    body evaluates, and its rounding. *)
Definition float_level (original target n i : Z) : Q :=
  float_add (float_of_int original)
    (float_mul (rnd64 (inject_Z (target - original) / inject_Z n))
               (float_of_int i)).

Definition interpolate (original target n i : Z) : Z :=
  round_half_even (float_level original target n i).

(** The exact position on the line from [original] to [target]. *)
Definition exact_level (original target n i : Z) : Q :=
  inject_Z original + inject_Z (target - original) * (inject_Z i / inject_Z n).

(** The same float evaluated with the binary64 numbers of the kernel, to
    compare [rnd64] with the hardware on concrete fades. *)
Definition float_value (f : float) : Q :=
  match Prim2SF f with
  | S754_finite s m e => Qred ((if s then -1 else 1) * inject_Z (Zpos m) * pow2 e)
  | _ => 0%Q
  end.

Definition float_of_Z (z : Z) : float :=
  if z <? 0 then PrimFloat.opp (PrimFloat.of_uint63 (Uint63.of_Z (- z)))
  else PrimFloat.of_uint63 (Uint63.of_Z z).

Definition kernel_level (original target n i : Z) : float :=
  PrimFloat.add (float_of_Z original)
    (PrimFloat.mul (PrimFloat.div (float_of_Z (target - original)) (float_of_Z n))
                   (float_of_Z i)).

Definition kernel_agrees (original target n : Z) : bool :=
  forallb (fun i => Qeq_bool (float_value (kernel_level original target n i))
                             (float_level original target n i))
          (range 1 (n + 1)).

Definition byte (v : Z) : Prop := 0 <= v <= 255.

(** The class invariant: the buffer has [_number_of_channels] slots, each
    holding a byte. *)
Record well_formed (g : DMXGateway) : Prop := {
  wf_length : len (_channels g) = _number_of_channels g;
  wf_bytes : Forall byte (_channels g)
}.

(** The level of (1-based) [channel] in a buffer. *)
Definition level (buffer : list Z) (channel : Z) : Z :=
  nth (Z.to_nat (channel - 1)) buffer 0.

(** The target of the channel at position [x] of a fade: the last target
    is reused when the list of targets is shorter. *)
Definition target_at (value_arr : list Z) (x : Z) : Z :=
  nth (Z.to_nat (Z.min x (len value_arr - 1))) value_arr 0.

(** The level frame [i] computes for the channel at position [x]. *)
Definition frame_level (original_values value_arr : list Z) (n i x channel : Z) : Z :=
  interpolate (level original_values channel) (target_at value_arr x) n i.

(** The buffer after the inner loop of frame [i], and whether the frame
    found a channel whose computed level differs from the buffered one. *)
Fixpoint frame_buffer (original_values value_arr : list Z) (n i x : Z)
    (channels buffer : list Z) : list Z :=
  match channels with
  | [] => buffer
  | channel :: rest =>
      frame_buffer original_values value_arr n i (x + 1) rest
        (<[Z.to_nat (channel - 1) := frame_level original_values value_arr n i x channel]> buffer)
  end.

Fixpoint frame_dirty (original_values value_arr : list Z) (n i x : Z)
    (channels buffer : list Z) : bool :=
  match channels with
  | [] => false
  | channel :: rest =>
      negb (level buffer channel =? frame_level original_values value_arr n i x channel)
      || frame_dirty original_values value_arr n i (x + 1) rest buffer
  end.

Definition put (g : DMXGateway) (channels : list Z) (tr : list event) : state :=
  {| self := with_channels g channels; trace := tr |}.

(** The buffer and the effects after a run of frames. *)
Fixpoint frames_buffer (original_values value_arr : list Z) (n : Z)
    (channels frames buffer : list Z) : list Z :=
  match frames with
  | [] => buffer
  | i :: rest =>
      frames_buffer original_values value_arr n channels rest
        (frame_buffer original_values value_arr n i 0 channels buffer)
  end.

Definition frame_events (g : DMXGateway) (original_values value_arr : list Z)
    (n : Z) (channels : list Z) (fps : number) (i : Z) (buffer : list Z) : list event :=
  (if frame_dirty original_values value_arr n i 0 channels buffer
   then [Sendto (_base_packet g
                 ++ frame_buffer original_values value_arr n i 0 channels buffer)
                (_host g) (_port g)]
   else [])
  ++ [Sleep (rnd64 (1 / to_float fps))].

Fixpoint frames_events (g : DMXGateway) (original_values value_arr : list Z)
    (n : Z) (channels : list Z) (fps : number) (frames buffer : list Z) : list event :=
  match frames with
  | [] => []
  | i :: rest =>
      frame_events g original_values value_arr n channels fps i buffer
      ++ frames_events g original_values value_arr n channels fps rest
           (frame_buffer original_values value_arr n i 0 channels buffer)
  end.

(** A channel that addresses a slot of the snapshot and of the buffer. *)
Definition valid_channel (original_values buffer : list Z) (channel : Z) : Prop :=
  1 <= channel <= len original_values /\ 1 <= channel <= len buffer.

(** Counting the effects in a trace. *)
Fixpoint count_sleeps (tr : list event) : nat :=
  match tr with
  | [] => 0
  | Sleep _ :: rest => S (count_sleeps rest)
  | Sendto _ _ _ :: rest => count_sleeps rest
  end.

Fixpoint count_sends (tr : list event) : nat :=
  match tr with
  | [] => 0
  | Sendto _ _ _ :: rest => S (count_sends rest)
  | Sleep _ :: rest => count_sends rest
  end.

(** What a receiver of the datagrams holds for a channel each time the
    coroutine is suspended: the level in the last datagram handed to the
    socket, or [current] as long as there was none.  A datagram is the
    base packet of the gateway followed by the buffer.  A frame of a fade
    sends the buffer whenever it has written to it, so the list is the
    level of the channel after each frame. *)
Fixpoint received (g : DMXGateway) (channel current : Z) (tr : list event) : list Z :=
  match tr with
  | [] => []
  | Sendto packet _ _ :: rest =>
      received g channel (level (drop (length (_base_packet g)) packet) channel) rest
  | Sleep _ :: rest => current :: received g channel current rest
  end.

(** A duration or frame rate of at most [2^53] in magnitude: its
    conversion to a float and its product with another such number are
    finite. *)
Definition moderate (x : number) : Prop :=
  match x with
  | Int z => Z.abs z <= 2 ^ 53
  | Float q => (Qabs q <= inject_Z (2 ^ 53))%Q
  end.

(** The loop of [fade_channels] cut after its first [k] frames. *)
Definition fade_prefix (k : Z) (channels : list Z) (value : levels)
    (seconds : number) (fps : number) : M unit :=
  g <- get_self ;;
  let original_values := _channels g in
  let n := number_of_frames seconds fps in
  let value_arr := value_arr value in
  for_ (range 1 (k + 1))
       (fade_frame original_values value_arr n channels fps).


(** A two-channel gateway, as [DMXGateway("dmx", 6454, 0, 2)] builds it. *)
Definition demo : DMXGateway :=
  {| _host := "dmx"; _port := 6454;
     _number_of_channels := 2;
     _default_level := Some 0;
     _channels := [0; 0];
     _base_packet := [65; 114; 116; 45; 78; 101; 116; 0; 0; 80; 0; 14; 0; 0; 0; 0; 0; 2] |}.

(** The fixed part of an Art-Net DMX frame for [n] channels. *)
Definition artnet_header (n : Z) : list Z :=
  map ord (list_ascii_of_string "Art-Net") ++ [0]
  ++ [0x00; 0x50] ++ [0x00; 0x0e] ++ [0; 0; 0; 0] ++ [n / 256; n mod 256].

(** What C9 asks of a group write: it returns [True], every element that is
    a byte and addresses a slot is in that slot afterwards, and every
    channel that no such element addresses keeps its level. *)
Definition group_write_ok (g : DMXGateway) (channel : Z) (values : list Z)
    (send_immediately : bool) : Prop :=
  exists s' : state,
    run (set_channel_rgb channel values send_immediately) g = (Ok true, s') /\
    len (_channels (self s')) = _number_of_channels g /\
    (forall (i : nat) (v : Z),
       values !! i = Some v ->
       channel + Z.of_nat i <= _number_of_channels g -> 0 <= v <= 255 ->
       level (_channels (self s')) (channel + Z.of_nat i) = v) /\
    (forall c : Z,
       1 <= c <= _number_of_channels g ->
       (forall (i : nat) (v : Z),
          values !! i = Some v -> c = channel + Z.of_nat i -> ~ (0 <= v <= 255)) ->
       level (_channels (self s')) c = level (_channels g) c).

(** The buffer after the loop of [set_channel_rgb], from offset [i]. *)
Fixpoint rgb_buffer (channel n i : Z) (values buffer : list Z) : list Z :=
  match values with
  | [] => buffer
  | value :: rest =>
      rgb_buffer channel n (i + 1) rest
        (if (channel + i <=? n) && ((0 <=? value) && (value <=? 255))
         then <[Z.to_nat (channel - 1 + i) := value]> buffer
         else buffer)
  end.

(** ** The light entity and the platform set-up

    [ArtnetLight] drives the gateway for Home Assistant.  What belongs to
    Home Assistant is not part of the model: the base class [Light], the
    feature flags ([_features], [supported_features]), [hass] and
    [discovery_info]; [async_schedule_update_ha_state] is only counted. *)

(** *** More Python primitives *)

(** [max(xs)] on a sequence of integers. *)
Definition max_of (xs : list Z) : result Z :=
  match xs with
  | [] => Raise ValueError
  | x :: rest => Ok (fold_left Z.max rest x)
  end.

(** A dict with string keys, in insertion order; [d.get(key, default)]. *)
Definition dict (V : Type) : Type := list (string * V).

Fixpoint dict_get {V : Type} (d : dict V) (key : string) (default : V) : V :=
  match d with
  | [] => default
  | (k, v) :: rest => if String.eqb k key then v else dict_get rest key default
  end.

(** Expressions that may raise, in sequence. *)
Definition and_then {A B : Type} (r : result A) (k : A -> result B) : result B :=
  match r with
  | Ok a => k a
  | Raise e => Raise e
  end.

Declare Scope result_scope.
Delimit Scope result_scope with result.
Notation "x <- r ;; k" := (and_then r (fun x => k))
  (at level 100, r at next level, right associativity) : result_scope.

(** *** Module constants *)

Definition CONF_LIGHT_TYPE_DIMMER : string := "dimmer".
Definition CONF_LIGHT_TYPE_RGB : string := "rgb".

(** Number of channels used by each light type *)
Definition CHANNEL_COUNT_MAP : dict Z :=
  [(CONF_LIGHT_TYPE_DIMMER, 1); (CONF_LIGHT_TYPE_RGB, 3)].

(** Default color for each light type if not specified in configuration *)
Definition COLOR_MAP : dict (option (list Z)) :=
  [(CONF_LIGHT_TYPE_DIMMER, None); (CONF_LIGHT_TYPE_RGB, Some [255; 255; 255])].

(** *** [scale_rgb_to_brightness] *)

Definition scale_rgb_to_brightness (rgb : list Z) (brightness : Z) : result (list Z) :=
  (brightness_scale <- int_truediv brightness 255 ;;
   let scaled (component : Z) : Z :=
     round_half_even (float_mul (float_of_int component) brightness_scale) in
   r <- getitem rgb 0 ;;
   g <- getitem rgb 1 ;;
   b <- getitem rgb 2 ;;
   Ok [scaled r; scaled g; scaled b])%result.

(** *** Configuration, as [PLATFORM_SCHEMA] lets it through *)

(** An entry of [devices]: the keys [channel] and [name] are required,
    [type], [default_level] and [default_rgb] optional. *)
Record device : Type := {
  device_channel : Z;
  device_name : string;
  device_type : option string;
  device_default_level : option Z;
  device_default_rgb : option (list Z)
}.

(** The platform configuration: [host], [dmx_channels] and [devices] are
    required, [port] and [default_level] optional. *)
Record platform : Type := {
  platform_host : string;
  platform_dmx_channels : Z;
  platform_port : option Z;
  platform_default_level : option Z;
  platform_devices : list device
}.

(** The keyword arguments of a service call; each may be absent. *)
Record kwargs : Type := {
  ATTR_BRIGHTNESS : option Z;
  ATTR_RGB_COLOR : option (list Z);
  ATTR_TRANSITION : option number
}.

(** *** Exceptions and methods of the entity *)

Inductive error : Type :=
| KeyError (key : string)
| AttributeError (attribute : string)
| TypeError
| Builtin (e : exn).          (* raised by the gateway or by an operator *)

Inductive outcome (A : Type) : Type :=
| Returns (a : A)
| Raises (e : error).
Arguments Returns {A} a.
Arguments Raises {A} e.

(** A method over a state [S]; the state reached when it raises is kept. *)
Definition L (S A : Type) : Type := S -> outcome A * S.

Definition unit_ {S A : Type} (a : A) : L S A := fun s => (Returns a, s).

Definition then_ {S A B : Type} (m : L S A) (k : A -> L S B) : L S B :=
  fun s =>
    match m s with
    | (Returns a, s') => k a s'
    | (Raises e, s') => (Raises e, s')
    end.

Declare Scope light_scope.
Delimit Scope light_scope with light.
Notation "x <- m ;; k" := (then_ m (fun x => k))
  (at level 100, m at next level, right associativity) : light_scope.
Notation "m ;; k" := (then_ m (fun _ => k))
  (at level 100, right associativity) : light_scope.

Definition raise {S A : Type} (e : error) : L S A := fun s => (Raises e, s).

(** An operator or builtin that may raise. *)
Definition builtin {S A : Type} (r : result A) : L S A :=
  fun s => match r with
           | Ok a => (Returns a, s)
           | Raise e => (Raises (Builtin e), s)
           end.

(** [d[key]] on an optional key. *)
Definition item {S A : Type} (key : string) (v : option A) : L S A :=
  match v with
  | Some a => unit_ a
  | None => raise (KeyError key)
  end.

(** Reading an attribute that may not have been assigned. *)
Definition attribute {S A : Type} (name : string) (v : option A) : L S A :=
  match v with
  | Some a => unit_ a
  | None => raise (AttributeError name)
  end.

(** Subscripting a value that may be [None]. *)
Definition subscriptable {S A : Type} (v : option A) : L S A :=
  match v with
  | Some a => unit_ a
  | None => raise TypeError
  end.

(** A method of the gateway, called on the controller. *)
Definition call {A : Type} (m : M A) : L state A :=
  fun s => match m s with
           | (Ok a, s') => (Returns a, s')
           | (Raise e, s') => (Raises (Builtin e), s')
           end.

(** *** [DMXGateway.default_level] *)

(** The property reads [self._default_level], which [__init__] assigns
    only for a level in [0, 255]. *)
Definition default_level (g : DMXGateway) : outcome Z :=
  match _default_level g with
  | Some level => Returns level
  | None => Raises (AttributeError "_default_level")
  end.

(** *** [ArtnetLight] *)

(** The colour and the brightness [__init__] takes from [default_rgb]:
    the colour divided by its largest component over 255, truncated, and
    that largest component. *)
Definition default_color (tmpColor : list Z) : result (list Z * Z) :=
  (m <- max_of tmpColor ;;
   scale <- int_truediv m 255 ;;
   r <- (c <- getitem tmpColor 0 ;; float_truediv (float_of_int c) scale) ;;
   g <- (c <- getitem tmpColor 1 ;; float_truediv (float_of_int c) scale) ;;
   b <- (c <- getitem tmpColor 2 ;; float_truediv (float_of_int c) scale) ;;
   brightness <- max_of tmpColor ;;
   Ok ([int (Float r); int (Float g); int (Float b)], brightness))%result.

Module ArtnetLight.

Record t : Type := {
  _channel : Z;
  _type : string;
  _channel_count : Z;
  _name : string;
  _channels : list Z;
  _rgb : option (list Z);        (* [None] is Python's [None] *)
  _brightness : option Z;        (* [None]: never assigned *)
  _state : bool
}.

Definition __init__ (light : device) : L state t :=
  (let _channel := device_channel light in
   _type <- item "type" (device_type light) ;;
   let _channel_count := dict_get CHANNEL_COUNT_MAP _type 1 in
   let _name := device_name light in
   let _channels := range _channel (_channel + _channel_count) in
   color <-
     match device_default_rgb light with
     | Some tmpColor =>
         color <- builtin (default_color tmpColor) ;;
         unit_ (Some (fst color), Some (snd color))
     | None => unit_ (dict_get COLOR_MAP _type None, None)
     end ;;
   let _rgb := fst color in
   let _brightness := snd color in
   (* Synchronise state of channels (without sending any commands) *)
   _brightness <-
     (if String.eqb _type CONF_LIGHT_TYPE_RGB then
        brightness <- attribute "_brightness" _brightness ;;
        rgb <- subscriptable _rgb ;;
        scaled_rgb <- builtin (scale_rgb_to_brightness rgb brightness) ;;
        call (set_channel_rgb _channel scaled_rgb false) ;;
        unit_ brightness
      else
        (match device_default_level light with
         | Some level => call (set_channel _channel level false) ;; unit_ tt
         | None => unit_ tt
         end) ;;
        call (get_channel_level _channel)) ;;
   unit_ {| _channel := _channel; _type := _type; _channel_count := _channel_count;
            _name := _name; _channels := _channels; _rgb := _rgb;
            _brightness := Some _brightness;
            _state := 0 <=? _brightness |})%light.

(** The entity, the gateway it controls and the state updates scheduled
    with Home Assistant. *)
Record home : Type := {
  entity : t;
  controller : state;
  scheduled_updates : nat
}.

Definition get_entity : L home t := fun h => (Returns (entity h), h).

Definition set_entity (e : t) : L home unit :=
  fun h => (Returns tt, {| entity := e; controller := controller h;
                          scheduled_updates := scheduled_updates h |}).

Definition on_controller {A : Type} (m : M A) : L home A :=
  fun h =>
    let (r, s) := m (controller h) in
    let h' := {| entity := entity h; controller := s;
                 scheduled_updates := scheduled_updates h |} in
    match r with
    | Ok a => (Returns a, h')
    | Raise e => (Raises (Builtin e), h')
    end.

Definition async_schedule_update_ha_state : L home unit :=
  fun h => (Returns tt, {| entity := entity h; controller := controller h;
                          scheduled_updates := S (scheduled_updates h) |}).

Definition with_state (self : t) (on : bool) : t :=
  {| _channel := _channel self;
     _type := _type self;
     _channel_count := _channel_count self;
     _name := _name self;
     _channels := _channels self;
     _rgb := _rgb self;
     _brightness := _brightness self;
     _state := on |}.

Definition with_brightness (self : t) (brightness : Z) : t :=
  {| _channel := _channel self;
     _type := _type self;
     _channel_count := _channel_count self;
     _name := _name self;
     _channels := _channels self;
     _rgb := _rgb self;
     _brightness := Some brightness;
     _state := _state self |}.

Definition with_rgb (self : t) (rgb : list Z) : t :=
  {| _channel := _channel self;
     _type := _type self;
     _channel_count := _channel_count self;
     _name := _name self;
     _channels := _channels self;
     _rgb := Some rgb;
     _brightness := _brightness self;
     _state := _state self |}.

(** [kwargs.get(ATTR_TRANSITION, 0)] *)
Definition transition (kw : kwargs) : number :=
  match ATTR_TRANSITION kw with
  | Some seconds => seconds
  | None => Int 0
  end.

Definition async_turn_on (kw : kwargs) : L home unit :=
  (self <- get_entity ;;
   set_entity (with_state self true) ;;
   (match ATTR_BRIGHTNESS kw with
    | Some brightness => self <- get_entity ;; set_entity (with_brightness self brightness)
    | None => unit_ tt
    end) ;;
   (match ATTR_RGB_COLOR kw with
    | Some rgb => self <- get_entity ;; set_entity (with_rgb self rgb)
    | None => unit_ tt
    end) ;;
   self <- get_entity ;;
   (if String.eqb (_type self) CONF_LIGHT_TYPE_RGB then
      brightness <- attribute "_brightness" (_brightness self) ;;
      rgb <- subscriptable (_rgb self) ;;
      scaled_rgb <- builtin (scale_rgb_to_brightness rgb brightness) ;;
      on_controller (fade_channels (_channels self) (Several scaled_rgb)
                       (Int (int (transition kw))) (Int 40))
    else
      (* Use fade channels for single channel fixtures *)
      brightness <- attribute "_brightness" (_brightness self) ;;
      on_controller (fade_channels (_channels self) (Single brightness)
                       (Int (int (transition kw))) (Int 40))) ;;
   async_schedule_update_ha_state)%light.

Definition async_turn_off (kw : kwargs) : L home unit :=
  (self <- get_entity ;;
   on_controller (fade_channels (_channels self) (Single 0)
                    (transition kw) (Int 40)) ;;
   self <- get_entity ;;
   set_entity (with_state self false) ;;
   async_schedule_update_ha_state)%light.

(** The properties Home Assistant reads.  [brightness] is [None] where
    reading [self._brightness] raises, the attribute never assigned. *)
Definition name (self : t) : string := _name self.
Definition brightness (self : t) : option Z := _brightness self.
Definition is_on (self : t) : bool := _state self.
Definition rgb_color (self : t) : option (list Z) := _rgb self.
Definition device_state_attributes (self : t) : dict (list Z) :=
  [("dmx_channels"%string, _channels self)].
Definition should_poll (self : t) : bool := false.

End ArtnetLight.

(** [ArtnetLight(light, dmx) for light in config[CONF_DEVICES]], the
    generator [add_devices] consumes in order: every light is constructed
    on the one gateway [dmx]. *)
Fixpoint add_devices (devices : list device) : L state (list ArtnetLight.t) :=
  match devices with
  | [] => unit_ []
  | light :: rest =>
      (entity <- ArtnetLight.__init__ light ;;
       entities <- add_devices rest ;;
       unit_ (entity :: entities))%light
  end.

(** The set-up yields the entities handed to [add_devices] and the gateway
    they share. *)
Definition async_setup_platform (config : platform) : outcome (list ArtnetLight.t * state) :=
  let host := platform_host config in
  let port := match platform_port config with Some port => port | None => 6454 end in
  (* Send the specified default level to pre-fill the channels with *)
  match platform_default_level config with
  | None => Raises TypeError      (* [DMXGateway.__init__] compares [0 <= None] *)
  | Some overall_default_level =>
      match __init__ host port overall_default_level (platform_dmx_channels config) with
      | Raise e => Raises (Builtin e)
      | Ok dmx =>
          match add_devices (platform_devices config) {| self := dmx; trace := [] |} with
          | (Returns entities, s) => Returns (entities, s)
          | (Raises e, _) => Raises e
          end
      end
  end.

(** A four-channel gateway, as [DMXGateway("dmx", 6454, 0, 4)] builds it,
    and an RGB light on its first three channels. *)
Definition stage : DMXGateway :=
  {| _host := "dmx"; _port := 6454;
     _number_of_channels := 4;
     _default_level := Some 0;
     _channels := [0; 0; 0; 0];
     _base_packet := [65; 114; 116; 45; 78; 101; 116; 0; 0; 80; 0; 14; 0; 0; 0; 0; 0; 4] |}.

Definition spot : device :=
  {| device_channel := 1; device_name := "spot"; device_type := Some CONF_LIGHT_TYPE_RGB;
     device_default_level := None; device_default_rgb := Some [132; 60; 0] |}.

(** A dimmer on the fourth channel, the two lights as their constructors
    leave them, and the configuration that declares them. *)
Definition desk : device :=
  {| device_channel := 4; device_name := "desk"; device_type := Some CONF_LIGHT_TYPE_DIMMER;
     device_default_level := Some 10; device_default_rgb := None |}.

Definition spot_light : ArtnetLight.t :=
  {| ArtnetLight._channel := 1; ArtnetLight._type := CONF_LIGHT_TYPE_RGB;
     ArtnetLight._channel_count := 3; ArtnetLight._name := "spot";
     ArtnetLight._channels := [1; 2; 3];
     ArtnetLight._rgb := Some [254; 115; 0];
     ArtnetLight._brightness := Some 132;
     ArtnetLight._state := true |}.

Definition desk_light : ArtnetLight.t :=
  {| ArtnetLight._channel := 4; ArtnetLight._type := CONF_LIGHT_TYPE_DIMMER;
     ArtnetLight._channel_count := 1; ArtnetLight._name := "desk";
     ArtnetLight._channels := [4];
     ArtnetLight._rgb := None;
     ArtnetLight._brightness := Some 10;
     ArtnetLight._state := true |}.

Definition living_room : platform :=
  {| platform_host := "dmx"; platform_dmx_channels := 4; platform_port := None;
     platform_default_level := Some 0; platform_devices := [spot; desk] |}.

(** A light and the gateway, nothing sent and no update scheduled yet. *)
Definition at_home (e : ArtnetLight.t) (g : DMXGateway) : ArtnetLight.home :=
  {| ArtnetLight.entity := e;
     ArtnetLight.controller := {| self := g; trace := [] |};
     ArtnetLight.scheduled_updates := 0 |}.

(** ** Definitions used by the statements about the lights *)



(** The gateway a completed fade leaves. *)
Definition faded (g : DMXGateway) (channels : list Z) (value : levels)
    (seconds fps : number) : DMXGateway :=
  with_channels g
    (frames_buffer (_channels g) (value_arr value) (number_of_frames seconds fps)
       channels (range 1 (number_of_frames seconds fps + 1)) (_channels g)).

(** A service call without arguments. *)
Definition no_kwargs : kwargs :=
  {| ATTR_BRIGHTNESS := None; ATTR_RGB_COLOR := None; ATTR_TRANSITION := None |}.

(** The attributes [async_turn_on] assigns before it fades. *)
Definition switched_on (kw : kwargs) (e : ArtnetLight.t) : ArtnetLight.t :=
  let e := ArtnetLight.with_state e true in
  let e := match ATTR_BRIGHTNESS kw with
           | Some brightness => ArtnetLight.with_brightness e brightness
           | None => e
           end in
  match ATTR_RGB_COLOR kw with
  | Some rgb => ArtnetLight.with_rgb e rgb
  | None => e
  end.

(** A computation keeps [P] when the state it ends in, returning or
    raising, satisfies [P] whenever the state it starts from does. *)
Definition keeps {A : Type} (P : state -> Prop) (m : L state A) : Prop :=
  forall s : state, P s -> P (snd (m s)).

(** What the constructor of a light may do to the gateway: no datagram,
    no suspension, and the class invariant stays. *)
Definition synchronised (tr : list event) (s : state) : Prop :=
  trace s = tr /\ well_formed (self s).

(** * Properties of the arithmetic *)

Section Rounding.
Local Open Scope Q_scope.

#[global] Instance round_half_even_proper :
  Proper (Qeq ==> eq) round_half_even.
Proof.
  intros x y Hxy. unfold round_half_even.
  rewrite (Qfloor_comp _ _ Hxy).
  assert (H : x - inject_Z (Qfloor y) == y - inject_Z (Qfloor y))
    by (rewrite Hxy; reflexivity).
  rewrite (Qcompare_comp _ _ H (1 # 2) (1 # 2) ltac:(reflexivity)).
  reflexivity.
Qed.

Lemma floor_bounds (x : Q) :
  inject_Z (Qfloor x) <= x /\ x < inject_Z (Qfloor x) + 1.
Proof.
  split; [apply Qfloor_le |].
  pose proof (Qlt_floor x) as H. rewrite inject_Z_plus in H. exact H.
Qed.

(** [round_half_even x] is within one half of [x]. *)
Lemma round_half_even_near (x : Q) :
  x - (1 # 2) <= inject_Z (round_half_even x) <= x + (1 # 2).
Proof.
  unfold round_half_even.
  destruct (floor_bounds x) as [Hlo Hhi].
  destruct (Qcompare_spec (x - inject_Z (Qfloor x)) (1 # 2)) as [He | Hl | Hg].
  - destruct (Z.even (Qfloor x));
      [| rewrite inject_Z_plus; change (inject_Z 1) with 1]; lra.
  - lra.
  - rewrite inject_Z_plus. change (inject_Z 1) with 1. lra.
Qed.

Lemma inject_Z_lt_1 (a b : Z) :
  inject_Z a < inject_Z b + 1 -> (a <= b)%Z.
Proof.
  intros H. change 1 with (inject_Z 1) in H.
  rewrite <- inject_Z_plus, <- Zlt_Qlt in H. lia.
Qed.

(** An integer strictly within one half of [x] is its rounding. *)
Lemma round_half_even_unique (x : Q) (z : Z) :
  inject_Z z - (1 # 2) < x -> x < inject_Z z + (1 # 2) ->
  round_half_even x = z.
Proof.
  intros Hlo Hhi. destruct (round_half_even_near x) as [H1 H2].
  apply Z.le_antisymm; apply inject_Z_lt_1; lra.
Qed.

Lemma round_half_even_Z (z : Z) : round_half_even (inject_Z z) = z.
Proof. apply round_half_even_unique; lra. Qed.

Lemma round_half_even_mono (x y : Q) :
  x <= y -> (round_half_even x <= round_half_even y)%Z.
Proof.
  intros Hxy.
  destruct (round_half_even_near x) as [_ Hx], (round_half_even_near y) as [Hy _].
  destruct (Z_le_gt_dec (round_half_even x) (round_half_even y)) as [|Hgt]; [assumption|].
  exfalso.
  assert (Hz : (round_half_even y + 1 <= round_half_even x)%Z) by lia.
  rewrite Zle_Qle, inject_Z_plus in Hz. change (inject_Z 1) with 1 in Hz.
  assert (Heq : x == y) by lra.
  rewrite (round_half_even_proper _ _ Heq) in Hgt. lia.
Qed.

End Rounding.

(** ** Rounding to binary64 *)

Section Binary64.
Local Open Scope Q_scope.

Lemma pow2_pos (e : Z) : 0 < pow2 e.
Proof. apply Qpower_0_lt. reflexivity. Qed.

Lemma pow2_add (a b : Z) : pow2 (a + b) == pow2 a * pow2 b.
Proof. apply Qpower_plus. discriminate. Qed.


Lemma pow2_lt_inv (a b : Z) : pow2 a < pow2 b -> (a < b)%Z.
Proof. intros H. apply (Qpower_lt_compat_l_inv 2); [assumption | reflexivity]. Qed.

Lemma pow2_Z (k : Z) : (0 <= k)%Z -> pow2 k == inject_Z (2 ^ k).
Proof. intros H. unfold pow2. rewrite Zpower_Qpower by assumption. reflexivity. Qed.

(** Dividing by a power of two is multiplying by the opposite power. *)
Lemma div_pow2 (x : Q) (e : Z) : x / pow2 e == x * pow2 (- e).
Proof.
  unfold Qdiv. apply Qmult_comp; [reflexivity |].
  unfold pow2. rewrite Qpower_opp. reflexivity.
Qed.

Lemma pow2_cancel (x : Q) (e : Z) : x / pow2 e * pow2 e == x.
Proof. pose proof (pow2_pos e). field. lra. Qed.

Opaque pow2.

Lemma Qabs_num_den (x : Q) :
  Qabs x == inject_Z (Z.abs (Qnum x)) / inject_Z (Zpos (Qden x)).
Proof.
  destruct x as [a b]. unfold Qabs. simpl Qnum. simpl Qden.
  rewrite (Qmake_Qdiv (Z.abs a) b). reflexivity.
Qed.

(** [ilog2 x] is the binary exponent of [x]. *)
Lemma ilog2_spec (x : Q) :
  ~ x == 0 -> pow2 (ilog2 x) <= Qabs x < pow2 (ilog2 x + 1).
Proof.
  intros Hx.
  set (a := Z.abs (Qnum x)). set (b := Zpos (Qden x)).
  assert (Ha : (0 < a)%Z).
  { subst a. destruct x as [n d]. unfold Qeq in Hx. simpl in *. lia. }
  assert (Hb : (0 < b)%Z) by (subst b; lia).
  pose proof (Z.log2_spec a Ha) as [Ha1 Ha2].
  pose proof (Z.log2_spec b Hb) as [Hb1 Hb2].
  pose proof (Z.log2_nonneg a) as Hla. pose proof (Z.log2_nonneg b) as Hlb.
  rewrite Zle_Qle in Ha1, Hb1. rewrite Zlt_Qlt in Ha2, Hb2.
  rewrite <- !pow2_Z in Ha1, Hb1, Ha2, Hb2 by lia.
  assert (Habs : Qabs x == inject_Z a / inject_Z b) by apply Qabs_num_den.
  assert (Hbq : 0 < inject_Z b) by (rewrite <- (Zlt_Qlt 0); assumption).
  assert (Hxb : Qabs x * inject_Z b == inject_Z a).
  { rewrite Habs. field. lra. }
  clear Habs.
  set (k := (Z.log2 a - Z.log2 b)%Z).
  unfold ilog2. fold a b k.
  assert (Hkeq : k = (Z.log2 a - Z.log2 b)%Z) by reflexivity.
  clearbody k. clearbody a b.
  pose proof (pow2_pos k) as Hk. pose proof (pow2_pos (Z.log2 b)) as Hpb.
  assert (Hup : Qabs x < pow2 (k + 1)).
  { assert (E : pow2 (Z.succ (Z.log2 a)) == pow2 (k + 1) * pow2 (Z.log2 b)).
    { rewrite <- pow2_add.
      replace (k + 1 + Z.log2 b)%Z with (Z.succ (Z.log2 a)) by lia.
      reflexivity. }
    pose proof (pow2_pos (k + 1)) as Hk1.
    destruct (Qlt_le_dec (Qabs x) (pow2 (k + 1))) as [|Hge]; [assumption | exfalso].
    assert (pow2 (k + 1) * pow2 (Z.log2 b) <= Qabs x * inject_Z b).
    { apply Qmult_le_compat_nonneg; split; lra. }
    clear - H Hxb Ha2 E. lra. }
  assert (Hlow : pow2 (k - 1) <= Qabs x).
  { assert (E : pow2 (Z.log2 a) == pow2 (k - 1) * pow2 (Z.succ (Z.log2 b))).
    { rewrite <- pow2_add.
      replace (k - 1 + Z.succ (Z.log2 b))%Z with (Z.log2 a) by lia.
      reflexivity. }
    pose proof (pow2_pos (k - 1)) as Hk1.
    pose proof (Qabs_nonneg x) as Hnn.
    destruct (Qlt_le_dec (Qabs x) (pow2 (k - 1))) as [Hlt | ]; [exfalso | assumption].
    assert (Qabs x * inject_Z b <= pow2 (k - 1) * inject_Z b)
      by (apply Qmult_le_compat_r; lra).
    assert (pow2 (k - 1) * inject_Z b < pow2 (k - 1) * pow2 (Z.succ (Z.log2 b)))
      by (apply Qmult_lt_l; assumption).
    clear - H H0 Hxb Ha1 E. lra. }
  destruct (Qle_bool (pow2 k) (Qabs x)) eqn:Hc.
  - apply Qle_bool_iff in Hc. split; assumption.
  - assert (Hlt : Qabs x < pow2 k).
    { apply Qnot_le_lt. intros H. apply Qle_bool_iff in H. congruence. }
    replace (k - 1 + 1)%Z with k by lia. split; assumption.
Qed.

(** The exponent is determined by the value. *)
Lemma ilog2_unique (x : Q) (e : Z) :
  pow2 e <= Qabs x < pow2 (e + 1) -> ilog2 x = e.
Proof.
  intros [H1 H2].
  assert (Hx : ~ x == 0).
  { intros E. assert (Qabs x == 0) by (rewrite E; reflexivity).
    pose proof (pow2_pos e). lra. }
  destruct (ilog2_spec x Hx) as [G1 G2].
  assert (ilog2 x < e + 1)%Z by (apply pow2_lt_inv; lra).
  assert (e < ilog2 x + 1)%Z by (apply pow2_lt_inv; lra).
  lia.
Qed.

Lemma ilog2_eq (x y : Q) : x == y -> ~ x == 0 -> ilog2 x = ilog2 y.
Proof.
  intros Hxy Hx. symmetry. apply ilog2_unique. rewrite <- Hxy.
  apply ilog2_spec. assumption.
Qed.

Lemma rnd64_zero (x : Q) : x == 0 -> rnd64 x = 0.
Proof.
  intros H. unfold rnd64. apply Qeq_bool_iff in H. rewrite H. reflexivity.
Qed.

Lemma rnd64_nonzero (x : Q) :
  ~ x == 0 ->
  rnd64 x = Qred (inject_Z (round_half_even (x / pow2 (ulp_exp x))) * pow2 (ulp_exp x)).
Proof.
  intros H. unfold rnd64.
  destruct (Qeq_bool x 0) eqn:E; [| reflexivity].
  apply Qeq_bool_iff in E. contradiction.
Qed.

#[global] Instance rnd64_proper : Proper (Qeq ==> eq) rnd64.
Proof.
  intros x y Hxy.
  destruct (Qeq_dec x 0) as [Hx | Hx].
  - rewrite (rnd64_zero x Hx). symmetry. apply rnd64_zero. rewrite <- Hxy. exact Hx.
  - assert (Hy : ~ y == 0) by (rewrite <- Hxy; exact Hx).
    rewrite (rnd64_nonzero x Hx), (rnd64_nonzero y Hy).
    unfold ulp_exp. rewrite <- (ilog2_eq x y Hxy Hx).
    apply Qred_complete.
    assert (H : x / pow2 (Z.max (ilog2 x - 52) (-1074))
                == y / pow2 (Z.max (ilog2 x - 52) (-1074))).
    { apply Qmult_comp; [exact Hxy | reflexivity]. }
    rewrite (round_half_even_proper _ _ H). reflexivity.
Qed.

(** The rounding error is at most half a unit in the last place. *)
Lemma rnd64_half_ulp (x : Q) :
  x - pow2 (ulp_exp x) * (1 # 2) <= rnd64 x <= x + pow2 (ulp_exp x) * (1 # 2).
Proof.
  pose proof (pow2_pos (ulp_exp x)) as Hp.
  destruct (Qeq_dec x 0) as [Hx | Hx].
  - rewrite (rnd64_zero x Hx). lra.
  - rewrite (rnd64_nonzero x Hx), Qred_correct.
    pose proof (round_half_even_near (x / pow2 (ulp_exp x))) as [H1 H2].
    pose proof (pow2_cancel x (ulp_exp x)) as Hc.
    apply (Qmult_le_compat_r _ _ (pow2 (ulp_exp x))) in H1; [| lra].
    apply (Qmult_le_compat_r _ _ (pow2 (ulp_exp x))) in H2; [| lra].
    clear Hx. lra.
Qed.

Lemma ulp_bound (x : Q) :
  ~ x == 0 -> pow2 (ulp_exp x) <= Qabs x * pow2 (-52) + pow2 (-1074).
Proof.
  intros Hx. destruct (ilog2_spec x Hx) as [H1 _].
  pose proof (pow2_pos (-52)) as H52. pose proof (pow2_pos (-1074)) as Hm.
  pose proof (pow2_pos (ilog2 x - 52)) as He.
  assert (E : pow2 (ilog2 x - 52) == pow2 (ilog2 x) * pow2 (-52)) by apply pow2_add.
  assert (pow2 (ilog2 x) * pow2 (-52) <= Qabs x * pow2 (-52))
    by (apply Qmult_le_compat_r; lra).
  unfold ulp_exp. destruct (Z.max_spec (ilog2 x - 52) (-1074)) as [[_ ->] | [_ ->]];
    clear - H E He Hm H52; lra.
Qed.

End Binary64.

Section Binary64Bounds.
Local Open Scope Q_scope.

Lemma rnd64_eq (x : Q) :
  ~ x == 0 ->
  rnd64 x == inject_Z (round_half_even (x / pow2 (ulp_exp x))) * pow2 (ulp_exp x).
Proof. intros H. rewrite (rnd64_nonzero x H). apply Qred_correct. Qed.

(** Relative rounding error [2^-53], absolute error [2^-1075] near zero. *)
Lemma rnd64_error (x B : Q) :
  - B <= x <= B ->
  x - (B * pow2 (-53) + pow2 (-1075)) <= rnd64 x
    <= x + (B * pow2 (-53) + pow2 (-1075)).
Proof.
  intros HB.
  pose proof (pow2_pos (-53)) as H53. pose proof (pow2_pos (-1075)) as He.
  assert (HB0 : 0 <= B) by lra.
  assert (HBu : 0 <= B * pow2 (-53)) by (apply Qmult_le_0_compat; lra).
  destruct (Qeq_dec x 0) as [Hx | Hx].
  - rewrite (rnd64_zero x Hx). lra.
  - pose proof (rnd64_half_ulp x) as [H1 H2].
    pose proof (ulp_bound x Hx) as Hu.
    assert (Habs : Qabs x <= B) by (apply Qabs_Qle_condition; exact HB).
    assert (E1 : pow2 (-52) * (1 # 2) == pow2 (-53)) by (vm_compute; reflexivity).
    assert (E2 : pow2 (-1074) * (1 # 2) == pow2 (-1075)) by (vm_compute; reflexivity).
    assert (Hm : Qabs x * pow2 (-53) <= B * pow2 (-53))
      by (apply Qmult_le_compat_r; lra).
    assert (E3 : Qabs x * pow2 (-52) * (1 # 2) == Qabs x * pow2 (-53))
      by (rewrite <- E1; ring).
    clear - H1 H2 Hu Hm E2 E3. lra.
Qed.

Lemma ilog2_lt (x : Q) (k : Z) : ~ x == 0 -> Qabs x < pow2 k -> (ilog2 x < k)%Z.
Proof.
  intros Hx H. destruct (ilog2_spec x Hx) as [H1 _].
  apply pow2_lt_inv. lra.
Qed.

(** Integers below [2^53] are binary64 numbers. *)
Lemma rnd64_Z (z : Z) :
  (Z.abs z < 2 ^ 53)%Z -> rnd64 (inject_Z z) == inject_Z z.
Proof.
  intros Hz.
  destruct (Z.eq_dec z 0%Z) as [-> | Hnz]; [reflexivity |].
  assert (Hx : ~ inject_Z z == 0).
  { unfold Qeq. simpl. lia. }
  rewrite (rnd64_eq _ Hx).
  assert (He : (ilog2 (inject_Z z) < 53)%Z).
  { apply ilog2_lt; [exact Hx |].
    rewrite (pow2_Z 53) by lia.
    assert (E : Qabs (inject_Z z) == inject_Z (Z.abs z)) by reflexivity.
    rewrite E, <- Zlt_Qlt. exact Hz. }
  set (s := ulp_exp (inject_Z z)).
  assert (Hs : (s <= 0)%Z) by (subst s; unfold ulp_exp; lia).
  assert (E : inject_Z z / pow2 s == inject_Z (z * 2 ^ (- s))).
  { rewrite div_pow2, (pow2_Z (- s)) by lia. rewrite inject_Z_mult. reflexivity. }
  rewrite (round_half_even_proper _ _ E), round_half_even_Z.
  rewrite inject_Z_mult, <- (pow2_Z (- s)) by lia.
  rewrite <- Qmult_assoc, <- pow2_add.
  replace (- s + s)%Z with 0%Z by lia.
  change (pow2 0) with 1. ring.
Qed.

Lemma rnd64_nonneg (x : Q) : 0 <= x -> 0 <= rnd64 x.
Proof.
  intros Hx. destruct (Qeq_dec x 0) as [H0 | H0].
  - rewrite (rnd64_zero x H0). lra.
  - rewrite (rnd64_eq x H0).
    pose proof (pow2_pos (ulp_exp x)) as Hp.
    apply Qmult_le_0_compat; [| lra].
    rewrite <- (Zle_Qle 0).
    rewrite <- (round_half_even_Z 0). apply round_half_even_mono.
    apply Qle_shift_div_l; [exact Hp |].
    change (inject_Z 0) with 0. lra.
Qed.


End Binary64Bounds.

(** ** The level a frame computes *)

Section Interpolation.
Local Open Scope Q_scope.

Variables original target n i : Z.
Hypothesis original_byte : (0 <= original <= 255)%Z.
Hypothesis target_byte : (0 <= target <= 255)%Z.
Hypothesis frame : (1 <= i <= n)%Z.
Hypothesis frames_exact : (n < 2 ^ 53)%Z.

Lemma exact_level_range : 0 <= exact_level original target n i <= 255.
Proof.
  unfold exact_level. unfold Z.sub. rewrite inject_Z_plus, inject_Z_opp.
  set (r := inject_Z i / inject_Z n).
  assert (Hn : 0 < inject_Z n) by (rewrite <- (Zlt_Qlt 0); lia).
  assert (Hr : 0 <= r <= 1).
  { subst r. split.
    - apply Qle_shift_div_l; [exact Hn |]. rewrite Qmult_0_l, <- (Zle_Qle 0). lia.
    - apply Qle_shift_div_r; [exact Hn |]. rewrite Qmult_1_l, <- Zle_Qle. lia. }
  assert (Ho : 0 <= inject_Z original <= 255).
  { split; [rewrite <- (Zle_Qle 0) | rewrite <- (Zle_Qle _ 255)]; lia. }
  assert (Ht : 0 <= inject_Z target <= 255).
  { split; [rewrite <- (Zle_Qle 0) | rewrite <- (Zle_Qle _ 255)]; lia. }
  clearbody r. clear - Hr Ho Ht. nra.
Qed.

Lemma float_level_error :
  exact_level original target n i - (1 # 1024)
  <= float_level original target n i
  <= exact_level original target n i + (1 # 1024).
Proof.
  unfold float_level, float_add, float_mul, float_of_int, exact_level.
  assert (Ei : rnd64 (inject_Z i) == inject_Z i) by (apply rnd64_Z; lia).
  assert (Eo : rnd64 (inject_Z original) == inject_Z original)
    by (apply rnd64_Z; lia).
  rewrite (rnd64_proper (_ * rnd64 (inject_Z i)) (_ * inject_Z i))
    by (apply Qmult_comp; [reflexivity | exact Ei]).
  set (O := inject_Z original) in *. set (D := inject_Z (target - original)).
  set (I := inject_Z i). set (N := inject_Z n).
  assert (HN : 0 < N) by (subst N; rewrite <- (Zlt_Qlt 0); lia).
  assert (HI : 0 <= I <= N).
  { subst I N. split; [rewrite <- (Zle_Qle 0) | rewrite <- Zle_Qle]; lia. }
  assert (HN53 : N <= inject_Z (2 ^ 53)) by (subst N; rewrite <- Zle_Qle; lia).
  assert (HO : 0 <= O <= 255).
  { subst O. split; [rewrite <- (Zle_Qle 0) | rewrite <- (Zle_Qle _ 255)]; lia. }
  assert (HD : - (255) <= D <= 255).
  { subst D. split; [rewrite <- (Zle_Qle (-255)) | rewrite <- (Zle_Qle _ 255)]; lia. }
  set (w := / N).
  assert (Hw : 0 < w) by (apply Qinv_lt_0_compat, HN).
  assert (HNw : N * w == 1) by (subst w; apply Qmult_inv_r; lra).
  set (u := pow2 (-53)). set (eta := pow2 (-1075)).
  assert (Hu : u == 1 # 9007199254740992) by (vm_compute; reflexivity).
  assert (Heta : 0 < eta /\ eta * inject_Z (2 ^ 53) <= 1 # 9007199254740992).
  { split; [apply pow2_pos |]. apply Qle_bool_iff. vm_compute. reflexivity. }
  (* the increment *)
  set (q := rnd64 (D / N)).
  assert (Hq : D * w - (255 * w * u + eta) <= q <= D * w + (255 * w * u + eta)).
  { subst q. apply (rnd64_error (D / N) (255 * w)).
    unfold Qdiv. fold w. clear - HD Hw. split; nra. }
  (* the increment times the frame index *)
  assert (HIw : 0 <= I * w <= 1) by (clear - HI Hw HNw; split; nra).
  assert (HIe : 0 <= eta * I <= 1 # 9007199254740992).
  { destruct Heta as [He1 He2]. clear - HI HN53 He1 He2. split; nra. }
  assert (Hqi : D * (I * w) - (255 * u + (1 # 9007199254740992)) <= q * I
                <= D * (I * w) + (255 * u + (1 # 9007199254740992))).
  { assert (H1 : (D * w - (255 * w * u + eta)) * I <= q * I)
      by (apply Qmult_le_compat_r; lra).
    assert (H2 : q * I <= (D * w + (255 * w * u + eta)) * I)
      by (apply Qmult_le_compat_r; lra).
    assert (Hu0 : 0 < u) by apply pow2_pos.
    assert (H3 : 0 <= 255 * u * (1 - I * w)) by (clear - HIw Hu0; nra).
    clear - H1 H2 H3 HIe. split; nra. }
  assert (HDI : - (255) <= D * (I * w) <= 255) by (clear - HD HIw; split; nra).
  set (p := rnd64 (q * I)).
  assert (Hp : q * I - (256 * u + eta) <= p <= q * I + (256 * u + eta)).
  { subst p. apply rnd64_error. clear - Hqi HDI Hu. lra. }
  (* the sum with the original level *)
  rewrite (rnd64_proper (rnd64 O + p) (O + p))
    by (apply Qplus_comp; [exact Eo | reflexivity]).
  assert (Hs : O + p - (512 * u + eta) <= rnd64 (O + p) <= O + p + (512 * u + eta)).
  { apply rnd64_error. destruct Heta as [He1 He2].
    assert (eta <= 1) by (apply Qle_bool_iff; vm_compute; reflexivity).
    clear - HO Hp Hqi HDI Hu H. lra. }
  assert (Ex : D * (I / N) == D * (I * w)) by (unfold Qdiv; fold w; reflexivity).
  rewrite Ex. destruct Heta as [He1 He2].
  assert (eta <= 1 # 9007199254740992) by (apply Qle_bool_iff; vm_compute; reflexivity).
  clear - Hs Hp Hqi Hu H. lra.
Qed.

(** Every frame writes a level in [0, 255]. *)
Lemma interpolate_byte : (0 <= interpolate original target n i <= 255)%Z.
Proof.
  pose proof exact_level_range as [E1 E2].
  pose proof float_level_error as [F1 F2].
  pose proof (round_half_even_near (float_level original target n i)) as [R1 R2].
  fold (interpolate original target n i) in R1, R2.
  split.
  - assert (H : inject_Z (-1) < inject_Z (interpolate original target n i)).
    { change (inject_Z (-1)) with (-1 # 1). lra. }
    rewrite <- Zlt_Qlt in H. lia.
  - assert (H : inject_Z (interpolate original target n i) < inject_Z 256).
    { change (inject_Z 256) with (256 # 1). lra. }
    rewrite <- Zlt_Qlt in H. lia.
Qed.

End Interpolation.

(** On these fades every frame's float is the one the hardware computes
    (the last one of 0 to 1 in 49 frames is [1 - 2^-53], not 1). *)
Example kernel_floats_agree :
  kernel_agrees 0 200 40 = true /\ kernel_agrees 255 0 49 = true
  /\ kernel_agrees 3 250 1000 = true /\ kernel_agrees 17 18 7 = true
  /\ kernel_agrees 0 1 49 = true
  /\ float_value (kernel_level 0 1 49 49) = (9007199254740991 # 9007199254740992)%Q
  /\ float_level 0 1 49 49 = (9007199254740991 # 9007199254740992)%Q.
Proof. vm_compute. repeat split. Qed.

Section InterpolationFacts.
Local Open Scope Q_scope.

(** The last frame lands on the target. *)
Lemma interpolate_final (original target n : Z) :
  (0 <= original <= 255)%Z -> (0 <= target <= 255)%Z ->
  (1 <= n < 2 ^ 53)%Z ->
  interpolate original target n n = target.
Proof.
  intros Ho Ht Hn.
  pose proof (float_level_error original target n n Ho Ht ltac:(lia) ltac:(lia))
    as [F1 F2].
  assert (E : exact_level original target n n == inject_Z target).
  { unfold exact_level, Z.sub. rewrite inject_Z_plus, inject_Z_opp.
    assert (0 < inject_Z n) by (rewrite <- (Zlt_Qlt 0); lia).
    field. lra. }
  apply round_half_even_unique; lra.
Qed.


End InterpolationFacts.

(** * The buffer and the primitives of the methods *)

Section Primitives.

Lemma with_channels_id (g : DMXGateway) : with_channels g (_channels g) = g.
Proof. destruct g. reflexivity. Qed.

Lemma index_of_nonneg (n i : Z) : 0 <= i < n -> index_of n i = Some (Z.to_nat i).
Proof.
  intros H. unfold index_of.
  destruct (Z.leb_spec 0 i), (Z.ltb_spec i n); simpl; first [reflexivity | lia].
Qed.

Lemma lookup_nth (l : list Z) (k : nat) :
  (k < length l)%nat -> l !! k = Some (nth k l 0).
Proof.
  revert k. induction l as [| a l IH]; intros [| k] H; simpl in *; try lia.
  - reflexivity.
  - apply IH. lia.
Qed.

Lemma getitem_nonneg (l : list Z) (i : Z) :
  0 <= i < len l -> getitem l i = Ok (nth (Z.to_nat i) l 0).
Proof.
  intros H. unfold getitem. rewrite index_of_nonneg by assumption.
  rewrite lookup_nth; [reflexivity | unfold len in H; lia].
Qed.

Lemma setitem_nonneg (l : list Z) (i v : Z) :
  0 <= i < len l -> setitem l i v = Ok (<[Z.to_nat i := v]> l).
Proof. intros H. unfold setitem. rewrite index_of_nonneg by assumption. reflexivity. Qed.

Lemma len_insert (l : list Z) (k : nat) (v : Z) : len (<[k := v]> l) = len l.
Proof. unfold len. rewrite length_insert. reflexivity. Qed.

Lemma level_insert_eq (l : list Z) (c v : Z) :
  1 <= c <= len l -> level (<[Z.to_nat (c - 1) := v]> l) c = v.
Proof.
  intros H. unfold level.
  assert (Hk : (Z.to_nat (c - 1) < length l)%nat) by (unfold len in H; lia).
  pose proof (list_lookup_insert_eq l (Z.to_nat (c - 1)) v Hk) as E.
  rewrite lookup_nth in E by (rewrite length_insert; exact Hk).
  congruence.
Qed.

Lemma level_insert_ne (l : list Z) (c c' v : Z) :
  1 <= c -> 1 <= c' <= len l -> c <> c' ->
  level (<[Z.to_nat (c - 1) := v]> l) c' = level l c'.
Proof.
  intros Hc Hc' Hne. unfold level.
  assert (Hk : (Z.to_nat (c' - 1) < length l)%nat) by (unfold len in Hc'; lia).
  assert (E : <[Z.to_nat (c - 1) := v]> l !! Z.to_nat (c' - 1) = l !! Z.to_nat (c' - 1))
    by (apply list_lookup_insert_ne; lia).
  rewrite !lookup_nth in E by (rewrite ?length_insert; exact Hk).
  congruence.
Qed.

Lemma insert_level_id (l : list Z) (c : Z) :
  1 <= c <= len l -> <[Z.to_nat (c - 1) := level l c]> l = l.
Proof.
  intros H. apply list_insert_id. unfold level. apply lookup_nth.
  unfold len in H. lia.
Qed.

Lemma bytes_insert (l : list Z) (k : nat) (v : Z) :
  Forall byte l -> byte v -> Forall byte (<[k := v]> l).
Proof. intros Hl Hv. apply Forall_insert; assumption. Qed.

Lemma bytes_level (l : list Z) (c : Z) :
  Forall byte l -> 1 <= c <= len l -> byte (level l c).
Proof.
  intros Hl Hc. unfold level.
  assert (Hk : (Z.to_nat (c - 1) < length l)%nat) by (unfold len in Hc; lia).
  rewrite Forall_lookup in Hl. apply (Hl (Z.to_nat (c - 1))). apply lookup_nth, Hk.
Qed.

Lemma forallb_is_byte (l : list Z) : Forall byte l -> forallb is_byte l = true.
Proof.
  induction 1 as [| v l Hv _ IH]; [reflexivity |].
  simpl. rewrite IH. unfold is_byte, byte in *.
  destruct (Z.leb_spec 0 v), (Z.leb_spec v 255); simpl; first [reflexivity | lia].
Qed.

Lemma send_ok (g : DMXGateway) (tr : list event) :
  Forall byte (_channels g) ->
  send {| self := g; trace := tr |} =
    (Ok tt, {| self := g;
               trace := tr ++ [Sendto (_base_packet g ++ _channels g) (_host g) (_port g)] |}).
Proof.
  intros H. unfold send, bind, get_self, lift, bytearray_extend, emit. simpl.
  rewrite (forallb_is_byte _ H). reflexivity.
Qed.

Lemma load_channel_ok (g : DMXGateway) (tr : list event) (c : Z) :
  1 <= c <= len (_channels g) ->
  load_channel (c - 1) {| self := g; trace := tr |} =
    (Ok (level (_channels g) c), {| self := g; trace := tr |}).
Proof.
  intros H. unfold load_channel. simpl.
  rewrite getitem_nonneg by lia. reflexivity.
Qed.

Lemma store_channel_ok (g : DMXGateway) (tr : list event) (c v : Z) :
  1 <= c <= len (_channels g) ->
  store_channel (c - 1) v {| self := g; trace := tr |} =
    (Ok tt, put g (<[Z.to_nat (c - 1) := v]> (_channels g)) tr).
Proof.
  intros H. unfold store_channel. simpl.
  rewrite setitem_nonneg by lia. reflexivity.
Qed.

End Primitives.

Section PutState.
Variables (g : DMXGateway) (buffer : list Z) (tr : list event).

Lemma put_self : put g (_channels g) tr = {| self := g; trace := tr |}.
Proof. unfold put. rewrite with_channels_id. reflexivity. Qed.

Lemma load_channel_put (c : Z) :
  1 <= c <= len buffer ->
  load_channel (c - 1) (put g buffer tr) = (Ok (level buffer c), put g buffer tr).
Proof. intros H. unfold put. rewrite load_channel_ok by exact H. reflexivity. Qed.

Lemma store_channel_put (c v : Z) :
  1 <= c <= len buffer ->
  store_channel (c - 1) v (put g buffer tr)
  = (Ok tt, put g (<[Z.to_nat (c - 1) := v]> buffer) tr).
Proof. intros H. unfold put. rewrite store_channel_ok by exact H. reflexivity. Qed.

Lemma send_put :
  Forall byte buffer ->
  send (put g buffer tr)
  = (Ok tt, put g buffer (tr ++ [Sendto (_base_packet g ++ buffer) (_host g) (_port g)])).
Proof. intros H. unfold put. rewrite send_ok by exact H. reflexivity. Qed.

End PutState.

Section Range.

Lemma range_length (a b : Z) : length (range a b) = Z.to_nat (b - a).
Proof. unfold range. rewrite length_map, length_seq. reflexivity. Qed.

Lemma range_snoc (a b : Z) : a <= b -> range a (b + 1) = range a b ++ [b].
Proof.
  intros H. unfold range.
  replace (Z.to_nat (b + 1 - a)) with (Z.to_nat (b - a) + 1)%nat by lia.
  rewrite seq_app, map_app. simpl. do 2 f_equal. lia.
Qed.

Lemma range_bounds (a b i : Z) : In i (range a b) -> a <= i < b.
Proof.
  unfold range. rewrite in_map_iff. intros (k & <- & Hk).
  apply in_seq in Hk. lia.
Qed.

Lemma range_empty (a b : Z) : b <= a -> range a b = [].
Proof. intros H. unfold range. replace (Z.to_nat (b - a)) with 0%nat by lia. reflexivity. Qed.

End Range.

(** * One frame of a fade, and a run of frames *)

Section FadeFrame.
Variables (g : DMXGateway) (original_values value_arr : list Z) (n : Z) (fps : number).
Hypothesis targets_nonempty : value_arr <> [].
Hypothesis frames_positive : 1 <= n.

Lemma target_at_ok (x : Z) :
  0 <= x -> getitem value_arr (Z.min x (len value_arr - 1)) = Ok (target_at value_arr x).
Proof.
  intros Hx. unfold target_at. apply getitem_nonneg.
  assert (0 < len value_arr).
  { unfold len. destruct value_arr; [contradiction | simpl; lia]. }
  lia.
Qed.

Lemma fade_channel_spec (buffer : list Z) (tr : list event) (i x c : Z) (changed : bool) :
  valid_channel original_values buffer c -> 0 <= x ->
  fade_channel original_values value_arr n i changed x c (put g buffer tr)
  = (Ok (changed
         || negb (level buffer c =? frame_level original_values value_arr n i x c)),
     put g (<[Z.to_nat (c - 1) := frame_level original_values value_arr n i x c]> buffer) tr).
Proof.
  intros [Ho Hb] Hx. unfold fade_channel, bind, lift.
  rewrite (target_at_ok x Hx), getitem_nonneg by lia.
  unfold int_truediv. destruct (Z.eqb_spec n 0) as [| _]; [lia |].
  rewrite load_channel_put by exact Hb.
  fold (level original_values c).
  change (round_half_even _) with (frame_level original_values value_arr n i x c).
  destruct (Z.eqb_spec (level buffer c) (frame_level original_values value_arr n i x c))
    as [E | E]; simpl.
  - rewrite <- E, insert_level_id by exact Hb. rewrite orb_false_r. reflexivity.
  - rewrite store_channel_put by exact Hb. unfold ret. rewrite orb_true_r. reflexivity.
Qed.

Lemma fade_channels_loop_spec (channels : list Z) :
  forall (buffer : list Z) (tr : list event) (i x : Z) (changed : bool),
  Forall (valid_channel original_values buffer) channels -> 0 <= x ->
  fade_channels_loop original_values value_arr n i changed x channels (put g buffer tr)
  = (Ok (changed || frame_dirty original_values value_arr n i x channels buffer),
     put g (frame_buffer original_values value_arr n i x channels buffer) tr).
Proof.
  induction channels as [| c rest IH]; intros buffer tr i x changed Hv Hx.
  - simpl. unfold ret. rewrite orb_false_r. reflexivity.
  - inversion Hv as [| ? ? Hc Hrest]; subst.
    simpl. unfold bind. rewrite fade_channel_spec by assumption.
    rewrite IH.
    + f_equal. rewrite <- orb_assoc. f_equal.
      destruct (Z.eqb_spec (level buffer c)
                  (frame_level original_values value_arr n i x c)) as [E | E]; simpl.
      * rewrite <- E, insert_level_id by apply Hc. reflexivity.
      * reflexivity.
    + eapply Forall_impl; [exact Hrest |].
      intros c' [H1 H2]. split; [exact H1 | rewrite len_insert; exact H2].
    + lia.
Qed.

Lemma frame_buffer_length (channels : list Z) :
  forall (buffer : list Z) (i x : Z),
  len (frame_buffer original_values value_arr n i x channels buffer) = len buffer.
Proof.
  induction channels as [| c rest IH]; intros buffer i x; simpl.
  - reflexivity.
  - rewrite IH. apply len_insert.
Qed.

Lemma frames_buffer_length (channels frames : list Z) :
  forall buffer : list Z,
  len (frames_buffer original_values value_arr n channels frames buffer) = len buffer.
Proof.
  induction frames as [| i rest IH]; intros buffer; simpl.
  - reflexivity.
  - rewrite IH. apply frame_buffer_length.
Qed.

Hypothesis originals_bytes : Forall byte original_values.
Hypothesis targets_bytes : Forall byte value_arr.
Hypothesis frames_exact : n < 2 ^ 53.
Hypothesis fps_nonzero : ~ (to_float fps == 0)%Q.

Lemma target_at_byte (x : Z) : 0 <= x -> byte (target_at value_arr x).
Proof.
  intros Hx. unfold target_at.
  assert (0 < len value_arr).
  { unfold len. destruct value_arr; [contradiction | simpl; lia]. }
  rewrite Forall_lookup in targets_bytes.
  apply (targets_bytes (Z.to_nat (Z.min x (len value_arr - 1)))).
  apply lookup_nth. unfold len in *. lia.
Qed.

Lemma frame_level_byte (i x c : Z) :
  1 <= c <= len original_values -> 0 <= x -> 1 <= i <= n ->
  byte (frame_level original_values value_arr n i x c).
Proof.
  intros Hc Hx Hi. unfold frame_level. apply interpolate_byte.
  - apply bytes_level; assumption.
  - apply target_at_byte, Hx.
  - exact Hi.
  - exact frames_exact.
Qed.

Lemma frame_buffer_bytes (channels : list Z) :
  forall (buffer : list Z) (i x : Z),
  Forall byte buffer -> Forall (valid_channel original_values buffer) channels ->
  0 <= x -> 1 <= i <= n ->
  Forall byte (frame_buffer original_values value_arr n i x channels buffer).
Proof.
  induction channels as [| c rest IH]; intros buffer i x Hb Hv Hx Hi; simpl.
  - exact Hb.
  - inversion Hv as [| ? ? Hc Hrest]; subst. apply IH.
    + apply bytes_insert; [exact Hb |]. apply frame_level_byte; [apply Hc | exact Hx | exact Hi].
    + eapply Forall_impl; [exact Hrest |].
      intros c' [H1 H2]. split; [exact H1 | rewrite len_insert; exact H2].
    + lia.
    + exact Hi.
Qed.


Lemma fade_frame_spec (channels buffer : list Z) (tr : list event) (i : Z) :
  Forall byte buffer -> Forall (valid_channel original_values buffer) channels -> 1 <= i <= n ->
  fade_frame original_values value_arr n channels fps i (put g buffer tr)
  = (Ok tt,
     put g (frame_buffer original_values value_arr n i 0 channels buffer)
       (tr ++ frame_events g original_values value_arr n channels fps i buffer)).
Proof.
  intros Hb Hv Hi. unfold fade_frame, bind.
  rewrite fade_channels_loop_spec by (assumption || lia).
  simpl orb. unfold frame_events, lift, float_truediv.
  destruct (Qeq_bool (to_float fps) 0) eqn:Ef.
  { apply Qeq_bool_iff in Ef. contradiction. }
  destruct (frame_dirty original_values value_arr n i 0 channels buffer).
  - rewrite send_put by (apply frame_buffer_bytes; assumption || lia).
    unfold emit, put. simpl. rewrite <- app_assoc. reflexivity.
  - unfold ret, emit, put. simpl. reflexivity.
Qed.

Lemma fade_frames_spec (channels frames : list Z) :
  forall (buffer : list Z) (tr : list event),
  Forall byte buffer -> Forall (valid_channel original_values buffer) channels ->
  Forall (fun i => 1 <= i <= n) frames ->
  for_ frames (fade_frame original_values value_arr n channels fps) (put g buffer tr)
  = (Ok tt,
     put g (frames_buffer original_values value_arr n channels frames buffer)
       (tr ++ frames_events g original_values value_arr n channels fps frames buffer)).
Proof.
  induction frames as [| i rest IH]; intros buffer tr Hb Hv Hf.
  - simpl. unfold ret. rewrite app_nil_r. reflexivity.
  - inversion Hf as [| ? ? Hi Hrest]; subst.
    simpl. unfold bind. rewrite fade_frame_spec by assumption.
    rewrite IH.
    + rewrite <- app_assoc. reflexivity.
    + apply frame_buffer_bytes; assumption || lia.
    + eapply Forall_impl; [exact Hv |].
      intros c' [H1 H2]. split; [exact H1 | rewrite frame_buffer_length; exact H2].
    + exact Hrest.
Qed.

End FadeFrame.

Section FrameFacts.
Variables (g : DMXGateway) (original_values value_arr : list Z) (n : Z) (fps : number).

Lemma count_sleeps_app (a b : list event) :
  count_sleeps (a ++ b) = (count_sleeps a + count_sleeps b)%nat.
Proof.
  induction a as [| [? ? ? | ?] a IH]; simpl; [reflexivity | exact IH | rewrite IH; reflexivity].
Qed.


Lemma frame_events_sleeps (channels : list Z) (i : Z) (buffer : list Z) :
  count_sleeps (frame_events g original_values value_arr n channels fps i buffer) = 1%nat.
Proof.
  unfold frame_events.
  destruct (frame_dirty original_values value_arr n i 0 channels buffer); reflexivity.
Qed.


Lemma frames_events_sleeps (channels frames : list Z) :
  forall buffer : list Z,
  count_sleeps (frames_events g original_values value_arr n channels fps frames buffer)
  = length frames.
Proof.
  induction frames as [| i rest IH]; intros buffer; simpl.
  - reflexivity.
  - rewrite count_sleeps_app, frame_events_sleeps, IH. reflexivity.
Qed.

Lemma frames_buffer_snoc (channels frames : list Z) (k : Z) :
  forall buffer : list Z,
  frames_buffer original_values value_arr n channels (frames ++ [k]) buffer
  = frame_buffer original_values value_arr n k 0 channels
      (frames_buffer original_values value_arr n channels frames buffer).
Proof.
  induction frames as [| i rest IH]; intros buffer; simpl.
  - reflexivity.
  - apply IH.
Qed.


(** Levels written for [c] survive the rest of the frame when every
    later occurrence of [c] writes the same level. *)
Lemma frame_buffer_keep (channels : list Z) (i c v : Z) :
  forall (buffer : list Z) (x : Z),
  1 <= c <= len buffer ->
  Forall (fun c' => 1 <= c') channels ->
  (forall k : nat, channels !! k = Some c ->
     frame_level original_values value_arr n i (x + Z.of_nat k) c = v) ->
  level buffer c = v ->
  level (frame_buffer original_values value_arr n i x channels buffer) c = v.
Proof.
  induction channels as [| c0 rest IH]; intros buffer x Hc Hpos Hsame Hv; simpl.
  - exact Hv.
  - inversion Hpos as [| ? ? Hc0 Hrest]; subst. apply IH.
    + rewrite len_insert. exact Hc.
    + exact Hrest.
    + intros k Hk. replace (x + 1 + Z.of_nat k) with (x + Z.of_nat (S k)) by lia.
      apply Hsame. exact Hk.
    + destruct (Z.eq_dec c0 c) as [-> | Hne].
      * rewrite level_insert_eq by exact Hc.
        rewrite <- (Hsame 0%nat eq_refl). f_equal. lia.
      * rewrite level_insert_ne by (assumption || lia). reflexivity.
Qed.

Lemma frame_buffer_level (channels : list Z) (i : Z) :
  forall (buffer : list Z) (x : Z) (k : nat) (c : Z),
  Forall (fun c' => 1 <= c' <= len buffer) channels ->
  channels !! k = Some c ->
  (forall k' : nat, (k < k')%nat -> channels !! k' = Some c ->
     frame_level original_values value_arr n i (x + Z.of_nat k') c
     = frame_level original_values value_arr n i (x + Z.of_nat k) c) ->
  level (frame_buffer original_values value_arr n i x channels buffer) c
  = frame_level original_values value_arr n i (x + Z.of_nat k) c.
Proof.
  induction channels as [| c0 rest IH]; intros buffer x k c Hv Hk Hlater.
  - destruct k; discriminate.
  - inversion Hv as [| ? ? Hc0 Hrest]; subst. destruct k as [| k]; simpl in Hk |- *.
    + injection Hk as ->. apply frame_buffer_keep.
      * rewrite len_insert. exact Hc0.
      * eapply Forall_impl; [exact Hrest | simpl; intros; lia].
      * intros k' Hk'.
        replace (x + 1 + Z.of_nat k') with (x + Z.of_nat (S k')) by lia.
        apply Hlater; [lia | exact Hk'].
      * rewrite level_insert_eq by exact Hc0. f_equal. lia.
    + replace (x + Z.of_nat (S k)) with (x + 1 + Z.of_nat k) by lia.
      apply IH.
      * eapply Forall_impl; [exact Hrest |].
        simpl. intros c' H. rewrite len_insert. exact H.
      * exact Hk.
      * intros k' Hlt Hk'.
        replace (x + 1 + Z.of_nat k') with (x + Z.of_nat (S k')) by lia.
        replace (x + 1 + Z.of_nat k) with (x + Z.of_nat (S k)) by lia.
        apply Hlater; [lia | exact Hk'].
Qed.

End FrameFacts.

(** * The fade as a whole *)

Section FadeRun.
Variables (g : DMXGateway) (channels : list Z) (value : levels)
          (seconds fps : number).
Hypothesis gateway_ok : well_formed g.
Hypothesis channels_ok :
  Forall (fun c => 1 <= c <= _number_of_channels g) channels.
Hypothesis targets_nonempty : value_arr value <> [].
Hypothesis targets_bytes : Forall byte (value_arr value).
Hypothesis fps_nonzero : ~ (to_float fps == 0)%Q.
Hypothesis frames_exact : number_of_frames seconds fps < 2 ^ 53.

Lemma number_of_frames_pos : 1 <= number_of_frames seconds fps.
Proof. unfold number_of_frames. lia. Qed.

Lemma channels_valid (buffer : list Z) :
  len buffer = len (_channels g) ->
  Forall (fun c => 1 <= c <= len (_channels g) /\ 1 <= c <= len buffer) channels.
Proof.
  intros E. eapply Forall_impl; [exact channels_ok |].
  simpl. intros c Hc. rewrite E, (wf_length g gateway_ok). split; exact Hc.
Qed.



(** After [k >= 1] frames, a listed channel holds the level of frame [k]. *)
Lemma fade_prefix_level (k : Z) (x : nat) (c : Z) :
  1 <= k <= number_of_frames seconds fps ->
  channels !! x = Some c ->
  (forall y : nat, (x < y)%nat -> channels !! y = Some c ->
     target_at (value_arr value) (Z.of_nat y) = target_at (value_arr value) (Z.of_nat x)) ->
  level
    (frames_buffer (_channels g) (value_arr value) (number_of_frames seconds fps)
       channels (range 1 (k + 1)) (_channels g)) c
  = interpolate (level (_channels g) c) (target_at (value_arr value) (Z.of_nat x))
      (number_of_frames seconds fps) k.
Proof.
  intros Hk Hx Hlater.
  rewrite range_snoc, frames_buffer_snoc by lia.
  rewrite (frame_buffer_level _ _ _ _ _ _ 0 x c).
  - reflexivity.
  - eapply Forall_impl; [exact channels_ok |].
    simpl. intros c' Hc'. rewrite frames_buffer_length, (wf_length g gateway_ok).
    exact Hc'.
  - exact Hx.
  - intros y Hlt Hy. unfold frame_level. rewrite !Z.add_0_l.
    rewrite (Hlater y Hlt Hy). reflexivity.
Qed.

Lemma get_channel_level_put (buffer : list Z) (tr : list event) (c : Z) :
  1 <= c <= len buffer ->
  get_channel_level c (put g buffer tr) = (Ok (level buffer c), put g buffer tr).
Proof. intros H. unfold get_channel_level. apply load_channel_put, H. Qed.

End FadeRun.

Lemma demo_init : __init__ "dmx" 6454 0 2 = Ok demo.
Proof. reflexivity. Qed.

Lemma demo_well_formed : well_formed demo.
Proof. split; [reflexivity | repeat constructor; unfold byte; lia]. Qed.

(** The whole loop is the prefix of [number_of_frames] frames. *)
Lemma fade_prefix_all (channels : list Z) (value : levels) (seconds fps : number) :
  fade_prefix (number_of_frames seconds fps) channels value seconds fps
  = fade_channels channels value seconds fps.
Proof. reflexivity. Qed.



Lemma target_at_single (v x : Z) : target_at [v] x = v.
Proof.
  unfold target_at.
  replace (Z.to_nat (Z.min x (len [v] - 1))) with 0%nat by (unfold len; simpl; lia).
  reflexivity.
Qed.
















(** The levels channel 1 takes during [fade([1], 200, 1, 40)] from level 0:
    forty frames, five more each time, each one sent. *)
Example fade_to_200_in_40_frames :
  let r := run (fade_channels [1] (Single 200) (Int 1) (Int 40)) demo in
  fst r = Ok tt
  /\ received demo 1 0 (trace (snd r)) = map (fun k => 5 * k) (range 1 41)
  /\ number_of_frames (Int 1) (Int 40) = 40
  /\ count_sleeps (trace (snd r)) = 40%nat
  /\ count_sends (trace (snd r)) = 40%nat.
Proof. vm_compute. repeat split. Qed.

(** * The constructor, single writes and the frame *)

Section Init.
Variables (host : string) (port default_level number_of_channels : Z)
          (g : DMXGateway).
Hypothesis built : __init__ host port default_level number_of_channels = Ok g.

Lemma init_number_of_channels :
  _number_of_channels g
  = (if number_of_channels <=? 512 then number_of_channels else 512)
    + number_of_channels mod 2.
Proof.
  unfold __init__ in built.
  destruct (pack_h_be _) as [size | e] eqn:Ep in built; [| discriminate].
  injection built as <-. simpl.
  pose proof (Z.mod_pos_bound number_of_channels 2 ltac:(lia)).
  destruct (Z.eqb_spec (number_of_channels mod 2) 0); simpl; lia.
Qed.

Lemma init_channels :
  _channels g = repeat default_level (Z.to_nat (_number_of_channels g)).
Proof.
  unfold __init__ in built.
  destruct (pack_h_be _) as [size | e] eqn:Ep in built; [| discriminate].
  injection built as <-. reflexivity.
Qed.

Lemma init_address : _host g = host /\ _port g = port.
Proof.
  unfold __init__ in built.
  destruct (pack_h_be _) as [size | e] eqn:Ep in built; [| discriminate].
  injection built as <-. split; reflexivity.
Qed.

Lemma init_base_packet :
  0 <= number_of_channels ->
  _base_packet g = artnet_header (_number_of_channels g).
Proof.
  intros Hn. pose proof init_number_of_channels as HN.
  unfold __init__ in built.
  destruct (pack_h_be _) as [size | e] eqn:Ep in built; [| discriminate].
  injection built as <-. simpl in *.
  set (n := (if negb (number_of_channels mod 2 =? 0)
             then (if number_of_channels <=? 512 then number_of_channels else 512) + 1
             else if number_of_channels <=? 512 then number_of_channels else 512)) in *.
  pose proof (Z.mod_pos_bound number_of_channels 2 ltac:(lia)).
  assert (Hr : 0 <= n <= 513) by (destruct (Z.leb_spec number_of_channels 512); lia).
  unfold pack_h_be in Ep.
  destruct ((-32768 <=? n) && (n <=? 32767)); [| discriminate].
  injection Ep as <-. unfold artnet_header. simpl. do 18 f_equal.
  - rewrite Z.shiftr_div_pow2 by lia. change (2 ^ 8) with 256.
    change 255 with (Z.ones 8). rewrite Z.land_ones by lia. change (2 ^ 8) with 256.
    apply Z.mod_small. split; [apply Z.div_pos; lia | apply Z.div_lt_upper_bound; lia].
  - f_equal. change 255 with (Z.ones 8). rewrite Z.land_ones by lia. reflexivity.
Qed.

Lemma init_well_formed :
  0 <= number_of_channels -> 0 <= default_level <= 255 -> well_formed g.
Proof.
  intros Hn Hd. pose proof init_number_of_channels as HN.
  pose proof (Z.mod_pos_bound number_of_channels 2 ltac:(lia)).
  split.
  - rewrite init_channels. unfold len. rewrite repeat_length.
    destruct (Z.leb_spec number_of_channels 512); lia.
  - rewrite init_channels. apply Forall_forall. intros v Hv.
    apply list_elem_of_In, repeat_spec in Hv. subst v. exact Hd.
Qed.

End Init.

(** C2. [set_channel] returns [True] and stores the value exactly when the
    channel is in [1, N] and the value in [0, 255]; it returns [False] and
    leaves the gateway as it was otherwise. *)
Theorem set_channel_spec (g : DMXGateway) (tr : list event)
    (channel value : Z) (send_immediately : bool) :
  well_formed g ->
  (1 <= channel <= _number_of_channels g /\ 0 <= value <= 255 ->
   exists s' : state,
     set_channel channel value send_immediately {| self := g; trace := tr |} = (Ok true, s') /\
     _channels (self s') = <[Z.to_nat (channel - 1) := value]> (_channels g) /\
     get_channel_level channel s' = (Ok value, s') /\
     forall c : Z, 1 <= c <= _number_of_channels g -> c <> channel ->
       level (_channels (self s')) c = level (_channels g) c)
  /\
  (~ (1 <= channel <= _number_of_channels g /\ 0 <= value <= 255) ->
   set_channel channel value send_immediately {| self := g; trace := tr |}
   = (Ok false, {| self := g; trace := tr |})).
Proof.
  intros Hg. pose proof (wf_length g Hg) as Hlen. pose proof (wf_bytes g Hg) as Hbytes.
  unfold set_channel, bind, get_self. cbv beta iota. cbn [self].
  split.
  - intros [Hc Hv].
    destruct (Z.leb_spec 1 channel), (Z.leb_spec channel (_number_of_channels g)),
      (Z.leb_spec 0 value), (Z.leb_spec value 255); try lia. cbv beta iota delta [andb].
    rewrite store_channel_ok by lia.
    assert (Hb' : Forall byte (<[Z.to_nat (channel - 1) := value]> (_channels g)))
      by (apply bytes_insert; [exact Hbytes | exact Hv]).
    assert (Hget : forall tr',
              get_channel_level channel
                (put g (<[Z.to_nat (channel - 1) := value]> (_channels g)) tr')
              = (Ok value, put g (<[Z.to_nat (channel - 1) := value]> (_channels g)) tr')).
    { intros tr'. rewrite get_channel_level_put by (rewrite len_insert; lia).
      rewrite level_insert_eq by lia. reflexivity. }
    assert (Hother : forall c : Z, 1 <= c <= _number_of_channels g -> c <> channel ->
              level (<[Z.to_nat (channel - 1) := value]> (_channels g)) c
              = level (_channels g) c).
    { intros c Hc' Hne. apply level_insert_ne; lia. }
    destruct send_immediately.
    + rewrite send_put by exact Hb'. unfold ret.
      eexists. split; [reflexivity |]. split; [reflexivity |]. split; [apply Hget | exact Hother].
    + unfold ret. eexists. split; [reflexivity |]. split; [reflexivity |].
      split; [apply Hget | exact Hother].
  - intros Hn.
    destruct (Z.leb_spec 1 channel), (Z.leb_spec channel (_number_of_channels g)),
      (Z.leb_spec 0 value), (Z.leb_spec value 255); cbv beta iota delta [andb];
      first [reflexivity | exfalso; apply Hn; lia].
Qed.

Lemma set_channel_spec_witness :
  (exists s' : state,
     set_channel 2 9 true {| self := demo; trace := [] |} = (Ok true, s') /\
     _channels (self s') = <[Z.to_nat (2 - 1) := 9]> (_channels demo) /\
     get_channel_level 2 s' = (Ok 9, s') /\
     forall c : Z, 1 <= c <= _number_of_channels demo -> c <> 2 ->
       level (_channels (self s')) c = level (_channels demo) c)
  /\
  set_channel 3 9 true {| self := demo; trace := [] |}
  = (Ok false, {| self := demo; trace := [] |})
  /\
  set_channel 2 256 true {| self := demo; trace := [] |}
  = (Ok false, {| self := demo; trace := [] |}).
Proof.
  split; [| split].
  - apply (proj1 (set_channel_spec demo [] 2 9 true demo_well_formed)). simpl. lia.
  - apply (proj2 (set_channel_spec demo [] 3 9 true demo_well_formed)). simpl. lia.
  - apply (proj2 (set_channel_spec demo [] 2 256 true demo_well_formed)). simpl. lia.
Defined.

(** C3, at the failing input: a request for 513 channels builds a buffer of
    513 slots, an odd count above 512. *)
Theorem init_513_channels :
  exists g : DMXGateway,
    __init__ "dmx" 6454 0 513 = Ok g /\
    _number_of_channels g = 513 /\
    len (_channels g) = 513 /\
    Z.even (_number_of_channels g) = false.
Proof. eexists. repeat split; vm_compute; reflexivity. Qed.

(** What the constructor guarantees: the count is even and rounded up for a
    request of at most 512, and for an even request above 512 it is 512. *)
Lemma init_channel_count (host : string) (port default_level number_of_channels : Z)
    (g : DMXGateway) :
  __init__ host port default_level number_of_channels = Ok g ->
  1 <= number_of_channels ->
  (number_of_channels <= 512 ->
   _number_of_channels g = 2 * ((number_of_channels + 1) / 2) /\
   _number_of_channels g <= 512) /\
  (512 < number_of_channels -> Z.even number_of_channels = true ->
   _number_of_channels g = 512) /\
  (512 < number_of_channels -> Z.even number_of_channels = false ->
   _number_of_channels g = 513).
Proof.
  intros Hb Hn. rewrite (init_number_of_channels _ _ _ _ _ Hb).
  pose proof (Z.mod_pos_bound number_of_channels 2 ltac:(lia)).
  pose proof (Z.div_mod number_of_channels 2 ltac:(lia)).
  pose proof (Z.div_mod (number_of_channels + 1) 2 ltac:(lia)).
  pose proof (Z.mod_pos_bound (number_of_channels + 1) 2 ltac:(lia)).
  split; [| split].
  - intros Hle. destruct (Z.leb_spec number_of_channels 512); lia.
  - intros Hgt He. rewrite Zeven_mod in He. apply Z.eqb_eq in He.
    destruct (Z.leb_spec number_of_channels 512); lia.
  - intros Hgt He. rewrite Zeven_mod in He. apply Z.eqb_neq in He.
    destruct (Z.leb_spec number_of_channels 512); lia.
Qed.

(** C5. The frame [send] hands to the socket is the 18-byte Art-Net DMX
    header, carrying the channel count big-endian in bytes 16-17, followed
    by the buffer, channel 1 first. *)
Theorem send_frame_layout (host : string) (port default_level number_of_channels : Z)
    (g : DMXGateway) (buffer : list Z) (tr : list event) :
  __init__ host port default_level number_of_channels = Ok g ->
  0 <= number_of_channels ->
  len buffer = _number_of_channels g ->
  Forall byte buffer ->
  exists frame : list Z,
    send (put g buffer tr) = (Ok tt, put g buffer (tr ++ [Sendto frame host port])) /\
    len frame = 18 + _number_of_channels g /\
    firstn 18 frame
    = [65; 114; 116; 45; 78; 101; 116; 0;      (* "Art-Net", null terminated *)
       0x00; 0x50;                             (* opcode 0x5000, low byte first *)
       0x00; 0x0e;                             (* protocol version 14 *)
       0x00; 0x00; 0x00; 0x00;                 (* sequence, physical, universe *)
       _number_of_channels g / 256; _number_of_channels g mod 256] /\
    skipn 18 frame = buffer.
Proof.
  intros Hb Hn Hlen Hbytes.
  destruct (init_address _ _ _ _ _ Hb) as [Hh Hp].
  exists (_base_packet g ++ buffer). split; [| split; [| split]].
  - rewrite send_put by exact Hbytes. rewrite Hh, Hp. reflexivity.
  - rewrite (init_base_packet _ _ _ _ _ Hb) by lia.
    unfold len in *. rewrite length_app. simpl length. lia.
  - rewrite (init_base_packet _ _ _ _ _ Hb) by lia. reflexivity.
  - rewrite (init_base_packet _ _ _ _ _ Hb) by lia. reflexivity.
Qed.

Lemma send_frame_layout_witness :
  exists frame : list Z,
    send (put demo [7; 255] []) = (Ok tt, put demo [7; 255] ([] ++ [Sendto frame "dmx" 6454])) /\
    len frame = 18 + _number_of_channels demo /\
    firstn 18 frame
    = [65; 114; 116; 45; 78; 101; 116; 0; 0x00; 0x50; 0x00; 0x0e;
       0x00; 0x00; 0x00; 0x00;
       _number_of_channels demo / 256; _number_of_channels demo mod 256] /\
    skipn 18 frame = [7; 255].
Proof.
  apply (send_frame_layout "dmx" 6454 0 2 demo [7; 255] []).
  - reflexivity.
  - lia.
  - reflexivity.
  - repeat constructor; unfold byte; lia.
Defined.

(** The frame of the specification's example: 512 channels at level 0 give
    530 bytes, the count [0x02 0x00] in bytes 16-17. *)
Example send_512_channels :
  match __init__ "dmx" 6454 0 512 with
  | Ok g =>
      match run send g with
      | (Ok tt, s) =>
          match trace s with
          | [Sendto frame _ _] =>
              len frame = 530 /\ firstn 18 frame = artnet_header 512
              /\ nth 16 frame 0 = 2 /\ nth 17 frame 0 = 0
              /\ skipn 18 frame = repeat 0 512
          | _ => False
          end
      | _ => False
      end
  | Raise _ => False
  end.
Proof. vm_compute. repeat split. Qed.

(** C6, at the failing input: from a buffer of bytes, a fade toward 300
    stores 300 in channel 1, and [send] then raises on the buffer. *)
Theorem fade_stores_out_of_range_target :
  let r := run (fade_channels [1] (Single 300) (Int 0) (Int 40)) demo in
  Forall byte (_channels demo) /\
  fst r = Raise ValueError /\
  _channels (self (snd r)) = [300; 0] /\
  ~ Forall byte (_channels (self (snd r))).
Proof.
  intros r.
  assert (E : _channels (self (snd r)) = [300; 0]) by (vm_compute; reflexivity).
  split; [apply (wf_bytes demo demo_well_formed) |].
  split; [vm_compute; reflexivity |].
  split; [exact E |].
  rewrite E. intros H. inversion H as [| ? ? Hb _]. unfold byte in Hb. lia.
Qed.

(** * Group writes *)

Section GroupWrite.
Variables (g : DMXGateway) (channel : Z) (values : list Z).
Hypothesis channel_positive : 1 <= channel.

Lemma rgb_loop_spec (rest : list Z) :
  forall (done buffer : list Z) (tr : list event),
  values = done ++ rest ->
  len buffer = _number_of_channels g ->
  for_ (map (fun k => 0 + Z.of_nat k) (seq (length done) (length rest)))
    (set_channel_rgb_item channel values)
    (put g buffer tr)
  = (Ok tt, put g (rgb_buffer channel (_number_of_channels g) (len done) rest buffer) tr).
Proof.
  induction rest as [| v rest IH]; intros done buffer tr Hvalues Hlen.
  - reflexivity.
  - simpl for_. unfold bind at 1. unfold set_channel_rgb_item at 1.
    unfold bind, get_self, lift. cbn [self put with_channels _number_of_channels].
    assert (Hget : getitem values (0 + Z.of_nat (length done)) = Ok v).
    { rewrite getitem_nonneg.
      - rewrite Z.add_0_l, Nat2Z.id, Hvalues, app_nth2 by lia.
        replace (length done - length done)%nat with 0%nat by lia. reflexivity.
      - rewrite Hvalues. unfold len. rewrite length_app. simpl. lia. }
    rewrite Hget. fold (len done). rewrite Z.add_0_l.
    assert (Hrest : forall buffer',
              len buffer' = _number_of_channels g ->
              for_ (map (fun k => 0 + Z.of_nat k) (seq (S (length done)) (length rest)))
                (set_channel_rgb_item channel values) (put g buffer' tr)
              = (Ok tt,
                 put g (rgb_buffer channel (_number_of_channels g) (len done + 1) rest buffer')
                   tr)).
    { intros buffer' Hlen'.
      specialize (IH (done ++ [v]) buffer' tr).
      rewrite length_app in IH. simpl length in IH.
      replace (length done + 1)%nat with (S (length done)) in IH by lia.
      replace (len (done ++ [v])) with (len done + 1) in IH
        by (unfold len; rewrite length_app; simpl; lia).
      apply IH; [rewrite <- app_assoc; exact Hvalues | exact Hlen']. }
    simpl rgb_buffer.
    destruct ((channel + len done <=? _number_of_channels g) && ((0 <=? v) && (v <=? 255))) eqn:Eg.
    + apply andb_true_iff in Eg as [Ei _]. apply Z.leb_le in Ei.
      assert (Hd : 0 <= len done) by (unfold len; lia).
      replace (channel - 1 + len done) with (channel + len done - 1) by lia.
      fold (put g buffer tr).
      rewrite store_channel_put by lia.
      apply Hrest. rewrite len_insert. exact Hlen.
    + unfold ret. fold (put g buffer tr). apply Hrest, Hlen.
Qed.

Lemma rgb_buffer_length (rest : list Z) :
  forall (i : Z) (buffer : list Z),
  len (rgb_buffer channel (_number_of_channels g) i rest buffer) = len buffer.
Proof.
  induction rest as [| v rest IH]; intros i buffer; simpl.
  - reflexivity.
  - rewrite IH. destruct (_ && _); [apply len_insert | reflexivity].
Qed.

Lemma rgb_buffer_bytes (rest : list Z) :
  forall (i : Z) (buffer : list Z),
  Forall byte buffer -> Forall byte (rgb_buffer channel (_number_of_channels g) i rest buffer).
Proof.
  induction rest as [| v rest IH]; intros i buffer Hb; simpl.
  - exact Hb.
  - apply IH. destruct (_ && _) eqn:E; [| exact Hb].
    apply andb_true_iff in E as [_ E]. apply andb_true_iff in E as [E1 E2].
    apply Z.leb_le in E1, E2. apply bytes_insert; [exact Hb | split; assumption].
Qed.

(** Slots that no accepted element addresses keep their level. *)
Lemma rgb_buffer_kept (rest : list Z) :
  forall (i : Z) (buffer : list Z) (c : Z),
  0 <= i -> len buffer = _number_of_channels g -> 1 <= c <= _number_of_channels g ->
  (forall (j : nat) (v : Z),
     rest !! j = Some v -> c = channel + i + Z.of_nat j -> ~ byte v) ->
  level (rgb_buffer channel (_number_of_channels g) i rest buffer) c = level buffer c.
Proof.
  induction rest as [| v rest IH]; intros i buffer c Hi Hlen Hc Hskip; simpl.
  - reflexivity.
  - rewrite IH.
    + destruct (_ && _) eqn:E; [| reflexivity].
      apply andb_true_iff in E as [E0 E]. apply andb_true_iff in E as [E1 E2].
      apply Z.leb_le in E0, E1, E2.
      replace (channel - 1 + i) with (channel + i - 1) by lia.
      apply level_insert_ne; try lia.
      intros <-. apply (Hskip 0%nat v eq_refl); [lia | split; assumption].
    + lia.
    + destruct (_ && _); [rewrite len_insert |]; exact Hlen.
    + exact Hc.
    + intros j w Hj Hcj. apply (Hskip (S j) w Hj). lia.
Qed.

(** An element in range, addressing a slot of the buffer, is stored. *)
Lemma rgb_buffer_written (rest : list Z) :
  forall (i : Z) (buffer : list Z) (j : nat) (v : Z),
  0 <= i -> len buffer = _number_of_channels g ->
  rest !! j = Some v -> channel + i + Z.of_nat j <= _number_of_channels g -> byte v ->
  level (rgb_buffer channel (_number_of_channels g) i rest buffer) (channel + i + Z.of_nat j) = v.
Proof.
  induction rest as [| w rest IH]; intros i buffer j v Hi Hlen Hj Hin Hv.
  - destruct j; discriminate.
  - destruct j as [| j]; simpl in Hj |- *.
    + injection Hj as ->. rewrite Z.add_0_r in *.
      rewrite rgb_buffer_kept.
      * destruct (Z.leb_spec (channel + i) (_number_of_channels g)); [| lia].
        destruct Hv as [H0 H255].
        destruct (Z.leb_spec 0 v), (Z.leb_spec v 255); try lia. simpl.
        replace (channel - 1 + i) with (channel + i - 1) by lia.
        apply level_insert_eq. lia.
      * lia.
      * destruct (_ && _); [rewrite len_insert |]; exact Hlen.
      * lia.
      * intros j' w Hj' Hc. lia.
    + replace (channel + i + Z.of_nat (S j)) with (channel + (i + 1) + Z.of_nat j) in * by lia.
      apply IH; try assumption; [lia |].
      destruct (_ && _); [rewrite len_insert |]; exact Hlen.
Qed.

Lemma set_channel_rgb_run (tr : list event) (send_immediately : bool) :
  well_formed g ->
  set_channel_rgb channel values send_immediately {| self := g; trace := tr |}
  = (Ok true,
     put g (rgb_buffer channel (_number_of_channels g) 0 values (_channels g))
       (tr ++ if send_immediately
              then [Sendto (_base_packet g
                            ++ rgb_buffer channel (_number_of_channels g) 0 values (_channels g))
                      (_host g) (_port g)]
              else [])).
Proof.
  intros Hg. unfold set_channel_rgb. unfold bind at 1.
  rewrite <- (put_self g tr). unfold range. rewrite Z.sub_0_r. unfold len at 1.
  rewrite Nat2Z.id.
  pose proof (rgb_loop_spec values [] (_channels g) tr eq_refl (wf_length g Hg)) as L.
  simpl length in L.
  rewrite L. change (len []) with 0.
  unfold bind. destruct send_immediately.
  - rewrite send_put by (apply rgb_buffer_bytes, (wf_bytes g Hg)). reflexivity.
  - unfold ret. rewrite app_nil_r. reflexivity.
Qed.

End GroupWrite.

Lemma rgb_buffer_unchanged (channel n : Z) (rest : list Z) :
  forall (i : Z) (buffer : list Z),
  (forall (j : nat) (v : Z), rest !! j = Some v ->
     ~ (channel + i + Z.of_nat j <= n /\ 0 <= v <= 255)) ->
  rgb_buffer channel n i rest buffer = buffer.
Proof.
  induction rest as [| w rest IH]; intros i buffer Hskip; simpl.
  - reflexivity.
  - destruct (_ && _) eqn:E.
    + exfalso. apply andb_true_iff in E as [E0 E]. apply andb_true_iff in E as [E1 E2].
      apply Z.leb_le in E0, E1, E2. apply (Hskip 0%nat w eq_refl). lia.
    + apply IH. intros j v Hj Hc. apply (Hskip (S j) v Hj). lia.
Qed.

(** C9. A group write returns [True], stores each value that is a byte and
    addresses a slot of the buffer, skips the others without raising, and
    leaves every other channel as it was.  Channels are numbered from 1:
    the start channel is at least 1. *)
Theorem set_channel_rgb_spec (g : DMXGateway) (channel : Z) (values : list Z)
    (send_immediately : bool) :
  well_formed g ->
  1 <= channel ->
  group_write_ok g channel values send_immediately.
Proof.
  intros Hg Hc. unfold group_write_ok, run.
  eexists. split; [apply set_channel_rgb_run; assumption |].
  unfold put. cbn [self with_channels _channels].
  split; [| split].
  - rewrite rgb_buffer_length. apply (wf_length g Hg).
  - intros i v Hi Hin Hv.
    pose proof (rgb_buffer_written g channel Hc values 0 (_channels g) i v
                  ltac:(lia) (wf_length g Hg) Hi) as W.
    rewrite Z.add_0_r in W. apply W; [exact Hin | exact Hv].
  - intros c Hcn Hskip. apply rgb_buffer_kept; try assumption.
    + lia.
    + apply (wf_length g Hg).
    + intros j v Hj Hcj. apply (Hskip j v Hj). lia.
Qed.

(** From channel 2 of 4: 7 and 9 are stored in channels 2 and 4, 300 is
    skipped and 5 falls past the end. *)
Lemma set_channel_rgb_spec_witness :
  group_write_ok stage 2 [7; 300; 9; 5] true
  /\ _channels (self (snd (run (set_channel_rgb 2 [7; 300; 9; 5] true) stage))) = [0; 7; 0; 9].
Proof.
  split; [| reflexivity].
  apply (set_channel_rgb_spec stage 2 [7; 300; 9; 5] true).
  - split; [reflexivity | repeat constructor; unfold byte; lia].
  - lia.
Defined.

(** Below channel 1, outside the channel numbers, only the upper bound
    [channel + i <= N] guards the store ([set_channel] tests
    [1 <= channel] as well).  From channel -5 the first store raises
    [IndexError]; from channel 0 the value lands in the last slot, channel
    2 of 2, which no element addresses. *)
Lemma group_write_below_channel_1 :
  ~ group_write_ok demo (-5) [7] false /\ ~ group_write_ok demo 0 [7] false.
Proof.
  split.
  - intros (s' & Hrun & _). vm_compute in Hrun. discriminate.
  - intros (s' & Hrun & _ & _ & Hkeep).
    assert (E : run (set_channel_rgb 0 [7] false) demo
                = (Ok true, put demo [0; 7] [])) by reflexivity.
    rewrite E in Hrun. injection Hrun as <-.
    specialize (Hkeep 2 ltac:(simpl; lia)).
    assert (H : level [0; 7] 2 = level [0; 0] 2).
    { apply Hkeep. intros [| [| i]] v Hi Hc; simpl in Hi; try discriminate; lia. }
    vm_compute in H. discriminate.
Qed.

(** C10. [set_channel_rgb] never returns [False], whatever the input, and
    for a start channel among the channel numbers, which start at 1, it
    returns [True], also when no value could be stored and the buffer is
    left untouched. *)
Theorem set_channel_rgb_returns_true (g : DMXGateway) (tr : list event)
    (channel : Z) (values : list Z) (send_immediately : bool) :
  fst (set_channel_rgb channel values send_immediately {| self := g; trace := tr |})
  <> Ok false
  /\
  (well_formed g ->
   1 <= channel ->
   exists s' : state,
     set_channel_rgb channel values send_immediately {| self := g; trace := tr |}
     = (Ok true, s') /\
     ((forall (i : nat) (v : Z),
         values !! i = Some v ->
         ~ (channel + Z.of_nat i <= _number_of_channels g /\ 0 <= v <= 255)) ->
      _channels (self s') = _channels g)).
Proof.
  split.
  - unfold set_channel_rgb, bind.
    destruct (for_ _ _ _) as [[[] | e] s1]; [| simpl; discriminate].
    destruct ((if send_immediately then send else ret tt) s1) as [[[] | e] s2];
      simpl; discriminate.
  - intros Hg Hc. eexists. split; [apply set_channel_rgb_run; assumption |].
    intros Hskip. unfold put. cbn [self with_channels _channels].
    apply rgb_buffer_unchanged. intros j v Hj. rewrite Z.add_0_r. apply Hskip, Hj.
Qed.

Lemma set_channel_rgb_returns_true_witness :
  fst (set_channel_rgb 2 [300; 7] false {| self := demo; trace := [] |}) <> Ok false
  /\
  exists s' : state,
    set_channel_rgb 2 [300; 7] false {| self := demo; trace := [] |} = (Ok true, s') /\
    _channels (self s') = _channels demo.
Proof.
  destruct (set_channel_rgb_returns_true demo [] 2 [300; 7] false) as [Hnever Htrue].
  split; [exact Hnever |].
  destruct (Htrue demo_well_formed ltac:(lia)) as (s' & Hrun & Hsame).
  exists s'. split; [exact Hrun |]. apply Hsame.
  intros [| [| i]] v Hi; simpl in Hi; [| | discriminate];
    injection Hi as <-; simpl; lia.
Defined.

(** Every value rejected: [True] all the same, nothing stored, nothing sent. *)
Example set_channel_rgb_all_rejected :
  run (set_channel_rgb 2 [300; 7] false) demo = (Ok true, {| self := demo; trace := [] |}).
Proof. reflexivity. Qed.

(** For a start channel below the buffer, outside the channel numbers, the
    store raises [IndexError] and the call returns nothing.  ([set_channel]
    tests [1 <= channel] and returns [False] on the same channel.) *)
Lemma set_channel_rgb_raises_below_the_buffer :
  run (set_channel_rgb (-5) [7] false) demo
  = (Raise IndexError, {| self := demo; trace := [] |})
  /\
  fst (run (set_channel_rgb (-5) [7] false) demo) <> Ok true
  /\
  run (set_channel (-5) 7 false) demo = (Ok false, {| self := demo; trace := [] |}).
Proof. repeat split; try reflexivity. vm_compute. discriminate. Qed.

(** * Rounding is symmetric and monotone *)

Section RoundingSymmetry.
Local Open Scope Q_scope.








End RoundingSymmetry.

(** * Frames that change nothing, and the last datagram *)



Section CleanFrames.
Variables (g : DMXGateway) (original_values value_arr : list Z) (n : Z) (fps : number).


(** Channels the frame does not list keep their level. *)
Lemma frame_buffer_other (channels : list Z) (i c : Z) :
  forall (buffer : list Z) (x : Z),
  Forall (fun c' => 1 <= c') channels -> 1 <= c <= len buffer ->
  ~ In c channels ->
  level (frame_buffer original_values value_arr n i x channels buffer) c = level buffer c.
Proof.
  induction channels as [| c0 rest IH]; intros buffer x Hv Hc Hn; simpl.
  - reflexivity.
  - inversion Hv as [| ? ? Hc0 Hrest]; subst.
    rewrite IH.
    + apply level_insert_ne; try lia. intros ->. apply Hn. left. reflexivity.
    + exact Hrest.
    + rewrite len_insert. exact Hc.
    + intros H. apply Hn. right. exact H.
Qed.


End CleanFrames.

(** * The class invariant across the operations

    What does hold of C6: the single and the group write keep the buffer
    at [N] bytes whatever the arguments they are given, and so does a
    fade toward targets that are bytes, whether they return or raise. *)


Section Invariant.

Lemma getitem_In {A : Type} (l : list A) (i : Z) (a : A) : getitem l i = Ok a -> In a l.
Proof.
  unfold getitem. destruct (index_of (len l) i) as [k |]; [| discriminate].
  destruct (l !! k) as [b |] eqn:E; [| discriminate].
  intros [= <-]. apply list_elem_of_In. eapply list_elem_of_lookup_2. exact E.
Qed.

Lemma store_channel_wf (s : state) (i v : Z) :
  well_formed (self s) -> byte v -> well_formed (self (snd (store_channel i v s))).
Proof.
  intros [Hlen Hb] Hv. unfold store_channel, setitem.
  destruct (index_of (len (_channels (self s))) i) as [k |]; simpl.
  - split; simpl.
    + rewrite len_insert. exact Hlen.
    + apply bytes_insert; assumption.
  - split; assumption.
Qed.

Lemma store_channel_trace (s : state) (i v : Z) :
  trace (snd (store_channel i v s)) = trace s.
Proof.
  unfold store_channel. destruct (setitem _ _ _); reflexivity.
Qed.

Lemma send_self (s : state) : self (snd (send s)) = self s.
Proof.
  unfold send, bind, get_self, lift, emit.
  destruct (bytearray_extend _ _); reflexivity.
Qed.

(** A loop keeps what each pass keeps. *)
Lemma for_keeps {A : Type} (P : state -> Prop) (body : A -> M unit) (xs : list A) :
  (forall (x : A) (s : state), In x xs -> P s -> P (snd (body x s))) ->
  forall s : state, P s -> P (snd (for_ xs body s)).
Proof.
  induction xs as [| x xs IH]; intros Hbody s Hs; simpl.
  - exact Hs.
  - unfold bind. pose proof (Hbody x s (or_introl eq_refl) Hs) as H1.
    destruct (body x s) as [[[] | e] s1]; simpl in *.
    + apply IH; [| exact H1]. intros y s' Hy. apply Hbody. right. exact Hy.
    + exact H1.
Qed.

End Invariant.

Lemma set_channel_wf (channel value : Z) (send_immediately : bool) (s : state) :
  well_formed (self s) ->
  well_formed (self (snd (set_channel channel value send_immediately s))).
Proof.
  intros Hs. unfold set_channel, bind, get_self.
  destruct ((1 <=? channel) && (channel <=? _number_of_channels (self s))); simpl; [| exact Hs].
  destruct (Z.leb_spec 0 value), (Z.leb_spec value 255); simpl; try exact Hs.
  pose proof (store_channel_wf s (channel - 1) value Hs ltac:(unfold byte; lia)) as H1.
  destruct (store_channel (channel - 1) value s) as [[[] | e] s1]; simpl in *; [| exact H1].
  destruct send_immediately; [| exact H1].
  pose proof (send_self s1) as E.
  destruct (send s1) as [[[] | e] s2]; simpl in *; rewrite E; exact H1.
Qed.

Lemma set_channel_rgb_item_wf (channel : Z) (values : list Z) (i : Z) (s : state) :
  well_formed (self s) ->
  well_formed (self (snd (set_channel_rgb_item channel values i s))).
Proof.
  intros Hs. unfold set_channel_rgb_item, bind, get_self, lift.
  destruct (getitem values i) as [v | e]; [| exact Hs].
  destruct (channel + i <=? _number_of_channels (self s)); simpl; [| exact Hs].
  destruct (Z.leb_spec 0 v), (Z.leb_spec v 255); simpl; try exact Hs.
  pose proof (store_channel_wf s (channel - 1 + i) v Hs ltac:(unfold byte; lia)) as H1.
  destruct (store_channel (channel - 1 + i) v s) as [[[] | e] s1]; exact H1.
Qed.

Lemma set_channel_rgb_wf (channel : Z) (values : list Z) (send_immediately : bool) (s : state) :
  well_formed (self s) ->
  well_formed (self (snd (set_channel_rgb channel values send_immediately s))).
Proof.
  intros Hg. unfold set_channel_rgb. unfold bind at 1.
  pose proof (for_keeps (fun s => well_formed (self s))
                (set_channel_rgb_item channel values) (range 0 (len values))
                (fun x s _ => set_channel_rgb_item_wf channel values x s) s Hg) as H1.
  destruct (for_ _ _ _) as [[[] | e] s1]; simpl in *; [| exact H1].
  unfold bind. destruct send_immediately.
  - pose proof (send_self s1) as E.
    destruct (send s1) as [[[] | e] s2]; simpl in *; rewrite E; exact H1.
  - exact H1.
Qed.

Lemma set_channel_quiet (channel value : Z) (s : state) :
  trace (snd (set_channel channel value false s)) = trace s.
Proof.
  unfold set_channel, bind, get_self.
  destruct (_ && _); [| reflexivity].
  pose proof (store_channel_trace s (channel - 1) value) as H1.
  destruct (store_channel (channel - 1) value s) as [[[] | e] s1]; exact H1.
Qed.

Lemma set_channel_rgb_item_quiet (channel : Z) (values : list Z) (i : Z) (s : state) :
  trace (snd (set_channel_rgb_item channel values i s)) = trace s.
Proof.
  unfold set_channel_rgb_item, bind, get_self, lift.
  destruct (getitem values i) as [v | e]; [| reflexivity].
  destruct (_ && _); [| reflexivity].
  apply store_channel_trace.
Qed.

Lemma set_channel_rgb_quiet (channel : Z) (values : list Z) (s : state) :
  trace (snd (set_channel_rgb channel values false s)) = trace s.
Proof.
  unfold set_channel_rgb. unfold bind at 1.
  pose proof (for_keeps (fun s' => trace s' = trace s)
                (set_channel_rgb_item channel values) (range 0 (len values))) as H.
  specialize (H (fun x s' _ Hs' => eq_trans (set_channel_rgb_item_quiet channel values x s') Hs')
                s eq_refl).
  destruct (for_ _ _ _) as [[[] | e] s1]; exact H.
Qed.

(** X1. The single write keeps the class invariant for every channel,
    value and flag, accepted or rejected: the buffer still has [N] slots,
    each a byte.  With [send_immediately=False] it hands nothing to the
    socket. *)
Theorem set_channel_keeps_invariant (g : DMXGateway) (tr : list event)
    (channel value : Z) (send_immediately : bool) :
  well_formed g ->
  well_formed
    (self (snd (set_channel channel value send_immediately {| self := g; trace := tr |})))
  /\
  trace (snd (set_channel channel value false {| self := g; trace := tr |})) = tr.
Proof.
  intros Hg. split.
  - apply set_channel_wf. exact Hg.
  - apply set_channel_quiet.
Qed.

Lemma set_channel_keeps_invariant_witness :
  well_formed (self (snd (set_channel 2 300 true {| self := demo; trace := [] |})))
  /\ well_formed (self (snd (set_channel 0 7 true {| self := demo; trace := [] |})))
  /\ trace (snd (set_channel 2 7 false {| self := demo; trace := [] |})) = [].
Proof.
  split; [| split].
  - apply (set_channel_keeps_invariant demo [] 2 300 true), demo_well_formed.
  - apply (set_channel_keeps_invariant demo [] 0 7 true), demo_well_formed.
  - apply (set_channel_keeps_invariant demo [] 2 7 true), demo_well_formed.
Defined.

(** X2. The group write keeps the class invariant for every start channel,
    list of values and flag, whether it returns or raises.  With
    [send_immediately=False] it hands nothing to the socket. *)
Theorem set_channel_rgb_keeps_invariant (g : DMXGateway) (tr : list event)
    (channel : Z) (values : list Z) (send_immediately : bool) :
  well_formed g ->
  well_formed
    (self (snd (set_channel_rgb channel values send_immediately {| self := g; trace := tr |})))
  /\
  trace (snd (set_channel_rgb channel values false {| self := g; trace := tr |})) = tr.
Proof.
  intros Hg. split.
  - apply set_channel_rgb_wf. exact Hg.
  - apply set_channel_rgb_quiet.
Qed.

Lemma set_channel_rgb_keeps_invariant_witness :
  well_formed
    (self (snd (set_channel_rgb (-5) [7; 300; 9] true {| self := demo; trace := [] |})))
  /\ trace (snd (set_channel_rgb 1 [7; 300] false {| self := demo; trace := [] |})) = [].
Proof.
  split.
  - apply (set_channel_rgb_keeps_invariant demo [] (-5) [7; 300; 9] true), demo_well_formed.
  - apply (set_channel_rgb_keeps_invariant demo [] 1 [7; 300] true), demo_well_formed.
Defined.

Section FadeInvariant.
Variables (original_values value_arr : list Z) (n : Z) (channels : list Z) (fps : number).
Hypothesis originals_bytes : Forall byte original_values.
Hypothesis targets_bytes : Forall byte value_arr.
Hypothesis frames_exact : n < 2 ^ 53.

Lemma fade_channel_wf (i x c : Z) (changed : bool) (s : state) :
  1 <= i <= n ->
  well_formed (self s) ->
  well_formed (self (snd (fade_channel original_values value_arr n i changed x c s))).
Proof.
  intros Hi Hs. unfold fade_channel, bind, lift.
  destruct (getitem value_arr _) as [t | e] eqn:Et; [| exact Hs].
  destruct (getitem original_values _) as [o | e] eqn:Eo; [| exact Hs].
  unfold int_truediv. destruct (n =? 0); [exact Hs |].
  unfold load_channel. destruct (getitem (_channels (self s)) _) as [cur | e]; [| exact Hs].
  match goal with |- context [negb (cur =? ?v)] => set (next := v) end.
  destruct (negb (cur =? next)); [| exact Hs].
  assert (Hb : byte next).
  { subst next. apply (interpolate_byte o t n i).
    - apply getitem_In in Eo. rewrite Forall_forall in originals_bytes.
      apply originals_bytes, list_elem_of_In, Eo.
    - apply getitem_In in Et. rewrite Forall_forall in targets_bytes.
      apply targets_bytes, list_elem_of_In, Et.
    - exact Hi.
    - exact frames_exact. }
  pose proof (store_channel_wf s (c - 1) next Hs Hb) as H1.
  destruct (store_channel (c - 1) next s) as [[[] | e] s1]; exact H1.
Qed.

Lemma fade_channels_loop_wf (i : Z) :
  1 <= i <= n ->
  forall (chs : list Z) (x : Z) (changed : bool) (s : state),
  well_formed (self s) ->
  well_formed (self (snd (fade_channels_loop original_values value_arr n i changed x chs s))).
Proof.
  intros Hi. induction chs as [| c rest IH]; intros x changed s Hs; simpl.
  - exact Hs.
  - unfold bind. pose proof (fade_channel_wf i x c changed s Hi Hs) as H1.
    destruct (fade_channel _ _ _ _ _ _ _ _) as [[ch | e] s1]; simpl in *.
    + apply IH, H1.
    + exact H1.
Qed.

Lemma fade_frame_wf (i : Z) (s : state) :
  1 <= i <= n ->
  well_formed (self s) ->
  well_formed (self (snd (fade_frame original_values value_arr n channels fps i s))).
Proof.
  intros Hi Hs. unfold fade_frame. unfold bind at 1.
  pose proof (fade_channels_loop_wf i Hi channels 0 false s Hs) as H1.
  destruct (fade_channels_loop _ _ _ _ _ _ _ _) as [[ch | e] s1]; simpl in *; [| exact H1].
  unfold bind at 1.
  assert (H2 : well_formed
                 (self (snd ((if ch then send else ret tt) s1)))).
  { destruct ch; [rewrite send_self |]; exact H1. }
  destruct ((if ch then send else ret tt) s1) as [[[] | e] s2]; simpl in *; [| exact H2].
  unfold bind, lift. destruct (float_truediv 1 (to_float fps)); exact H2.
Qed.

End FadeInvariant.

(** X3. A fade toward targets that are bytes keeps the class invariant,
    whatever the channels it lists and the frame rate, whether it runs to
    completion or raises on the way. *)
Theorem fade_channels_keeps_invariant (g : DMXGateway) (channels : list Z)
    (value : levels) (seconds fps : number) :
  well_formed g ->
  Forall byte (value_arr value) ->
  number_of_frames seconds fps < 2 ^ 53 ->
  well_formed (self (snd (run (fade_channels channels value seconds fps) g))).
Proof.
  intros Hg Hb Hn. unfold run, fade_channels, bind, get_self. cbn [self].
  apply (for_keeps (fun s => well_formed (self s))).
  - intros i s Hi Hs. apply range_bounds in Hi.
    apply fade_frame_wf; try assumption; [apply (wf_bytes g Hg) | lia].
  - exact Hg.
Qed.

Lemma fade_channels_keeps_invariant_witness :
  well_formed (self (snd (run (fade_channels [2; 7] (Several [10; 250]) (Int 1) (Int 0)) demo))).
Proof.
  apply (fade_channels_keeps_invariant demo [2; 7] (Several [10; 250]) (Int 1) (Int 0)).
  - exact demo_well_formed.
  - repeat constructor; unfold byte; lia.
  - vm_compute. reflexivity.
Defined.

(** * Reading a channel *)

(** X4. [get_channel_level] returns the level of a channel in [1, N]; for
    a channel in [-N + 1, 0] Python's negative index reads from the end of
    the buffer, channel 0 being the last one; any other channel raises
    [IndexError].  The gateway is left as it was in every case. *)
Theorem get_channel_level_bounds (s : state) (channel : Z) :
  let buffer := _channels (self s) in
  (1 <= channel <= len buffer ->
   get_channel_level channel s = (Ok (level buffer channel), s)) /\
  (- len buffer < channel <= 0 ->
   get_channel_level channel s = (Ok (level buffer (len buffer + channel)), s)) /\
  (channel <= - len buffer \/ len buffer < channel ->
   get_channel_level channel s = (Raise IndexError, s)).
Proof.
  intros buffer. unfold get_channel_level, load_channel. fold buffer.
  split; [| split].
  - intros H. rewrite getitem_nonneg by lia. reflexivity.
  - intros H. unfold getitem, index_of.
    destruct (Z.leb_spec 0 (channel - 1)); [lia |]. simpl.
    destruct (Z.leb_spec (- len buffer) (channel - 1)); [| lia].
    destruct (Z.ltb_spec (channel - 1) 0); [| lia]. simpl.
    rewrite lookup_nth by (unfold len in *; lia).
    unfold level. do 3 f_equal. lia.
  - intros H. unfold getitem, index_of.
    destruct (Z.leb_spec 0 (channel - 1)), (Z.ltb_spec (channel - 1) (len buffer)),
      (Z.leb_spec (- len buffer) (channel - 1)), (Z.ltb_spec (channel - 1) 0);
      simpl; first [reflexivity | lia].
Qed.

Lemma get_channel_level_bounds_witness :
  get_channel_level 0 (put demo [3; 9] []) = (Ok 9, put demo [3; 9] [])
  /\ get_channel_level 3 (put demo [3; 9] []) = (Raise IndexError, put demo [3; 9] [])
  /\ get_channel_level 2 (put demo [3; 9] []) = (Ok 9, put demo [3; 9] []).
Proof.
  pose proof (get_channel_level_bounds (put demo [3; 9] [])) as H. cbv zeta in H.
  split; [| split].
  - apply (proj1 (proj2 (H 0))). vm_compute. split; [reflexivity | discriminate].
  - apply (proj2 (proj2 (H 3))). right. vm_compute. reflexivity.
  - apply (proj1 (H 2)). vm_compute. split; discriminate.
Defined.

(** * The constructor *)

Lemma init_returns (host : string) (port default_level number_of_channels : Z) :
  -32768 <= number_of_channels ->
  exists g : DMXGateway, __init__ host port default_level number_of_channels = Ok g.
Proof.
  intros Hn. unfold __init__.
  set (n := if negb (number_of_channels mod 2 =? 0) then _ else _).
  assert (Hr : -32768 <= n <= 32767).
  { subst n. pose proof (Z.mod_pos_bound number_of_channels 2 ltac:(lia)).
    destruct (Z.eqb_spec (number_of_channels mod 2) 0), (Z.leb_spec number_of_channels 512);
      simpl; lia. }
  unfold pack_h_be.
  destruct (Z.leb_spec (-32768) n), (Z.leb_spec n 32767); try lia. simpl.
  eexists. reflexivity.
Qed.

Lemma init_default_level (host : string) (port default_level number_of_channels : Z)
    (g : DMXGateway) :
  __init__ host port default_level number_of_channels = Ok g ->
  _default_level g
  = if (0 <=? default_level) && (default_level <=? 255) then Some default_level else None.
Proof.
  intros Hg. unfold __init__ in Hg. destruct (pack_h_be _); [| discriminate].
  injection Hg as <-. reflexivity.
Qed.

Lemma level_repeat (v : Z) (k : nat) (c : Z) :
  1 <= c <= Z.of_nat k -> level (repeat v k) c = v.
Proof. intros Hc. unfold level. apply nth_repeat_lt. lia. Qed.

(** X5. For a default level in [0, 255] and a count of at least 0 the
    constructor returns a gateway that satisfies the class invariant,
    whose [default_level] property returns the level, and which reads the
    level back on every channel. *)
Theorem init_fills_the_buffer (host : string) (port level number_of_channels : Z) :
  0 <= number_of_channels ->
  0 <= level <= 255 ->
  exists g : DMXGateway,
    __init__ host port level number_of_channels = Ok g /\
    well_formed g /\
    default_level g = Returns level /\
    forall c : Z, 1 <= c <= _number_of_channels g ->
      run (get_channel_level c) g = (Ok level, {| self := g; trace := [] |}).
Proof.
  intros Hn Hd.
  destruct (init_returns host port level number_of_channels ltac:(lia)) as [g Hg].
  pose proof (init_well_formed _ _ _ _ _ Hg Hn Hd) as Hwf.
  pose proof (init_channels _ _ _ _ _ Hg) as Hch.
  exists g. split; [exact Hg |]. split; [exact Hwf |]. split.
  - unfold default_level. rewrite (init_default_level _ _ _ _ _ Hg).
    destruct (Z.leb_spec 0 level), (Z.leb_spec level 255); try lia. reflexivity.
  - intros c Hc. unfold run, get_channel_level.
    rewrite load_channel_ok by (rewrite (wf_length g Hwf); exact Hc).
    rewrite Hch, level_repeat by lia. reflexivity.
Qed.

Lemma init_fills_the_buffer_witness :
  exists g : DMXGateway,
    __init__ "dmx" 6454 17 5 = Ok g /\
    well_formed g /\
    default_level g = Returns 17 /\
    forall c : Z, 1 <= c <= _number_of_channels g ->
      run (get_channel_level c) g = (Ok 17, {| self := g; trace := [] |}).
Proof. apply (init_fills_the_buffer "dmx" 6454 17 5); lia. Defined.

(** X6. For a requested count of at most 512 the constructor returns, the
    count it keeps is even, the request or the request plus one, at most
    512, and the buffer has that many slots. *)
Theorem init_channel_count_within_universe (host : string)
    (port default_level number_of_channels : Z) :
  0 <= number_of_channels <= 512 ->
  exists g : DMXGateway,
    __init__ host port default_level number_of_channels = Ok g /\
    Z.even (_number_of_channels g) = true /\
    number_of_channels <= _number_of_channels g <= number_of_channels + 1 /\
    _number_of_channels g <= 512 /\
    len (_channels g) = _number_of_channels g.
Proof.
  intros Hn.
  destruct (init_returns host port default_level number_of_channels ltac:(lia)) as [g Hg].
  pose proof (init_number_of_channels _ _ _ _ _ Hg) as HN.
  pose proof (init_channels _ _ _ _ _ Hg) as Hch.
  pose proof (Z.mod_pos_bound number_of_channels 2 ltac:(lia)) as Hm.
  pose proof (Z.div_mod number_of_channels 2 ltac:(lia)) as Hdm.
  destruct (Z.leb_spec number_of_channels 512) as [_ |]; [| lia].
  exists g. split; [exact Hg |]. split; [| split; [| split]].
  - rewrite HN. rewrite Zeven_mod. apply Z.eqb_eq.
    replace (number_of_channels + number_of_channels mod 2)
      with ((number_of_channels / 2 + number_of_channels mod 2) * 2) by lia.
    apply Z.mod_mul. lia.
  - lia.
  - assert (number_of_channels = 512 -> number_of_channels mod 2 = 0)
      by (intros ->; reflexivity).
    lia.
  - rewrite Hch. unfold len. rewrite repeat_length. lia.
Qed.

Lemma init_channel_count_within_universe_witness :
  exists g : DMXGateway,
    __init__ "dmx" 6454 0 511 = Ok g /\
    Z.even (_number_of_channels g) = true /\
    511 <= _number_of_channels g <= 511 + 1 /\
    _number_of_channels g <= 512 /\
    len (_channels g) = _number_of_channels g.
Proof. apply (init_channel_count_within_universe "dmx" 6454 0 511). lia. Defined.

Lemma forallb_is_byte_false (l : list Z) (v : Z) :
  In v l -> ~ byte v -> forallb is_byte l = false.
Proof.
  intros Hin Hv. destruct (forallb is_byte l) eqn:E; [| reflexivity].
  exfalso. apply Hv. rewrite forallb_forall in E. specialize (E v Hin).
  unfold is_byte in E. apply andb_true_iff in E as [E1 E2].
  apply Z.leb_le in E1, E2. split; assumption.
Qed.

(** X7. A default level outside [0, 255] is not remembered, so that the
    [default_level] property raises [AttributeError], but it still fills
    the buffer: every channel reads it back, and [send] raises
    [ValueError] without handing anything to the socket. *)
Theorem init_default_level_out_of_range (host : string)
    (port level number_of_channels : Z) :
  1 <= number_of_channels ->
  ~ (0 <= level <= 255) ->
  exists g : DMXGateway,
    __init__ host port level number_of_channels = Ok g /\
    default_level g = Raises (AttributeError "_default_level") /\
    (forall c : Z, 1 <= c <= _number_of_channels g ->
       run (get_channel_level c) g = (Ok level, {| self := g; trace := [] |})) /\
    run send g = (Raise ValueError, {| self := g; trace := [] |}).
Proof.
  intros Hn Hd.
  destruct (init_returns host port level number_of_channels ltac:(lia)) as [g Hg].
  pose proof (init_number_of_channels _ _ _ _ _ Hg) as HN.
  pose proof (init_channels _ _ _ _ _ Hg) as Hch.
  pose proof (Z.mod_pos_bound number_of_channels 2 ltac:(lia)) as Hm.
  assert (HN1 : 1 <= _number_of_channels g)
    by (destruct (Z.leb_spec number_of_channels 512); lia).
  assert (Hlen : len (_channels g) = _number_of_channels g).
  { rewrite Hch. unfold len. rewrite repeat_length. lia. }
  exists g. split; [exact Hg |]. split; [| split].
  - unfold default_level. rewrite (init_default_level _ _ _ _ _ Hg).
    destruct (Z.leb_spec 0 level), (Z.leb_spec level 255);
      first [reflexivity | exfalso; apply Hd; lia].
  - intros c Hc. unfold run, get_channel_level.
    rewrite load_channel_ok by (rewrite Hlen; exact Hc).
    rewrite Hch, level_repeat by lia. reflexivity.
  - unfold run, send, bind, get_self, lift, bytearray_extend. cbn [self].
    rewrite (forallb_is_byte_false _ level); [reflexivity | | exact Hd].
    rewrite Hch. destruct (Z.to_nat (_number_of_channels g)) eqn:E; [lia |]. left. reflexivity.
Qed.

Lemma init_default_level_out_of_range_witness :
  exists g : DMXGateway,
    __init__ "dmx" 6454 300 2 = Ok g /\
    default_level g = Raises (AttributeError "_default_level") /\
    (forall c : Z, 1 <= c <= _number_of_channels g ->
       run (get_channel_level c) g = (Ok 300, {| self := g; trace := [] |})) /\
    run send g = (Raise ValueError, {| self := g; trace := [] |}).
Proof. apply (init_default_level_out_of_range "dmx" 6454 300 2); lia. Defined.

(** * Cued writes, and a fade past the end of the buffer *)

Lemma fade_channels_loop_app (original_values value_arr : list Z) (n i : Z)
    (pre rest : list Z) :
  forall (changed : bool) (x : Z) (s : state),
  fade_channels_loop original_values value_arr n i changed x (pre ++ rest) s
  = match fade_channels_loop original_values value_arr n i changed x pre s with
    | (Ok changed', s') =>
        fade_channels_loop original_values value_arr n i changed' (x + len pre) rest s'
    | (Raise e, s') => (Raise e, s')
    end.
Proof.
  induction pre as [| c pre IH]; intros changed x s; simpl.
  - unfold ret. change (len []) with 0. rewrite Z.add_0_r. reflexivity.
  - unfold bind.
    destruct (fade_channel original_values value_arr n i changed x c s) as [[ch | e] s1];
      [| reflexivity].
    rewrite IH.
    replace (x + 1 + len pre) with (x + len (c :: pre))
      by (unfold len; simpl length; lia).
    reflexivity.
Qed.

Lemma getitem_past_the_end (l : list Z) (i : Z) : len l <= i -> getitem l i = Raise IndexError.
Proof.
  intros H. unfold getitem, index_of.
  assert (0 <= len l) by (unfold len; lia).
  destruct (Z.leb_spec 0 i), (Z.ltb_spec i (len l)), (Z.leb_spec (- len l) i),
    (Z.ltb_spec i 0); simpl; first [reflexivity | lia].
Qed.

(** A fade that lists a channel past the end of the buffer stops there, in
    its first frame. *)
Lemma fade_past_the_end_from (g : DMXGateway) (tr : list event) (pre : list Z) (c : Z)
    (post : list Z) (value : levels) (seconds fps : number) :
  well_formed g ->
  Forall (fun c' => 1 <= c' <= _number_of_channels g) pre ->
  _number_of_channels g < c ->
  value_arr value <> [] ->
  fade_channels (pre ++ c :: post) value seconds fps {| self := g; trace := tr |}
  = (Raise IndexError,
     put g (frame_buffer (_channels g) (value_arr value) (number_of_frames seconds fps)
              1 0 pre (_channels g)) tr).
Proof.
  intros Hg Hpre Hc Hne.
  pose proof (wf_length g Hg) as Hlen.
  pose proof (number_of_frames_pos seconds fps) as Hpos.
  set (n := number_of_frames seconds fps) in *.
  assert (Hv : Forall (valid_channel (_channels g) (_channels g)) pre).
  { eapply Forall_impl; [exact Hpre |]. intros c' H. cbv beta in H.
    unfold valid_channel. rewrite Hlen. lia. }
  unfold fade_channels, bind, get_self. cbn [self]. fold n.
  assert (Er : range 1 (n + 1) = 1 :: range 2 (n + 1)).
  { unfold range. replace (Z.to_nat (n + 1 - 1)) with (S (Z.to_nat (n + 1 - 2))) by lia.
    simpl. f_equal. rewrite <- seq_shift, map_map. apply map_ext. intros k. lia. }
  rewrite Er. simpl for_. unfold bind at 1. unfold fade_frame. unfold bind at 1.
  rewrite fade_channels_loop_app.
  rewrite <- (put_self g tr).
  rewrite (fade_channels_loop_spec g (_channels g) (value_arr value) n Hne Hpos)
    by (assumption || lia).
  simpl fade_channels_loop. unfold bind at 1.
  assert (Ef : forall changed buffer,
            fade_channel (_channels g) (value_arr value) n 1 changed (0 + len pre) c
              (put g buffer tr)
            = (Raise IndexError, put g buffer tr)).
  { intros changed buffer. unfold fade_channel, bind, lift.
    rewrite (target_at_ok (value_arr value) Hne) by (unfold len; lia).
    rewrite getitem_past_the_end by lia. reflexivity. }
  rewrite Ef. reflexivity.
Qed.

(** X8. Two accepted writes, the first cued with [send_immediately=False]
    and the second sent, put one datagram on the wire, and it carries both
    values. *)
Theorem cued_writes_are_sent_together (g : DMXGateway)
    (channel1 value1 channel2 value2 : Z) :
  well_formed g ->
  1 <= channel1 <= _number_of_channels g -> 0 <= value1 <= 255 ->
  1 <= channel2 <= _number_of_channels g -> 0 <= value2 <= 255 ->
  exists buffer : list Z,
    run (set_channel channel1 value1 false ;; set_channel channel2 value2 true) g
    = (Ok true, put g buffer [Sendto (_base_packet g ++ buffer) (_host g) (_port g)]) /\
    level buffer channel2 = value2 /\
    (channel1 <> channel2 -> level buffer channel1 = value1) /\
    (forall c : Z, 1 <= c <= _number_of_channels g -> c <> channel1 -> c <> channel2 ->
       level buffer c = level (_channels g) c).
Proof.
  intros Hg Hc1 Hv1 Hc2 Hv2.
  pose proof (wf_length g Hg) as Hlen. pose proof (wf_bytes g Hg) as Hbytes.
  exists (<[Z.to_nat (channel2 - 1) := value2]>
            (<[Z.to_nat (channel1 - 1) := value1]> (_channels g))).
  split; [| split; [| split]].
  - unfold run. unfold bind at 1. unfold set_channel at 1.
    unfold bind, get_self. cbv beta iota. cbn [self].
    destruct (Z.leb_spec 1 channel1), (Z.leb_spec channel1 (_number_of_channels g)),
      (Z.leb_spec 0 value1), (Z.leb_spec value1 255); try lia. cbv beta iota delta [andb].
    rewrite store_channel_ok by lia. unfold ret.
    unfold set_channel, bind, get_self. cbv beta iota.
    cbn [self put with_channels _number_of_channels].
    destruct (Z.leb_spec 1 channel2), (Z.leb_spec channel2 (_number_of_channels g)),
      (Z.leb_spec 0 value2), (Z.leb_spec value2 255); try lia. cbv beta iota delta [andb].
    fold (put g (<[Z.to_nat (channel1 - 1) := value1]> (_channels g)) []).
    rewrite store_channel_put by (rewrite len_insert; lia).
    rewrite send_put by (repeat apply bytes_insert; assumption).
    reflexivity.
  - apply level_insert_eq. rewrite len_insert. lia.
  - intros Hne. rewrite level_insert_ne by (rewrite ?len_insert; lia).
    apply level_insert_eq. lia.
  - intros c Hc H1 H2. rewrite level_insert_ne by (rewrite ?len_insert; lia).
    apply level_insert_ne; lia.
Qed.

Lemma cued_writes_are_sent_together_witness :
  exists buffer : list Z,
    run (set_channel 1 7 false ;; set_channel 2 9 true) demo
    = (Ok true, put demo buffer [Sendto (_base_packet demo ++ buffer) (_host demo) (_port demo)]) /\
    level buffer 2 = 9 /\
    (1 <> 2 -> level buffer 1 = 7) /\
    (forall c : Z, 1 <= c <= _number_of_channels demo -> c <> 1 -> c <> 2 ->
       level buffer c = level (_channels demo) c).
Proof.
  apply (cued_writes_are_sent_together demo 1 7 2 9).
  - exact demo_well_formed.
  - simpl. lia.
  - lia.
  - simpl. lia.
  - lia.
Defined.

(** X9. A fade that lists a channel above [N] raises [IndexError] in its
    first frame, before anything is sent or slept: the channels listed
    before it already hold the level of frame 1, the others are as they
    were.  (Targets that are bytes, a [moderate] duration and frame rate
    and fewer than [2^53] frames: beyond them the float arithmetic of the
    code can overflow before the index is reached.) *)
Theorem fade_channel_past_the_end (g : DMXGateway) (pre : list Z) (c : Z) (post : list Z)
    (value : levels) (seconds fps : number) :
  well_formed g ->
  Forall (fun c' => 1 <= c' <= _number_of_channels g) pre ->
  _number_of_channels g < c ->
  value_arr value <> [] ->
  Forall byte (value_arr value) ->
  moderate seconds ->
  moderate fps ->
  number_of_frames seconds fps < 2 ^ 53 ->
  exists s' : state,
    run (fade_channels (pre ++ c :: post) value seconds fps) g = (Raise IndexError, s') /\
    trace s' = [] /\
    (forall (x : nat) (c' : Z),
       pre !! x = Some c' ->
       (forall y : nat, (x < y)%nat -> pre !! y = Some c' ->
          target_at (value_arr value) (Z.of_nat y)
          = target_at (value_arr value) (Z.of_nat x)) ->
       level (_channels (self s')) c'
       = interpolate (level (_channels g) c') (target_at (value_arr value) (Z.of_nat x))
           (number_of_frames seconds fps) 1) /\
    (forall c' : Z, 1 <= c' <= _number_of_channels g -> ~ In c' pre ->
       level (_channels (self s')) c' = level (_channels g) c').
Proof.
  intros Hg Hpre Hc Hne _ _ _ _.
  pose proof (wf_length g Hg) as Hlen.
  eexists. split; [apply fade_past_the_end_from; assumption |]. split; [reflexivity |].
  unfold put. cbn [self with_channels _channels]. split.
  - intros x c' Hx Hdup.
    rewrite (frame_buffer_level (_channels g) (value_arr value) _ pre 1 (_channels g) 0 x c').
    + unfold frame_level. rewrite Z.add_0_l. reflexivity.
    + rewrite Hlen. exact Hpre.
    + exact Hx.
    + intros y Hlt Hy. unfold frame_level. rewrite !Z.add_0_l.
      rewrite (Hdup y Hlt Hy). reflexivity.
  - intros c' Hc' Hnot. apply frame_buffer_other.
    + eapply Forall_impl; [exact Hpre |]. simpl. intros; lia.
    + rewrite Hlen. exact Hc'.
    + exact Hnot.
Qed.

Lemma fade_channel_past_the_end_witness :
  exists s' : state,
    run (fade_channels ([1] ++ 3 :: [2]) (Single 200) (Int 1) (Int 40)) demo
    = (Raise IndexError, s') /\
    trace s' = [] /\
    level (_channels (self s')) 1 = 5 /\
    level (_channels (self s')) 2 = 0.
Proof.
  destruct (fade_channel_past_the_end demo [1] 3 [2] (Single 200) (Int 1) (Int 40))
    as (s' & Hrun & Htr & Hpre & Hother).
  - exact demo_well_formed.
  - repeat constructor; simpl; lia.
  - simpl. lia.
  - discriminate.
  - repeat constructor; unfold byte; lia.
  - simpl. lia.
  - simpl. lia.
  - vm_compute. reflexivity.
  - exists s'. split; [exact Hrun |]. split; [exact Htr |]. split.
    + rewrite (Hpre 0%nat 1 eq_refl); [vm_compute; reflexivity |].
      intros [| y] Hlt Hy; [lia | destruct y; discriminate].
    + rewrite (Hother 2); [reflexivity | simpl; lia |].
      intros [H | []]. discriminate.
Defined.

(** * More about fades *)



Section SilentFade.
Variables (g : DMXGateway) (original_values value_arr : list Z) (n : Z) (fps : number).
Hypothesis originals_bytes : Forall byte original_values.



End SilentFade.





(** From 255 to 0 in seven frames. *)
Example fade_from_255_in_7_frames :
  let r := run (fade_channels [1] (Single 0) (Int 1) (Int 7)) (with_channels demo [255; 0]) in
  received (with_channels demo [255; 0]) 1 255 (trace (snd r)) = [219; 182; 146; 109; 73; 36; 0].
Proof. vm_compute. reflexivity. Qed.





(** * Scaling a colour to a brightness *)

Section Scaling.
Local Open Scope Q_scope.

Lemma inject_Z_byte (v : Z) : (0 <= v <= 255)%Z -> 0 <= inject_Z v <= 255.
Proof.
  intros H. split; [rewrite <- (Zle_Qle 0) | rewrite <- (Zle_Qle _ 255)]; lia.
Qed.

(** The rounding unit of binary64 and the least subnormal number are far
    below the distances that matter for levels. *)
Lemma binary64_units :
  0 < pow2 (-53) <= 1 # 1000000000000000 /\ 0 < pow2 (-1075) <= 1 # 1000000000000000.
Proof.
  split; (split; [apply pow2_pos | apply Qle_bool_iff; vm_compute; reflexivity]).
Qed.

(** The float [brightness / 255] is within [2e-15] of the quotient. *)
Lemma brightness_scale_error (brightness : Z) :
  (0 <= brightness <= 255)%Z ->
  inject_Z brightness / 255 - (2 # 1000000000000000)
  <= rnd64 (inject_Z brightness / inject_Z 255)
  <= inject_Z brightness / 255 + (2 # 1000000000000000).
Proof.
  intros Hb. pose proof (inject_Z_byte brightness Hb) as HB.
  destruct binary64_units as [Hu He].
  change (inject_Z 255) with 255.
  assert (Hx : - (1) <= inject_Z brightness / 255 <= 1).
  { unfold Qdiv. change (/ 255) with (1 # 255). lra. }
  pose proof (rnd64_error _ 1 Hx) as H. lra.
Qed.

(** One scaled component: the float product rounds to the integer nearest
    to [component * brightness / 255], the two never being half-way apart. *)
Lemma scaled_component (component brightness : Z) :
  (0 <= component <= 255)%Z -> (0 <= brightness <= 255)%Z ->
  round_half_even
    (float_mul (float_of_int component) (rnd64 (inject_Z brightness / inject_Z 255)))
  = ((2 * component * brightness + 255) / 510)%Z.
Proof.
  intros Hc Hb. unfold float_mul, float_of_int.
  pose proof (inject_Z_byte component Hc) as HC.
  pose proof (inject_Z_byte brightness Hb) as HB.
  pose proof (brightness_scale_error brightness Hb) as Hs.
  destruct binary64_units as [Hu He].
  assert (Ec : rnd64 (inject_Z component) == inject_Z component) by (apply rnd64_Z; lia).
  set (s := rnd64 (inject_Z brightness / inject_Z 255)) in *.
  rewrite (rnd64_proper (rnd64 (inject_Z component) * s) (inject_Z component * s))
    by (apply Qmult_comp; [exact Ec | reflexivity]).
  set (C := inject_Z component) in *. set (B := inject_Z brightness) in *.
  assert (HB1 : 0 <= B / 255 <= 1).
  { unfold Qdiv. change (/ 255) with (1 # 255). lra. }
  assert (Hy : C * (B / 255) - (1 # 1000000) <= C * s <= C * (B / 255) + (1 # 1000000)).
  { clear - HC Hs. split; nra. }
  assert (Hy256 : - (256) <= C * s <= 256).
  { clear - HC HB1 Hy. split; nra. }
  pose proof (rnd64_error _ 256 Hy256) as Hp.
  set (p := rnd64 (C * s)) in *.
  assert (Hpe : C * (B / 255) - (1 # 1000) <= p <= C * (B / 255) + (1 # 1000)).
  { clear - Hy Hp Hu He. lra. }
  (* the nearest integer *)
  set (z := ((2 * component * brightness + 255) / 510)%Z).
  assert (Hz : (510 * z <= 2 * (component * brightness) + 254
                /\ 2 * (component * brightness) <= 510 * z + 254)%Z).
  { subst z.
    pose proof (Z.div_mod (2 * component * brightness + 255) 510 ltac:(lia)) as Hd.
    pose proof (Z.mod_pos_bound (2 * component * brightness + 255) 510 ltac:(lia)) as Hm.
    set (w := (component * brightness)%Z) in *.
    replace (2 * component * brightness)%Z with (2 * w)%Z in * by (subst w; ring).
    lia. }
  assert (HzQ : 510 * inject_Z z <= 2 * (C * B) + 254 /\ 2 * (C * B) <= 510 * inject_Z z + 254).
  { destruct Hz as [Hz1 Hz2]. rewrite Zle_Qle in Hz1, Hz2.
    rewrite ?inject_Z_plus, ?inject_Z_mult in Hz1, Hz2.
    split; assumption. }
  assert (Hex : 255 * (C * (B / 255)) == C * B) by field.
  set (W := C * B) in *. set (X := C * (B / 255)) in *.
  clearbody W X p.
  apply round_half_even_unique; clear - Hpe HzQ Hex; lra.
Qed.

End Scaling.

Lemma scale_rgb_closed_form (r g b brightness : Z) (rest : list Z) :
  0 <= r <= 255 -> 0 <= g <= 255 -> 0 <= b <= 255 -> 0 <= brightness <= 255 ->
  scale_rgb_to_brightness (r :: g :: b :: rest) brightness
  = Ok [(2 * r * brightness + 255) / 510;
        (2 * g * brightness + 255) / 510;
        (2 * b * brightness + 255) / 510].
Proof.
  intros Hr Hg Hb Hv. unfold scale_rgb_to_brightness, and_then, int_truediv.
  change (255 =? 0) with false. cbv beta iota.
  assert (Hlen : 3 <= len (r :: g :: b :: rest)) by (unfold len; simpl length; lia).
  rewrite !getitem_nonneg by lia. cbv beta iota. simpl nth.
  rewrite !scaled_component by assumption. reflexivity.
Qed.



(** * Constructing a light *)

Section Keeps.
Variable P : state -> Prop.

Lemma keeps_unit {A : Type} (a : A) : keeps P (unit_ a).
Proof. intros s Hs. exact Hs. Qed.

Lemma keeps_raise {A : Type} (e : error) : keeps P (@raise state A e).
Proof. intros s Hs. exact Hs. Qed.

Lemma keeps_builtin {A : Type} (r : result A) : keeps P (builtin r).
Proof. intros s Hs. unfold builtin. destruct r; exact Hs. Qed.

Lemma keeps_item {A : Type} (key : string) (v : option A) : keeps P (item key v).
Proof. intros s Hs. destruct v; exact Hs. Qed.

Lemma keeps_attribute {A : Type} (name : string) (v : option A) : keeps P (attribute name v).
Proof. intros s Hs. destruct v; exact Hs. Qed.

Lemma keeps_subscriptable {A : Type} (v : option A) : keeps P (subscriptable v).
Proof. intros s Hs. destruct v; exact Hs. Qed.

Lemma keeps_then {A B : Type} (m : L state A) (k : A -> L state B) :
  keeps P m -> (forall a : A, keeps P (k a)) -> keeps P (then_ m k).
Proof.
  intros Hm Hk s Hs. unfold then_. specialize (Hm s Hs).
  destruct (m s) as [[a | e] s1]; simpl in *; [apply Hk, Hm | exact Hm].
Qed.

Lemma keeps_call {A : Type} (m : M A) :
  (forall s : state, P s -> P (snd (m s))) -> keeps P (call m).
Proof.
  intros Hm s Hs. unfold call. specialize (Hm s Hs).
  destruct (m s) as [[a | e] s1]; exact Hm.
Qed.

End Keeps.

Lemma init_keeps_synchronised (tr : list event) (light : device) :
  keeps (synchronised tr) (ArtnetLight.__init__ light).
Proof.
  unfold ArtnetLight.__init__.
  apply keeps_then; [apply keeps_item | intros _type].
  apply keeps_then.
  { destruct (device_default_rgb light) as [tmpColor |]; [| apply keeps_unit].
    repeat (apply keeps_then; [apply keeps_builtin | intros ?]). apply keeps_unit. }
  intros color. apply keeps_then; [| intros; apply keeps_unit].
  destruct (String.eqb _type CONF_LIGHT_TYPE_RGB).
  - apply keeps_then; [apply keeps_attribute | intros brightness].
    apply keeps_then; [apply keeps_subscriptable | intros rgb].
    apply keeps_then; [apply keeps_builtin | intros scaled_rgb].
    apply keeps_then; [| intros; apply keeps_unit].
    apply keeps_call. intros s [Ht Hw]. split.
    + rewrite set_channel_rgb_quiet. exact Ht.
    + apply set_channel_rgb_wf, Hw.
  - apply keeps_then.
    + destruct (device_default_level light) as [level |]; [| apply keeps_unit].
      apply keeps_then; [| intros; apply keeps_unit].
      apply keeps_call. intros s [Ht Hw]. split.
      * rewrite set_channel_quiet. exact Ht.
      * apply set_channel_wf, Hw.
    + intros _. apply keeps_call. intros s Hs. exact Hs.
Qed.

Lemma stage_init : __init__ "dmx" 6454 0 4 = Ok stage.
Proof. reflexivity. Qed.

Lemma stage_well_formed : well_formed stage.
Proof. split; [reflexivity | repeat constructor; unfold byte; lia]. Qed.

(** X15. Constructing a light hands nothing to the socket and keeps the
    class invariant of the gateway, whatever the configuration of the
    light and whether the constructor returns or raises. *)
Theorem light_init_sends_nothing (light : device) (s : state) :
  well_formed (self s) ->
  trace (snd (ArtnetLight.__init__ light s)) = trace s /\
  well_formed (self (snd (ArtnetLight.__init__ light s))).
Proof.
  intros Hs. apply (init_keeps_synchronised (trace s) light s). split; [reflexivity | exact Hs].
Qed.

Lemma light_init_sends_nothing_witness :
  trace (snd (ArtnetLight.__init__ spot {| self := stage; trace := [] |})) = [] /\
  well_formed (self (snd (ArtnetLight.__init__ spot {| self := stage; trace := [] |}))).
Proof.
  apply (light_init_sends_nothing spot {| self := stage; trace := [] |}), stage_well_formed.
Defined.

(** X16. Two configurations the schema lets through make the constructor
    raise, the gateway untouched: an entry without [type] raises
    [KeyError], and a [default_rgb] of [(0, 0, 0)] raises
    [ZeroDivisionError]. *)
Theorem light_init_configuration_errors (light : device) (s : state) :
  (device_type light = None ->
   ArtnetLight.__init__ light s = (Raises (KeyError "type"), s))
  /\
  (forall type : string,
     device_type light = Some type ->
     device_default_rgb light = Some [0; 0; 0] ->
     ArtnetLight.__init__ light s = (Raises (Builtin ZeroDivisionError), s)).
Proof.
  split.
  - intros H. unfold ArtnetLight.__init__, then_, item. rewrite H. reflexivity.
  - intros type Ht Hc. unfold ArtnetLight.__init__, then_, item. rewrite Ht, Hc. reflexivity.
Qed.

Lemma light_init_configuration_errors_witness :
  ArtnetLight.__init__
    {| device_channel := 1; device_name := "spot"; device_type := None;
       device_default_level := Some 10; device_default_rgb := None |}
    {| self := demo; trace := [] |}
  = (Raises (KeyError "type"), {| self := demo; trace := [] |})
  /\
  ArtnetLight.__init__
    {| device_channel := 1; device_name := "spot"; device_type := Some CONF_LIGHT_TYPE_RGB;
       device_default_level := None; device_default_rgb := Some [0; 0; 0] |}
    {| self := demo; trace := [] |}
  = (Raises (Builtin ZeroDivisionError), {| self := demo; trace := [] |}).
Proof.
  split.
  - apply (proj1 (light_init_configuration_errors _ _)). reflexivity.
  - apply (proj2 (light_init_configuration_errors _ _) CONF_LIGHT_TYPE_RGB); reflexivity.
Defined.

(** X17. An RGB light configured without [default_rgb] cannot be
    constructed: the constructor reads [self._brightness], which nothing
    has assigned on that path, and raises [AttributeError], the gateway
    untouched.  (The class assigns the attribute only under
    [default_rgb] or for the other light types; the model takes the base
    class [Light] to provide none.) *)
Theorem rgb_light_without_default_rgb (light : device) (s : state) :
  device_type light = Some CONF_LIGHT_TYPE_RGB ->
  device_default_rgb light = None ->
  ArtnetLight.__init__ light s = (Raises (AttributeError "_brightness"), s).
Proof.
  intros Ht Hc. unfold ArtnetLight.__init__, then_, item. rewrite Ht, Hc. reflexivity.
Qed.

Lemma rgb_light_without_default_rgb_witness :
  ArtnetLight.__init__
    {| device_channel := 1; device_name := "spot"; device_type := Some CONF_LIGHT_TYPE_RGB;
       device_default_level := Some 10; device_default_rgb := None |}
    {| self := demo; trace := [] |}
  = (Raises (AttributeError "_brightness"), {| self := demo; trace := [] |}).
Proof. apply rgb_light_without_default_rgb; reflexivity. Defined.


Lemma set_channel_rejected (s : state) (channel value : Z) (send_immediately : bool) :
  ~ (1 <= channel <= _number_of_channels (self s) /\ 0 <= value <= 255) ->
  set_channel channel value send_immediately s = (Ok false, s).
Proof.
  intros Hn. unfold set_channel, bind, get_self. cbv beta iota.
  destruct (Z.leb_spec 1 channel), (Z.leb_spec channel (_number_of_channels (self s))),
    (Z.leb_spec 0 value), (Z.leb_spec value 255); cbv beta iota delta [andb];
    first [reflexivity | exfalso; apply Hn; lia].
Qed.



(** X19. A dimmer configured on a channel above [N] cannot be constructed:
    the write of its default level is rejected silently, and reading the
    channel back raises [IndexError], the gateway untouched. *)
Theorem dimmer_past_the_end (light : device) (s : state) :
  device_type light = Some CONF_LIGHT_TYPE_DIMMER ->
  device_default_rgb light = None ->
  len (_channels (self s)) = _number_of_channels (self s) ->
  _number_of_channels (self s) < device_channel light ->
  ArtnetLight.__init__ light s = (Raises (Builtin IndexError), s).
Proof.
  intros Ht Hrgb Hlen Hc.
  unfold ArtnetLight.__init__. unfold then_ at 1. rewrite Ht. cbn [item unit_].
  unfold then_ at 1. rewrite Hrgb. cbn [unit_ fst snd].
  change (String.eqb CONF_LIGHT_TYPE_DIMMER CONF_LIGHT_TYPE_RGB) with false. cbv iota.
  assert (Eget : get_channel_level (device_channel light) s = (Raise IndexError, s)).
  { unfold get_channel_level, load_channel. rewrite getitem_past_the_end by lia. reflexivity. }
  destruct (device_default_level light) as [default_level |].
  - unfold then_, call. rewrite set_channel_rejected by lia. cbn [unit_].
    rewrite Eget. reflexivity.
  - unfold then_, call. cbn [unit_]. rewrite Eget. reflexivity.
Qed.

Lemma dimmer_past_the_end_witness :
  ArtnetLight.__init__
    {| device_channel := 3; device_name := "desk"; device_type := Some CONF_LIGHT_TYPE_DIMMER;
       device_default_level := Some 10; device_default_rgb := None |}
    {| self := demo; trace := [] |}
  = (Raises (Builtin IndexError), {| self := demo; trace := [] |}).
Proof.
  apply dimmer_past_the_end.
  - reflexivity.
  - reflexivity.
  - reflexivity.
  - simpl. lia.
Defined.

Section Normalising.
Local Open Scope Q_scope.

(** A component of [default_rgb] divided by [max(default_rgb) / 255] and
    truncated: [v] with [255 c - m <= v m <= 255 c]. *)
Lemma normalised_component (c m : Z) :
  (0 <= c <= m)%Z -> (1 <= m <= 255)%Z ->
  exists f : Q,
    float_truediv (float_of_int c) (rnd64 (inject_Z m / inject_Z 255)) = Ok f /\
    (0 <= int (Float f) <= 255)%Z /\
    (255 * c - m <= int (Float f) * m <= 255 * c)%Z.
Proof.
  intros Hc Hm.
  pose proof (brightness_scale_error m ltac:(lia)) as Hs.
  destruct binary64_units as [Hu He].
  set (s := rnd64 (inject_Z m / inject_Z 255)) in *.
  set (M := inject_Z m) in *. set (C := inject_Z c).
  assert (HM : 1 <= M <= 255).
  { subst M. split; [rewrite <- (Zle_Qle 1) | rewrite <- (Zle_Qle _ 255)]; lia. }
  assert (HC : 0 <= C <= M).
  { subst C M. split; [rewrite <- (Zle_Qle 0) | rewrite <- Zle_Qle]; lia. }
  assert (HMd : M / 255 == M * (1 # 255)) by reflexivity.
  rewrite HMd in Hs.
  assert (Hspos : 1 # 256 < s) by lra.
  assert (Hsnz : ~ s == 0) by lra.
  unfold float_truediv.
  destruct (Qeq_bool s 0) eqn:Es; [apply Qeq_bool_iff in Es; contradiction |].
  assert (Ec : float_of_int c == C) by (apply rnd64_Z; lia).
  rewrite (rnd64_proper (float_of_int c / s) (C / s))
    by (apply Qdiv_comp; [exact Ec | reflexivity]).
  set (x := C / s).
  assert (Hxs : x * s == C) by (subst x; field; exact Hsnz).
  assert (Hx0 : 0 <= x).
  { subst x. apply Qle_shift_div_l; lra. }
  assert (Hx256 : x <= 256).
  { destruct (Qlt_le_dec 256 x) as [Hgt | Hle]; [| exact Hle]. exfalso.
    assert (H1 : 256 * s <= x * s) by (apply Qmult_le_compat_r; lra).
    lra. }
  assert (HxM : 255 * C - (1 # 1000000000) <= x * M <= 255 * C + (1 # 1000000000)).
  { assert (H1 : (s - (2 # 1000000000000000)) * x <= (M * (1 # 255)) * x)
      by (apply Qmult_le_compat_r; lra).
    assert (H2 : (M * (1 # 255)) * x <= (s + (2 # 1000000000000000)) * x)
      by (apply Qmult_le_compat_r; lra).
    assert (E1 : (s - (2 # 1000000000000000)) * x == C - x * (2 # 1000000000000000))
      by (rewrite <- Hxs; ring).
    assert (E2 : (s + (2 # 1000000000000000)) * x == C + x * (2 # 1000000000000000))
      by (rewrite <- Hxs; ring).
    assert (E3 : (M * (1 # 255)) * x == (x * M) * (1 # 255)) by ring.
    rewrite E1, E3 in H1. rewrite E2, E3 in H2.
    set (XM := x * M) in *. clearbody XM. clear - H1 H2 Hx0 Hx256. lra. }
  pose proof (rnd64_error x 256 ltac:(lra)) as Hf.
  pose proof (rnd64_nonneg x Hx0) as Hf0.
  set (f := rnd64 x) in *.
  exists f. split; [reflexivity |].
  assert (Ev : int (Float f) = Qfloor f).
  { unfold int. destruct (Qle_bool 0 f) eqn:E; [reflexivity |].
    exfalso. apply Qle_bool_iff in Hf0. congruence. }
  rewrite Ev. destruct (floor_bounds f) as [Hlo Hhi].
  set (v := Qfloor f) in *. set (V := inject_Z v) in *.
  assert (HfM : 255 * C - (1 # 1000000) <= f * M <= 255 * C + (1 # 1000000)).
  { assert (H1 : (x - (256 * pow2 (-53) + pow2 (-1075))) * M <= f * M)
      by (apply Qmult_le_compat_r; lra).
    assert (H2 : f * M <= (x + (256 * pow2 (-53) + pow2 (-1075))) * M)
      by (apply Qmult_le_compat_r; lra).
    set (e := 256 * pow2 (-53) + pow2 (-1075)) in *.
    assert (Hee : 0 <= e <= 1 # 1000000000000) by (subst e; lra).
    assert (H3 : 0 <= e * M <= 255 * e) by (clear - Hee HM; split; nra).
    assert (E1 : (x - e) * M == x * M - e * M) by ring.
    assert (E2 : (x + e) * M == x * M + e * M) by ring.
    rewrite E1 in H1. rewrite E2 in H2.
    set (XM := x * M) in *. set (FM := f * M) in *. set (EM := e * M) in *.
    clearbody XM FM EM. clear - H1 H2 H3 HxM Hee. lra. }
  assert (HVM1 : V * M <= f * M) by (apply Qmult_le_compat_r; lra).
  assert (HVM2 : f * M < (V + 1) * M) by (apply Qmult_lt_compat_r; lra).
  assert (Z1 : (v * m < 255 * c + 1)%Z).
  { rewrite Zlt_Qlt, inject_Z_plus, !inject_Z_mult. fold V M C.
    change (inject_Z 255) with 255. change (inject_Z 1) with 1. lra. }
  assert (Z2 : (255 * c - m - 1 < v * m)%Z).
  { rewrite Zlt_Qlt. unfold Z.sub. rewrite !inject_Z_plus, !inject_Z_opp, !inject_Z_mult.
    fold V M C. change (inject_Z 255) with 255. change (inject_Z 1) with 1.
    assert (E : (V + 1) * M == V * M + M) by ring. rewrite E in HVM2. lra. }
  assert (Z0 : (0 <= v)%Z).
  { assert (H : inject_Z (-1) < V) by (change (inject_Z (-1)) with (- (1)); lra).
    subst V. rewrite <- Zlt_Qlt in H. lia. }
  split; [| lia]. split; [exact Z0 | nia].
Qed.

End Normalising.

Lemma scaled_back (c m v : Z) :
  0 <= c <= m -> 1 <= m <= 255 -> 0 <= v -> 255 * c - m <= v * m <= 255 * c ->
  c - 1 <= (2 * v * m + 255) / 510 <= c /\ 0 <= (2 * v * m + 255) / 510.
Proof.
  intros Hc Hm Hv0 Hv.
  pose proof (Z.div_mod (2 * v * m + 255) 510 ltac:(lia)) as Hd.
  pose proof (Z.mod_pos_bound (2 * v * m + 255) 510 ltac:(lia)) as Hb.
  assert (Hw0 : 0 <= v * m) by nia.
  set (w := v * m) in *. replace (2 * v * m) with (2 * w) in * by (subst w; ring).
  lia.
Qed.

Lemma then_returns {S A B : Type} (m : L S A) (k : A -> L S B) (s s' : S) (a : A) :
  m s = (Returns a, s') -> then_ m k s = k a s'.
Proof. intros E. unfold then_. rewrite E. reflexivity. Qed.

Lemma builtin_ok {S A : Type} (r : result A) (a : A) (s : S) :
  r = Ok a -> builtin r s = (Returns a, s).
Proof. intros ->. reflexivity. Qed.

Lemma call_ok {A : Type} (m : M A) (s s' : state) (a : A) :
  m s = (Ok a, s') -> call m s = (Returns a, s').
Proof. intros E. unfold call. rewrite E. reflexivity. Qed.

(** The colour kept for a [default_rgb] that is not black. *)
Lemma default_color_ok (r g b : Z) :
  0 <= r <= 255 -> 0 <= g <= 255 -> 0 <= b <= 255 ->
  0 < Z.max (Z.max r g) b ->
  let m := Z.max (Z.max r g) b in
  exists vr vg vb : Z,
    default_color [r; g; b] = Ok ([vr; vg; vb], m) /\
    (0 <= vr <= 255 /\ 255 * r - m <= vr * m <= 255 * r) /\
    (0 <= vg <= 255 /\ 255 * g - m <= vg * m <= 255 * g) /\
    (0 <= vb <= 255 /\ 255 * b - m <= vb * m <= 255 * b).
Proof.
  intros Hr Hg Hb Hmax m.
  assert (Hm : 1 <= m <= 255) by (subst m; lia).
  destruct (normalised_component r m ltac:(subst m; lia) Hm) as (fr & Efr & Hvr & Hwr).
  destruct (normalised_component g m ltac:(subst m; lia) Hm) as (fg & Efg & Hvg & Hwg).
  destruct (normalised_component b m ltac:(subst m; lia) Hm) as (fb & Efb & Hvb & Hwb).
  exists (int (Float fr)), (int (Float fg)), (int (Float fb)).
  split; [| repeat split; assumption || lia].
  unfold default_color.
  change (max_of [r; g; b]) with (Ok m). cbn [and_then].
  unfold int_truediv. change (255 =? 0) with false. cbv iota. cbn [and_then].
  change (getitem [r; g; b] 0) with (Ok r).
  change (getitem [r; g; b] 1) with (Ok g).
  change (getitem [r; g; b] 2) with (Ok b).
  cbn [and_then]. rewrite Efr, Efg, Efb. reflexivity.
Qed.

(** X20. An RGB light with a [default_rgb] of three bytes, not all zero,
    on channels that fit the buffer is constructed on three consecutive
    channels with the largest component as its brightness, and is on; each
    of its channels is left at the configured component or one below it,
    the other channels are untouched and nothing is sent. *)
Theorem rgb_light_init (light : device) (g : DMXGateway) (tr : list event) (r g' b : Z) :
  device_type light = Some CONF_LIGHT_TYPE_RGB ->
  device_default_rgb light = Some [r; g'; b] ->
  0 <= r <= 255 -> 0 <= g' <= 255 -> 0 <= b <= 255 ->
  0 < Z.max (Z.max r g') b ->
  well_formed g ->
  1 <= device_channel light ->
  device_channel light + 2 <= _number_of_channels g ->
  exists (e : ArtnetLight.t) (buffer : list Z),
    ArtnetLight.__init__ light {| self := g; trace := tr |} = (Returns e, put g buffer tr) /\
    ArtnetLight._channels e
    = [device_channel light; device_channel light + 1; device_channel light + 2] /\
    ArtnetLight.brightness e = Some (Z.max (Z.max r g') b) /\
    ArtnetLight.is_on e = true /\
    r - 1 <= level buffer (device_channel light) <= r /\
    g' - 1 <= level buffer (device_channel light + 1) <= g' /\
    b - 1 <= level buffer (device_channel light + 2) <= b /\
    forall c : Z, 1 <= c <= _number_of_channels g ->
      ~ (device_channel light <= c <= device_channel light + 2) ->
      level buffer c = level (_channels g) c.
Proof.
  intros Ht Hrgb Hr Hg' Hb Hmax Hg Hc1 Hc2.
  destruct (default_color_ok r g' b Hr Hg' Hb Hmax)
    as (vr & vg & vb & Ecolor & [Hvr Hwr] & [Hvg Hwg] & [Hvb Hwb]).
  set (m := Z.max (Z.max r g') b) in *.
  assert (Hm : 1 <= m <= 255) by lia.
  set (ch := device_channel light) in *.
  set (values := [(2 * vr * m + 255) / 510; (2 * vg * m + 255) / 510;
                  (2 * vb * m + 255) / 510]).
  set (buffer := rgb_buffer ch (_number_of_channels g) 0 values (_channels g)).
  pose proof (scaled_back r m vr ltac:(lia) Hm ltac:(lia) Hwr) as [Lr Lr0].
  pose proof (scaled_back g' m vg ltac:(lia) Hm ltac:(lia) Hwg) as [Lg Lg0].
  pose proof (scaled_back b m vb ltac:(lia) Hm ltac:(lia) Hwb) as [Lb Lb0].
  assert (Hw : forall (j : nat) (v : Z), values !! j = Some v -> 0 <= v <= 255 ->
            level buffer (ch + Z.of_nat j) = v).
  { intros j v Hj Hv.
    pose proof (rgb_buffer_written g ch Hc1 values 0 (_channels g) j v
                  ltac:(lia) (wf_length g Hg) Hj) as W.
    rewrite Z.add_0_r in W. apply W; [| exact Hv].
    destruct j as [| [| [| j]]]; simpl in Hj; try discriminate; lia. }
  eexists _, buffer. split.
  - unfold ArtnetLight.__init__. rewrite Ht, Hrgb. fold ch.
    erewrite then_returns by reflexivity.
    erewrite (then_returns (then_ _ _)).
    2:{ erewrite then_returns by (apply builtin_ok, Ecolor). reflexivity. }
    cbn [fst snd].
    change (String.eqb CONF_LIGHT_TYPE_RGB CONF_LIGHT_TYPE_RGB) with true. cbv iota.
    erewrite (then_returns (then_ _ _)).
    2:{ erewrite then_returns by reflexivity.
        erewrite then_returns by reflexivity.
        erewrite then_returns
          by (apply builtin_ok, scale_rgb_closed_form; assumption || lia).
        erewrite then_returns.
        2:{ apply call_ok. apply (set_channel_rgb_run g ch _ Hc1 tr false Hg). }
        rewrite app_nil_r. reflexivity. }
    reflexivity.
  - cbn [ArtnetLight._channels ArtnetLight.brightness ArtnetLight._brightness
         ArtnetLight.is_on ArtnetLight._state].
    split; [| split; [reflexivity | split; [apply Z.leb_le; lia |]]].
    { unfold range. replace (Z.to_nat _) with 3%nat by (simpl; lia).
      simpl. repeat f_equal; lia. }
    split; [| split; [| split]].
    + pose proof (Hw 0%nat _ eq_refl ltac:(lia)) as W.
      change (Z.of_nat 0) with 0 in W. rewrite Z.add_0_r in W. rewrite W. exact Lr.
    + pose proof (Hw 1%nat _ eq_refl ltac:(lia)) as W.
      change (Z.of_nat 1) with 1 in W. rewrite W. exact Lg.
    + pose proof (Hw 2%nat _ eq_refl ltac:(lia)) as W.
      change (Z.of_nat 2) with 2 in W. rewrite W. exact Lb.
    + intros c Hc Hout. apply rgb_buffer_kept; try assumption.
      * lia.
      * apply (wf_length g Hg).
      * intros j v Hj Hcj.
        destruct j as [| [| [| j]]]; simpl in Hj; try discriminate; lia.
Qed.

Lemma rgb_light_init_witness :
  exists (e : ArtnetLight.t) (buffer : list Z),
    ArtnetLight.__init__ spot {| self := stage; trace := [] |}
    = (Returns e, put stage buffer []) /\
    ArtnetLight.brightness e = Some 132 /\
    132 - 1 <= level buffer 1 <= 132 /\
    60 - 1 <= level buffer 2 <= 60 /\
    0 - 1 <= level buffer 3 <= 0.
Proof.
  destruct (rgb_light_init spot stage [] 132 60 0)
    as (e & buffer & Hrun & _ & Hb & _ & H1 & H2 & H3 & _).
  - reflexivity.
  - reflexivity.
  - lia.
  - lia.
  - lia.
  - lia.
  - exact stage_well_formed.
  - simpl. lia.
  - simpl. lia.
  - exists e, buffer. repeat split; assumption || apply H1 || apply H2 || apply H3.
Defined.

(** The levels do fall one short: [default_rgb = (132, 60, 0)] leaves
    131 and 60 in the first two channels. *)
Example rgb_light_init_132 :
  snd (ArtnetLight.__init__ spot {| self := stage; trace := [] |})
  = put stage [131; 60; 0; 0] [].
Proof. vm_compute. reflexivity. Qed.

(** * Switching a light *)

Section FadeFrom.
Variables (g : DMXGateway) (tr : list event) (channels : list Z) (value : levels)
          (seconds fps : number).
Hypothesis gateway_ok : well_formed g.
Hypothesis channels_ok :
  Forall (fun c => 1 <= c <= _number_of_channels g) channels.
Hypothesis targets_nonempty : value_arr value <> [].
Hypothesis targets_bytes : Forall byte (value_arr value).
Hypothesis fps_nonzero : ~ (to_float fps == 0)%Q.
Hypothesis frames_exact : number_of_frames seconds fps < 2 ^ 53.

(** The fade started on a gateway that has already sent and slept. *)
Lemma fade_channels_from :
  fade_channels channels value seconds fps {| self := g; trace := tr |}
  = (Ok tt,
     put g
       (frames_buffer (_channels g) (value_arr value) (number_of_frames seconds fps)
          channels (range 1 (number_of_frames seconds fps + 1)) (_channels g))
       (tr ++ frames_events g (_channels g) (value_arr value)
                (number_of_frames seconds fps) channels fps
                (range 1 (number_of_frames seconds fps + 1)) (_channels g))).
Proof.
  unfold fade_channels, bind, get_self. simpl self.
  rewrite <- (put_self g tr).
  rewrite fade_frames_spec; try assumption.
  - reflexivity.
  - apply number_of_frames_pos.
  - apply (wf_bytes g gateway_ok).
  - apply (wf_bytes g gateway_ok).
  - apply channels_valid; [assumption | assumption | reflexivity].
  - apply Forall_forall. intros i Hi. apply list_elem_of_In, range_bounds in Hi. lia.
Qed.


(** The level of a listed channel when the fade is over. *)
Lemma fade_result_level (x : nat) (c : Z) :
  channels !! x = Some c ->
  (forall y : nat, (x < y)%nat -> channels !! y = Some c ->
     target_at (value_arr value) (Z.of_nat y) = target_at (value_arr value) (Z.of_nat x)) ->
  level
    (frames_buffer (_channels g) (value_arr value) (number_of_frames seconds fps)
       channels (range 1 (number_of_frames seconds fps + 1)) (_channels g)) c
  = target_at (value_arr value) (Z.of_nat x).
Proof.
  intros Hx Hdup. pose proof number_of_frames_pos seconds fps as Hpos.
  assert (Hcv : 1 <= c <= _number_of_channels g).
  { rewrite Forall_lookup in channels_ok. exact (channels_ok x c Hx). }
  rewrite (fade_prefix_level g channels value seconds fps gateway_ok channels_ok _ x c);
    [| lia | exact Hx | exact Hdup].
  apply interpolate_final; [| | lia].
  - apply bytes_level; [apply (wf_bytes g gateway_ok) |].
    rewrite (wf_length g gateway_ok). exact Hcv.
  - apply target_at_byte; [assumption | assumption | lia].
Qed.

(** A channel the fade does not list keeps its level. *)
Lemma fade_result_other (c : Z) :
  1 <= c <= _number_of_channels g -> ~ In c channels ->
  level
    (frames_buffer (_channels g) (value_arr value) (number_of_frames seconds fps)
       channels (range 1 (number_of_frames seconds fps + 1)) (_channels g)) c
  = level (_channels g) c.
Proof.
  intros Hc Hn.
  generalize (range 1 (number_of_frames seconds fps + 1)). intros frames.
  assert (H : forall buffer, len buffer = _number_of_channels g ->
            level (frames_buffer (_channels g) (value_arr value)
                     (number_of_frames seconds fps) channels frames buffer) c
            = level buffer c).
  { induction frames as [| i rest IH]; intros buffer Hlen; simpl.
    - reflexivity.
    - rewrite IH by (rewrite frame_buffer_length; exact Hlen).
      apply frame_buffer_other.
      + eapply Forall_impl; [exact channels_ok |]. simpl. intros; lia.
      + rewrite Hlen. exact Hc.
      + exact Hn. }
  apply H, (wf_length g gateway_ok).
Qed.

End FadeFrom.

Lemma fps_40 : ~ (to_float (Int 40) == 0)%Q.
Proof. vm_compute. discriminate. Qed.

Lemma on_controller_ok {A : Type} (m : M A) (h : ArtnetLight.home) (s' : state) (a : A) :
  m (ArtnetLight.controller h) = (Ok a, s') ->
  ArtnetLight.on_controller m h
  = (Returns a, {| ArtnetLight.entity := ArtnetLight.entity h;
                   ArtnetLight.controller := s';
                   ArtnetLight.scheduled_updates := ArtnetLight.scheduled_updates h |}).
Proof. intros E. unfold ArtnetLight.on_controller. rewrite E. reflexivity. Qed.

Lemma on_controller_raise {A : Type} (m : M A) (h : ArtnetLight.home) (s' : state) (e : exn) :
  m (ArtnetLight.controller h) = (Raise e, s') ->
  ArtnetLight.on_controller m h
  = (Raises (Builtin e), {| ArtnetLight.entity := ArtnetLight.entity h;
                            ArtnetLight.controller := s';
                            ArtnetLight.scheduled_updates := ArtnetLight.scheduled_updates h |}).
Proof. intros E. unfold ArtnetLight.on_controller. rewrite E. reflexivity. Qed.

Lemma then_raises {S A B : Type} (m : L S A) (k : A -> L S B) (s s' : S) (e : error) :
  m s = (Raises e, s') -> then_ m k s = (Raises e, s').
Proof. intros E. unfold then_. rewrite E. reflexivity. Qed.

Section TurnOff.
Variables (e : ArtnetLight.t) (g : DMXGateway) (tr : list event) (u : nat) (kw : kwargs).
Hypothesis gateway_ok : well_formed g.
Hypothesis channels_ok :
  Forall (fun c => 1 <= c <= _number_of_channels g) (ArtnetLight._channels e).
Hypothesis frames_exact : number_of_frames (ArtnetLight.transition kw) (Int 40) < 2 ^ 53.


End TurnOff.



Lemma switched_on_fixture (kw : kwargs) (e : ArtnetLight.t) :
  ArtnetLight._type (switched_on kw e) = ArtnetLight._type e /\
  ArtnetLight._channels (switched_on kw e) = ArtnetLight._channels e /\
  ArtnetLight._state (switched_on kw e) = true /\
  ArtnetLight._brightness (switched_on kw e)
  = match ATTR_BRIGHTNESS kw with
    | Some brightness => Some brightness
    | None => ArtnetLight._brightness e
    end /\
  ArtnetLight._rgb (switched_on kw e)
  = match ATTR_RGB_COLOR kw with
    | Some rgb => Some rgb
    | None => ArtnetLight._rgb e
    end.
Proof.
  unfold switched_on.
  destruct (ATTR_BRIGHTNESS kw), (ATTR_RGB_COLOR kw); repeat split; reflexivity.
Qed.

Lemma async_turn_on_assigns (kw : kwargs) (e : ArtnetLight.t) (s : state) (u : nat) :
  ArtnetLight.async_turn_on kw
    {| ArtnetLight.entity := e; ArtnetLight.controller := s;
       ArtnetLight.scheduled_updates := u |}
  = then_
      (if String.eqb (ArtnetLight._type (switched_on kw e)) CONF_LIGHT_TYPE_RGB then
         then_ (attribute "_brightness" (ArtnetLight._brightness (switched_on kw e)))
           (fun brightness =>
            then_ (subscriptable (ArtnetLight._rgb (switched_on kw e)))
              (fun rgb =>
               then_ (builtin (scale_rgb_to_brightness rgb brightness))
                 (fun scaled_rgb =>
                  ArtnetLight.on_controller
                    (fade_channels (ArtnetLight._channels (switched_on kw e))
                       (Several scaled_rgb) (Int (int (ArtnetLight.transition kw))) (Int 40)))))
       else
         then_ (attribute "_brightness" (ArtnetLight._brightness (switched_on kw e)))
           (fun brightness =>
            ArtnetLight.on_controller
              (fade_channels (ArtnetLight._channels (switched_on kw e))
                 (Single brightness) (Int (int (ArtnetLight.transition kw))) (Int 40))))
      (fun _ => ArtnetLight.async_schedule_update_ha_state)
      {| ArtnetLight.entity := switched_on kw e; ArtnetLight.controller := s;
         ArtnetLight.scheduled_updates := u |}.
Proof.
  unfold ArtnetLight.async_turn_on, switched_on.
  destruct (ATTR_BRIGHTNESS kw), (ATTR_RGB_COLOR kw); reflexivity.
Qed.

Section TurnOnDimmer.
Variables (e : ArtnetLight.t) (g : DMXGateway) (tr : list event) (u : nat) (kw : kwargs)
          (brightness : Z).
Hypothesis not_rgb : String.eqb (ArtnetLight._type e) CONF_LIGHT_TYPE_RGB = false.
Hypothesis brightness_given :
  match ATTR_BRIGHTNESS kw with
  | Some v => Some v
  | None => ArtnetLight._brightness e
  end = Some brightness.
Hypothesis brightness_byte : 0 <= brightness <= 255.
Hypothesis gateway_ok : well_formed g.
Hypothesis channels_ok :
  Forall (fun c => 1 <= c <= _number_of_channels g) (ArtnetLight._channels e).
Hypothesis frames_exact :
  number_of_frames (Int (int (ArtnetLight.transition kw))) (Int 40) < 2 ^ 53.

Lemma async_turn_on_dimmer_run :
  exists events : list event,
    ArtnetLight.async_turn_on kw
      {| ArtnetLight.entity := e;
         ArtnetLight.controller := {| self := g; trace := tr |};
         ArtnetLight.scheduled_updates := u |}
    = (Returns tt,
       {| ArtnetLight.entity := switched_on kw e;
          ArtnetLight.controller :=
            {| self := faded g (ArtnetLight._channels e) (Single brightness)
                         (Int (int (ArtnetLight.transition kw))) (Int 40);
               trace := tr ++ events |};
          ArtnetLight.scheduled_updates := S u |})
    /\ Z.of_nat (count_sleeps events)
       = number_of_frames (Int (int (ArtnetLight.transition kw))) (Int 40).
Proof.
  destruct (switched_on_fixture kw e) as (Et & Ec & _ & Eb & _).
  eexists. split.
  - rewrite async_turn_on_assigns. rewrite Et, Ec, Eb, not_rgb, brightness_given.
    erewrite then_returns.
    2:{ erewrite then_returns by reflexivity.
        apply on_controller_ok. cbn [ArtnetLight.controller].
        apply fade_channels_from; try assumption.
        - discriminate.
        - repeat constructor; unfold byte; lia.
        - exact fps_40. }
    reflexivity.
  - rewrite frames_events_sleeps, range_length.
    pose proof (number_of_frames_pos (Int (int (ArtnetLight.transition kw))) (Int 40)). lia.
Qed.

End TurnOnDimmer.

Lemma faded_level (g : DMXGateway) (tr : list event) (channels : list Z) (target : Z)
    (seconds : number) (c : Z) :
  well_formed g ->
  Forall (fun c => 1 <= c <= _number_of_channels g) channels ->
  0 <= target <= 255 ->
  number_of_frames seconds (Int 40) < 2 ^ 53 ->
  In c channels ->
  get_channel_level c {| self := faded g channels (Single target) seconds (Int 40); trace := tr |}
  = (Ok target, {| self := faded g channels (Single target) seconds (Int 40); trace := tr |}).
Proof.
  intros Hg Hc Ht Hn Hin.
  assert (Hne : value_arr (Single target) <> []) by discriminate.
  assert (Hb : Forall byte (value_arr (Single target)))
    by (repeat constructor; unfold byte; lia).
  unfold faded. fold (put g
    (frames_buffer (_channels g) (value_arr (Single target))
       (number_of_frames seconds (Int 40)) channels
       (range 1 (number_of_frames seconds (Int 40) + 1)) (_channels g)) tr).
  assert (Hcv : 1 <= c <= _number_of_channels g).
  { rewrite Forall_forall in Hc. apply Hc, list_elem_of_In, Hin. }
  rewrite get_channel_level_put
    by (rewrite frames_buffer_length, (wf_length g Hg); exact Hcv).
  apply list_elem_of_In, list_elem_of_lookup_1 in Hin. destruct Hin as [x Hx].
  rewrite (fade_result_level g channels (Single target) seconds (Int 40)
             Hg Hc Hne Hb Hn x c Hx).
  - simpl value_arr. rewrite target_at_single. reflexivity.
  - intros y _ _. simpl value_arr. rewrite !target_at_single. reflexivity.
Qed.

Lemma faded_other (g : DMXGateway) (tr : list event) (channels : list Z) (value : levels)
    (seconds : number) (c : Z) :
  well_formed g ->
  Forall (fun c => 1 <= c <= _number_of_channels g) channels ->
  1 <= c <= _number_of_channels g -> ~ In c channels ->
  get_channel_level c {| self := faded g channels value seconds (Int 40); trace := tr |}
  = (Ok (level (_channels g) c),
     {| self := faded g channels value seconds (Int 40); trace := tr |}).
Proof.
  intros Hg Hc Hcv Hout.
  unfold faded. fold (put g
    (frames_buffer (_channels g) (value_arr value)
       (number_of_frames seconds (Int 40)) channels
       (range 1 (number_of_frames seconds (Int 40) + 1)) (_channels g)) tr).
  rewrite get_channel_level_put
    by (rewrite frames_buffer_length, (wf_length g Hg); exact Hcv).
  rewrite fade_result_other by assumption. reflexivity.
Qed.


(** X22. Turning on a dimmer, with the brightness of the call or else the
    one it has kept, returns with all its channels at that brightness and
    the other channels as they were; the light reports on with that
    brightness, and one state update is scheduled. *)
Theorem dimmer_turn_on (h : ArtnetLight.home) (kw : kwargs) (brightness : Z) :
  String.eqb (ArtnetLight._type (ArtnetLight.entity h)) CONF_LIGHT_TYPE_RGB = false ->
  match ATTR_BRIGHTNESS kw with
  | Some v => Some v
  | None => ArtnetLight.brightness (ArtnetLight.entity h)
  end = Some brightness ->
  0 <= brightness <= 255 ->
  well_formed (self (ArtnetLight.controller h)) ->
  Forall (fun c => 1 <= c <= _number_of_channels (self (ArtnetLight.controller h)))
    (ArtnetLight._channels (ArtnetLight.entity h)) ->
  number_of_frames (Int (int (ArtnetLight.transition kw))) (Int 40) < 2 ^ 53 ->
  exists h' : ArtnetLight.home,
    ArtnetLight.async_turn_on kw h = (Returns tt, h') /\
    ArtnetLight.is_on (ArtnetLight.entity h') = true /\
    ArtnetLight.brightness (ArtnetLight.entity h') = Some brightness /\
    ArtnetLight.scheduled_updates h' = S (ArtnetLight.scheduled_updates h) /\
    (forall c : Z, In c (ArtnetLight._channels (ArtnetLight.entity h)) ->
       get_channel_level c (ArtnetLight.controller h')
       = (Ok brightness, ArtnetLight.controller h')) /\
    (forall c : Z, 1 <= c <= _number_of_channels (self (ArtnetLight.controller h)) ->
       ~ In c (ArtnetLight._channels (ArtnetLight.entity h)) ->
       get_channel_level c (ArtnetLight.controller h')
       = (Ok (level (_channels (self (ArtnetLight.controller h))) c),
          ArtnetLight.controller h')).
Proof.
  destruct h as [e [g tr] u]. cbn [ArtnetLight.controller ArtnetLight.entity self
                                     ArtnetLight.scheduled_updates].
  intros Ht Hb Hbyte Hg Hc Hn.
  destruct (async_turn_on_dimmer_run e g tr u kw brightness Ht Hb Hbyte Hg Hc Hn)
    as (events & Hrun & _).
  destruct (switched_on_fixture kw e) as (_ & _ & Es & Eb & _).
  eexists. split; [exact Hrun |].
  cbn [ArtnetLight.controller ArtnetLight.entity ArtnetLight.scheduled_updates].
  split; [exact Es |]. split; [unfold ArtnetLight.brightness; rewrite Eb; exact Hb |].
  split; [reflexivity |]. split.
  - intros c Hin. apply faded_level; assumption.
  - intros c Hcv Hout. apply faded_other; assumption.
Qed.

Lemma dimmer_turn_on_witness :
  exists h' : ArtnetLight.home,
    ArtnetLight.async_turn_on
      {| ATTR_BRIGHTNESS := Some 200; ATTR_RGB_COLOR := None; ATTR_TRANSITION := Some (Float (3 # 2)) |}
      (at_home desk_light (with_channels stage [131; 60; 0; 10]))
    = (Returns tt, h') /\
    ArtnetLight.is_on (ArtnetLight.entity h') = true /\
    ArtnetLight.brightness (ArtnetLight.entity h') = Some 200 /\
    get_channel_level 4 (ArtnetLight.controller h') = (Ok 200, ArtnetLight.controller h').
Proof.
  destruct (dimmer_turn_on (at_home desk_light (with_channels stage [131; 60; 0; 10]))
              {| ATTR_BRIGHTNESS := Some 200; ATTR_RGB_COLOR := None;
                 ATTR_TRANSITION := Some (Float (3 # 2)) |} 200)
    as (h' & Hrun & Hon & Hb & _ & Hlevel & _).
  - reflexivity.
  - reflexivity.
  - lia.
  - split; [reflexivity | repeat constructor; unfold byte; lia].
  - repeat constructor; simpl; lia.
  - vm_compute. reflexivity.
  - exists h'. split; [exact Hrun |]. split; [exact Hon |]. split; [exact Hb |].
    apply Hlevel. simpl. tauto.
Defined.





Lemma scaled_byte (component brightness : Z) :
  0 <= component <= 255 -> 0 <= brightness <= 255 ->
  0 <= (2 * component * brightness + 255) / 510 <= component.
Proof.
  intros Hc Hb.
  pose proof (Z.div_mod (2 * component * brightness + 255) 510 ltac:(lia)) as Hd.
  pose proof (Z.mod_pos_bound (2 * component * brightness + 255) 510 ltac:(lia)) as Hm.
  assert (H0 : 0 <= component * brightness) by nia.
  assert (H1 : component * brightness <= component * 255) by nia.
  set (w := component * brightness) in *.
  replace (2 * component * brightness) with (2 * w) in * by (subst w; ring).
  lia.
Qed.

(** X25. Turning on an RGB light on three consecutive channels of the
    buffer, with the colour and brightness of the call or else the ones it
    has kept, returns with each channel at the integer nearest to
    [component * brightness / 255]. *)
Theorem rgb_turn_on (h : ArtnetLight.home) (kw : kwargs)
    (r g b : Z) (rest : list Z) (brightness channel : Z) :
  ArtnetLight._type (ArtnetLight.entity h) = CONF_LIGHT_TYPE_RGB ->
  ArtnetLight._channels (ArtnetLight.entity h) = [channel; channel + 1; channel + 2] ->
  match ATTR_RGB_COLOR kw with
  | Some rgb => Some rgb
  | None => ArtnetLight.rgb_color (ArtnetLight.entity h)
  end = Some (r :: g :: b :: rest) ->
  match ATTR_BRIGHTNESS kw with
  | Some v => Some v
  | None => ArtnetLight.brightness (ArtnetLight.entity h)
  end = Some brightness ->
  0 <= r <= 255 -> 0 <= g <= 255 -> 0 <= b <= 255 -> 0 <= brightness <= 255 ->
  well_formed (self (ArtnetLight.controller h)) ->
  1 <= channel ->
  channel + 2 <= _number_of_channels (self (ArtnetLight.controller h)) ->
  number_of_frames (Int (int (ArtnetLight.transition kw))) (Int 40) < 2 ^ 53 ->
  exists h' : ArtnetLight.home,
    ArtnetLight.async_turn_on kw h = (Returns tt, h') /\
    ArtnetLight.is_on (ArtnetLight.entity h') = true /\
    ArtnetLight.brightness (ArtnetLight.entity h') = Some brightness /\
    ArtnetLight.rgb_color (ArtnetLight.entity h') = Some (r :: g :: b :: rest) /\
    ArtnetLight.scheduled_updates h' = S (ArtnetLight.scheduled_updates h) /\
    get_channel_level channel (ArtnetLight.controller h')
    = (Ok ((2 * r * brightness + 255) / 510), ArtnetLight.controller h') /\
    get_channel_level (channel + 1) (ArtnetLight.controller h')
    = (Ok ((2 * g * brightness + 255) / 510), ArtnetLight.controller h') /\
    get_channel_level (channel + 2) (ArtnetLight.controller h')
    = (Ok ((2 * b * brightness + 255) / 510), ArtnetLight.controller h').
Proof.
  destruct h as [e [gw tr] u]. cbn [ArtnetLight.controller ArtnetLight.entity self
                                      ArtnetLight.scheduled_updates].
  intros Ht Hch Hrgb Hbr Hr Hg Hb Hv Hgw Hc1 Hc2 Hn.
  unfold ArtnetLight.brightness, ArtnetLight.rgb_color in Hbr, Hrgb.
  destruct (switched_on_fixture kw e) as (Et & Ec & Es & Eb & Ergb).
  set (values := [(2 * r * brightness + 255) / 510; (2 * g * brightness + 255) / 510;
                  (2 * b * brightness + 255) / 510]).
  assert (Hvalues : Forall byte (value_arr (Several values))).
  { pose proof (scaled_byte r brightness Hr Hv). pose proof (scaled_byte g brightness Hg Hv).
    pose proof (scaled_byte b brightness Hb Hv).
    repeat constructor; unfold byte; lia. }
  assert (Hchs : Forall (fun c => 1 <= c <= _number_of_channels gw)
                   [channel; channel + 1; channel + 2])
    by (repeat constructor; lia).
  assert (Hne : value_arr (Several values) <> []) by discriminate.
  eexists. split.
  - rewrite async_turn_on_assigns. rewrite Et, Ec, Eb, Ergb, Ht, Hbr.
    rewrite Hrgb, Hch.
    change (String.eqb CONF_LIGHT_TYPE_RGB CONF_LIGHT_TYPE_RGB) with true. cbv iota.
    erewrite then_returns.
    2:{ erewrite then_returns by reflexivity.
        erewrite then_returns by reflexivity.
        erewrite then_returns
          by (apply builtin_ok, scale_rgb_closed_form; assumption).
        apply on_controller_ok. cbn [ArtnetLight.controller].
        apply (fade_channels_from gw tr [channel; channel + 1; channel + 2] (Several values));
          try assumption.
        exact fps_40. }
    reflexivity.
  - cbn [ArtnetLight.controller ArtnetLight.entity ArtnetLight.scheduled_updates].
    split; [exact Es |].
    split; [unfold ArtnetLight.brightness; rewrite Eb; exact Hbr |].
    split; [unfold ArtnetLight.rgb_color; rewrite Ergb; exact Hrgb |].
    split; [reflexivity |].
    assert (Hlevel : forall (x : nat) (c v : Z),
              [channel; channel + 1; channel + 2] !! x = Some c ->
              values !! x = Some v ->
              forall tr' : list event,
              get_channel_level c
                (put gw
                   (frames_buffer (_channels gw) (value_arr (Several values))
                      (number_of_frames (Int (int (ArtnetLight.transition kw))) (Int 40))
                      [channel; channel + 1; channel + 2]
                      (range 1 (number_of_frames (Int (int (ArtnetLight.transition kw)))
                                  (Int 40) + 1)) (_channels gw)) tr')
              = (Ok v,
                 put gw
                   (frames_buffer (_channels gw) (value_arr (Several values))
                      (number_of_frames (Int (int (ArtnetLight.transition kw))) (Int 40))
                      [channel; channel + 1; channel + 2]
                      (range 1 (number_of_frames (Int (int (ArtnetLight.transition kw)))
                                  (Int 40) + 1)) (_channels gw)) tr')).
    { intros x c v Hx Hvx tr'.
      assert (Hcv : 1 <= c <= _number_of_channels gw).
      { rewrite Forall_lookup in Hchs. exact (Hchs x c Hx). }
      rewrite get_channel_level_put
        by (rewrite frames_buffer_length, (wf_length gw Hgw); exact Hcv).
      rewrite (fade_result_level gw [channel; channel + 1; channel + 2] (Several values)
                 (Int (int (ArtnetLight.transition kw))) (Int 40)
                 Hgw Hchs Hne Hvalues Hn x c Hx).
      - do 2 f_equal.
        destruct x as [| [| [| x]]]; simpl in Hx, Hvx; try discriminate;
          injection Hvx as <-; reflexivity.
      - intros y Hlt Hy.
        destruct x as [| [| [| x]]], y as [| [| [| y]]]; simpl in Hx, Hy;
          try discriminate; try lia;
          injection Hx as <-; injection Hy as Hy; lia. }
    split; [| split].
    + apply (Hlevel 0%nat); reflexivity.
    + apply (Hlevel 1%nat); reflexivity.
    + apply (Hlevel 2%nat); reflexivity.
Qed.

Lemma rgb_turn_on_witness :
  exists h' : ArtnetLight.home,
    ArtnetLight.async_turn_on
      {| ATTR_BRIGHTNESS := Some 100; ATTR_RGB_COLOR := Some [255; 128; 3];
         ATTR_TRANSITION := None |}
      (at_home spot_light (with_channels stage [131; 60; 0; 10]))
    = (Returns tt, h') /\
    get_channel_level 1 (ArtnetLight.controller h') = (Ok 100, ArtnetLight.controller h') /\
    get_channel_level 2 (ArtnetLight.controller h') = (Ok 50, ArtnetLight.controller h') /\
    get_channel_level 3 (ArtnetLight.controller h') = (Ok 1, ArtnetLight.controller h').
Proof.
  destruct (rgb_turn_on (at_home spot_light (with_channels stage [131; 60; 0; 10]))
              {| ATTR_BRIGHTNESS := Some 100; ATTR_RGB_COLOR := Some [255; 128; 3];
                 ATTR_TRANSITION := None |} 255 128 3 [] 100 1)
    as (h' & Hrun & _ & _ & _ & _ & H1 & H2 & H3).
  - reflexivity.
  - reflexivity.
  - reflexivity.
  - reflexivity.
  - lia.
  - lia.
  - lia.
  - lia.
  - split; [reflexivity | repeat constructor; unfold byte; lia].
  - lia.
  - simpl. lia.
  - vm_compute. reflexivity.
  - exists h'. split; [exact Hrun |]. split; [exact H1 |]. split; [exact H2 | exact H3].
Defined.

(** X26. An RGB light whose channels reach past the end of the buffer can
    be switched neither on nor off: both calls raise [IndexError] in the
    first frame, nothing is sent and no state update is scheduled.
    [async_turn_on] has by then recorded the light as on;
    [async_turn_off] leaves the entity as it was.  (Colour and brightness
    are bytes and the transition is [moderate], with fewer than [2^53]
    frames, as Home Assistant passes them: beyond them the float
    arithmetic of the code can overflow before the index is reached.) *)
Theorem switching_past_the_end (h : ArtnetLight.home) (kw : kwargs)
    (pre : list Z) (c : Z) (post : list Z) (r g b : Z) (rest : list Z) (brightness : Z) :
  ArtnetLight._type (ArtnetLight.entity h) = CONF_LIGHT_TYPE_RGB ->
  ArtnetLight._channels (ArtnetLight.entity h) = pre ++ c :: post ->
  Forall (fun c' => 1 <= c' <= _number_of_channels (self (ArtnetLight.controller h))) pre ->
  _number_of_channels (self (ArtnetLight.controller h)) < c ->
  well_formed (self (ArtnetLight.controller h)) ->
  match ATTR_RGB_COLOR kw with
  | Some rgb => Some rgb
  | None => ArtnetLight.rgb_color (ArtnetLight.entity h)
  end = Some (r :: g :: b :: rest) ->
  match ATTR_BRIGHTNESS kw with
  | Some v => Some v
  | None => ArtnetLight.brightness (ArtnetLight.entity h)
  end = Some brightness ->
  0 <= r <= 255 -> 0 <= g <= 255 -> 0 <= b <= 255 ->
  0 <= brightness <= 255 ->
  moderate (ArtnetLight.transition kw) ->
  number_of_frames (Int (int (ArtnetLight.transition kw))) (Int 40) < 2 ^ 53 ->
  number_of_frames (ArtnetLight.transition kw) (Int 40) < 2 ^ 53 ->
  (exists h' : ArtnetLight.home,
     ArtnetLight.async_turn_on kw h = (Raises (Builtin IndexError), h') /\
     ArtnetLight.is_on (ArtnetLight.entity h') = true /\
     trace (ArtnetLight.controller h') = trace (ArtnetLight.controller h) /\
     ArtnetLight.scheduled_updates h' = ArtnetLight.scheduled_updates h)
  /\
  (exists h' : ArtnetLight.home,
     ArtnetLight.async_turn_off kw h = (Raises (Builtin IndexError), h') /\
     ArtnetLight.entity h' = ArtnetLight.entity h /\
     trace (ArtnetLight.controller h') = trace (ArtnetLight.controller h) /\
     ArtnetLight.scheduled_updates h' = ArtnetLight.scheduled_updates h).
Proof.
  destruct h as [e [gw tr] u]. cbn [ArtnetLight.controller ArtnetLight.entity self trace
                                      ArtnetLight.scheduled_updates].
  intros Ht Hch Hpre Hc Hgw Hrgb Hbr _ _ _ _ _ _ _.
  unfold ArtnetLight.brightness, ArtnetLight.rgb_color in Hbr, Hrgb.
  destruct (switched_on_fixture kw e) as (Et & Ec & Es & Eb & Ergb).
  split.
  - eexists. split.
    + rewrite async_turn_on_assigns. rewrite Et, Ec, Eb, Ergb, Ht, Hbr.
      rewrite Hrgb, Hch.
      change (String.eqb CONF_LIGHT_TYPE_RGB CONF_LIGHT_TYPE_RGB) with true. cbv iota.
      apply then_raises.
      erewrite then_returns by reflexivity.
      erewrite then_returns by reflexivity.
      erewrite then_returns.
      2:{ apply builtin_ok. unfold scale_rgb_to_brightness, and_then, int_truediv.
          change (255 =? 0) with false. cbv beta iota.
          assert (Hlen : 3 <= len (r :: g :: b :: rest)) by (unfold len; simpl length; lia).
          rewrite !getitem_nonneg by lia. reflexivity. }
      apply on_controller_raise. cbn [ArtnetLight.controller].
      apply fade_past_the_end_from; try assumption. discriminate.
    + cbn [ArtnetLight.controller ArtnetLight.entity ArtnetLight.scheduled_updates].
      split; [exact Es |]. split; reflexivity.
  - eexists. split.
    + unfold ArtnetLight.async_turn_off.
      erewrite then_returns by reflexivity.
      cbn [ArtnetLight.entity]. rewrite Hch.
      apply then_raises.
      apply on_controller_raise. cbn [ArtnetLight.controller].
      apply fade_past_the_end_from; try assumption. discriminate.
    + cbn [ArtnetLight.controller ArtnetLight.entity ArtnetLight.scheduled_updates].
      split; [reflexivity |]. split; reflexivity.
Qed.

Lemma switching_past_the_end_witness :
  (exists h' : ArtnetLight.home,
     ArtnetLight.async_turn_on no_kwargs (at_home spot_light demo)
     = (Raises (Builtin IndexError), h') /\
     ArtnetLight.is_on (ArtnetLight.entity h') = true /\
     trace (ArtnetLight.controller h') = [] /\
     ArtnetLight.scheduled_updates h' = 0%nat)
  /\
  (exists h' : ArtnetLight.home,
     ArtnetLight.async_turn_off no_kwargs (at_home spot_light demo)
     = (Raises (Builtin IndexError), h') /\
     ArtnetLight.entity h' = spot_light /\
     trace (ArtnetLight.controller h') = [] /\
     ArtnetLight.scheduled_updates h' = 0%nat).
Proof.
  apply (switching_past_the_end (at_home spot_light demo) no_kwargs [1; 2] 3 []
           254 115 0 [] 132).
  - reflexivity.
  - reflexivity.
  - repeat constructor; simpl; lia.
  - simpl. lia.
  - exact demo_well_formed.
  - reflexivity.
  - reflexivity.
  - lia.
  - lia.
  - lia.
  - lia.
  - simpl. lia.
  - vm_compute. reflexivity.
  - vm_compute. reflexivity.
Defined.

(** * Setting up the platform *)

Lemma then_returned {S A B : Type} (m : L S A) (k : A -> L S B) (s s' : S) (b : B) :
  then_ m k s = (Returns b, s') ->
  exists (a : A) (s1 : S), m s = (Returns a, s1) /\ k a s1 = (Returns b, s').
Proof.
  unfold then_. destruct (m s) as [[a | e] s1]; [| discriminate].
  intros H. exists a, s1. split; [reflexivity | exact H].
Qed.

Lemma init_name (light : device) (s s' : state) (e : ArtnetLight.t) :
  ArtnetLight.__init__ light s = (Returns e, s') ->
  ArtnetLight.name e = device_name light /\
  ArtnetLight._channel e = device_channel light.
Proof.
  unfold ArtnetLight.__init__. intros H.
  apply then_returned in H as (_type & s1 & _ & H).
  apply then_returned in H as (color & s2 & _ & H).
  apply then_returned in H as (brightness & s3 & _ & H).
  injection H as <- _. split; reflexivity.
Qed.

Lemma add_devices_keeps (tr : list event) (devices : list device) :
  keeps (synchronised tr) (add_devices devices).
Proof.
  induction devices as [| light rest IH]; simpl.
  - apply keeps_unit.
  - apply keeps_then; [apply init_keeps_synchronised | intros e].
    apply keeps_then; [exact IH | intros es]. apply keeps_unit.
Qed.

Lemma add_devices_names (devices : list device) :
  forall (s s' : state) (entities : list ArtnetLight.t),
  add_devices devices s = (Returns entities, s') ->
  map ArtnetLight.name entities = map device_name devices /\
  map ArtnetLight._channel entities = map device_channel devices.
Proof.
  induction devices as [| light rest IH]; intros s s' entities H; simpl in H.
  - injection H as <- _. split; reflexivity.
  - apply then_returned in H as (e & s1 & He & H).
    apply then_returned in H as (es & s2 & Hes & H).
    injection H as <- _. simpl.
    destruct (init_name light s s1 e He) as [E1 E2].
    destruct (IH s1 s2 es Hes) as [E3 E4].
    rewrite E1, E2, E3, E4. split; reflexivity.
Qed.

(** X27. [async_setup_platform] raises [TypeError] when the configuration
    has no [default_level].  When it returns, for a default level in
    [0, 255], nothing has been handed to the socket, the gateway satisfies
    the class invariant, and there is one entity per configured device, in
    the order of the configuration. *)
Theorem async_setup_platform_outcome (config : platform) :
  (platform_default_level config = None ->
   async_setup_platform config = Raises TypeError)
  /\
  (forall (default_level : Z) (entities : list ArtnetLight.t) (s : state),
     platform_default_level config = Some default_level ->
     0 <= default_level <= 255 ->
     0 <= platform_dmx_channels config ->
     async_setup_platform config = Returns (entities, s) ->
     trace s = [] /\
     well_formed (self s) /\
     map ArtnetLight.name entities = map device_name (platform_devices config) /\
     map ArtnetLight._channel entities = map device_channel (platform_devices config)).
Proof.
  split.
  - intros H. unfold async_setup_platform. rewrite H. reflexivity.
  - intros default_level entities s Hd Hbyte Hn. unfold async_setup_platform. rewrite Hd.
    destruct (__init__ _ _ _ _) as [dmx | e] eqn:Einit; [| discriminate].
    pose proof (init_well_formed _ _ _ _ _ Einit Hn Hbyte) as Hwf.
    pose proof (add_devices_keeps [] (platform_devices config)
                  {| self := dmx; trace := [] |} (conj eq_refl Hwf)) as [Ht Hw].
    destruct (add_devices _ _) as [[es | e] s1] eqn:Eadd; [| discriminate].
    intros [= <- <-]. simpl in Ht, Hw.
    destruct (add_devices_names _ _ _ _ Eadd) as [E1 E2].
    repeat split; assumption || apply Hw.
Qed.

Lemma async_setup_platform_outcome_witness :
  async_setup_platform
    {| platform_host := "dmx"; platform_dmx_channels := 4; platform_port := None;
       platform_default_level := None; platform_devices := [spot; desk] |}
  = Raises TypeError
  /\ async_setup_platform living_room
      = Returns ([spot_light; desk_light], put stage [131; 60; 0; 10] [])
  /\ trace (put stage [131; 60; 0; 10] []) = []
  /\ well_formed (self (put stage [131; 60; 0; 10] []))
  /\ map ArtnetLight.name [spot_light; desk_light]
      = map device_name (platform_devices living_room).
Proof.
  assert (E : async_setup_platform living_room
              = Returns ([spot_light; desk_light], put stage [131; 60; 0; 10] []))
    by (vm_compute; reflexivity).
  split; [apply (proj1 (async_setup_platform_outcome _)); reflexivity |].
  split; [exact E |].
  destruct (proj2 (async_setup_platform_outcome living_room) 0 [spot_light; desk_light]
              (put stage [131; 60; 0; 10] []) eq_refl ltac:(lia) ltac:(simpl; lia) E)
    as (H1 & H2 & H3 & _).
  repeat split; assumption || apply H2.
Defined.
